(** * iperf3-plotz: the ASCII plotter (code/plotter-ascii.py)

    A shallow embedding of the text-chart pipeline of [plotter-ascii.py]
    and the properties of its specification.

    Modelling conventions.
    - A Python [str] is a [list ascii]; a character is a code point of the
      range U+0000..U+00FF (Rocq's [ascii] read as Latin-1).  The character
      classes are those of CPython restricted to that range.
    - Python integers are [Z]; list and string indices are [Z], with
      Python's wrap-around for negative indices and [IndexError] outside
      the list.
    - Code that can raise lives in the [result] monad; code that prints,
      writes files or runs the plotting engine lives in the [io] monad,
      which also records the events in order.
    - [ConfigManager] wraps [configparser]; the embedding starts from the
      resolved profile ([Config]), one typed field per option read by the
      tool.
    - The JSON document has the shape of its interface: records whose
      fields are [None] when the key is absent; a number is a Python [int]
      or a binary64 [float] and is only ever copied.
    - The input file, the engine, fixed-point formatting and [pathlib] are
      the surroundings of a run ([Env]).  Formatting a number can raise, as
      [str.format] does on an [int] too large for a [float] or on a
      negative precision.  Creating the output directory, opening a file
      and writing to it succeed, and the input file is missing, is not
      JSON, or holds a record of the shape above.

    The first part embeds the source, function by function and under the
    names of the source.  The second part gives each pass as a function of
    the grid, and what is observed of records and traces.  The third part
    proves the properties. *)

From Stdlib Require Import ZArith Ascii String List Lia Bool SpecFloat.
From stdpp Require Import base tactics option list list_numbers strings pretty.

Open Scope Z_scope.

(** ** Python strings *)

Abbreviation str := (list ascii).

Definition lit (s : string) : str := list_ascii_of_string s.

Definition len {A : Type} (l : list A) : Z := Z.of_nat (length l).

Definition char_eqb (a b : ascii) : bool := Ascii.eqb a b.

Definition str_eqb (a b : str) : bool := bool_decide (a = b).

Definition code (c : ascii) : N := N_of_ascii c.

(** [str.isspace] / [\s] (Py_UNICODE_ISSPACE) below U+0100:
    TAB..CR, FS..US, SPACE, NEL and NBSP. *)
Definition isspace (c : ascii) : bool :=
  let n := code c in
  ((9 <=? n) && (n <=? 13) || (28 <=? n) && (n <=? 32) || (n =? 133) || (n =? 160))%N.

(** [\d] and [0-9]: the decimal digits below U+0100. *)
Definition isdecimal (c : ascii) : bool :=
  let n := code c in ((48 <=? n) && (n <=? 57))%N.

(** [str.isdigit]: the decimal digits and the superscripts U+00B2, U+00B3,
    U+00B9. *)
Definition isdigit (c : ascii) : bool :=
  let n := code c in
  (isdecimal c || (n =? 178) || (n =? 179) || (n =? 185))%N.

Fixpoint drop_while {A : Type} (p : A -> bool) (l : list A) : list A :=
  match l with
  | [] => []
  | x :: l' => if p x then drop_while p l' else l
  end.

Fixpoint take_while {A : Type} (p : A -> bool) (l : list A) : list A :=
  match l with
  | [] => []
  | x :: l' => if p x then x :: take_while p l' else []
  end.

Definition lstrip (s : str) : str := drop_while isspace s.
Definition rstrip (s : str) : str := rev (drop_while isspace (rev s)).
(** [s.strip()] *)
Definition strip (s : str) : str := rstrip (lstrip s).

Fixpoint startswith (p s : str) : bool :=
  match p, s with
  | [], _ => true
  | _ :: _, [] => false
  | a :: p', b :: s' => char_eqb a b && startswith p' s'
  end.

(** [p in s] *)
Fixpoint contains (p s : str) : bool :=
  startswith p s ||
  match s with
  | [] => false
  | _ :: s' => contains p s'
  end.

(** [s.find(c)] for a one-character [c] *)
Fixpoint find (c : ascii) (s : str) : Z :=
  match s with
  | [] => -1
  | a :: s' =>
      if char_eqb a c then 0
      else let r := find c s' in if r =? -1 then -1 else r + 1
  end.

(** [s.rfind(c)] for a one-character [c] *)
Fixpoint rfind (c : ascii) (s : str) : Z :=
  match s with
  | [] => -1
  | a :: s' =>
      let r := rfind c s' in
      if r =? -1 then (if char_eqb a c then 0 else -1) else r + 1
  end.

(** [s.count(c)] for a one-character [c] *)
Fixpoint count (c : ascii) (s : str) : Z :=
  match s with
  | [] => 0
  | a :: s' => (if char_eqb a c then 1 else 0) + count c s'
  end.

(** [s.replace(old, new)] for a one-character [old] *)
Fixpoint replace (old : ascii) (new : str) (s : str) : str :=
  match s with
  | [] => []
  | a :: s' => (if char_eqb a old then new else [a]) ++ replace old new s'
  end.

(** [c * n]: the empty string when [n <= 0] *)
Definition times (c : ascii) (n : Z) : str := replicate (Z.to_nat n) c.

Definition NL : ascii := ascii_of_nat 10.

(** [s.split('\n')]: never the empty list *)
Fixpoint split_nl (s : str) : list str :=
  match s with
  | [] => [[]]
  | c :: s' =>
      if char_eqb c NL then [] :: split_nl s'
      else match split_nl s' with
           | l :: ls => (c :: l) :: ls
           | [] => [[c]]
           end
  end.

(** ['\n'.join(lines)] *)
Fixpoint join_nl (lines : list str) : str :=
  match lines with
  | [] => []
  | [l] => l
  | l :: ls => l ++ NL :: join_nl ls
  end.

Fixpoint enumerate_from {A : Type} (i : Z) (l : list A) : list (Z * A) :=
  match l with
  | [] => []
  | x :: l' => (i, x) :: enumerate_from (i + 1) l'
  end.

(** [enumerate(l)] *)
Definition enumerate {A : Type} (l : list A) : list (Z * A) := enumerate_from 0 l.

(** [range(a, b)] *)
Definition range (a b : Z) : list Z := seqZ a (b - a).

(** ** Exceptions *)

Inductive exn : Type :=
| IndexError
| KeyError (key : string)
| ValueError
| FileNotFoundError
| JSONDecodeError
| CalledProcessError
| OverflowError.

Inductive result (A : Type) : Type :=
| Ok (a : A)
| Raise (e : exn).
Arguments Ok {A} a.
Arguments Raise {A} e.

Global Instance result_bind : MBind result := fun A B k m =>
  match m with
  | Ok a => k a
  | Raise e => Raise e
  end.

Global Instance result_ret : MRet result := fun A a => Ok a.

(** A [for] loop whose body may raise. *)
Fixpoint for_each {S A : Type} (body : S -> A -> result S) (s : S) (xs : list A)
  : result S :=
  match xs with
  | [] => Ok s
  | x :: xs' => s' ← body s x; for_each body s' xs'
  end.

(** The position a Python index denotes in a sequence of [n] items. *)
Definition py_index (n : nat) (i : Z) : option nat :=
  let j := if i <? 0 then i + Z.of_nat n else i in
  if (0 <=? j) && (j <? Z.of_nat n) then Some (Z.to_nat j) else None.

(** [l[i]] *)
Definition py_get {A : Type} (l : list A) (i : Z) : result A :=
  match py_index (length l) i with
  | Some k => match l !! k with Some x => Ok x | None => Raise IndexError end
  | None => Raise IndexError
  end.

(** [l[i] = x] *)
Definition py_set {A : Type} (l : list A) (i : Z) (x : A) : result (list A) :=
  match py_index (length l) i with
  | Some k => Ok (<[k := x]> l)
  | None => Raise IndexError
  end.

(** ** The resolved configuration (the keys of config.ini read by the tool) *)

Record Config : Type := {
  default_input_file : str;
  default_output_dir : str;
  graph_width : Z;
  graph_height : Z;
  precision_digits : Z;
  plot_char_primary : str;
  plot_char_secondary : str;
  plot_char_points : str;
  plot_style : str;
  show_ylabel_inline : bool;
  ylabel_position : str;
  ylabel_rotation : str;
  compact_ylabel : bool;
  show_axis_info_below : bool;
  terminal_type : str;
  enable_grid : bool;
  enable_legend : bool;
  legend_position : str;
  verbose_output : bool;
  track_sender_bytes : bool;
  track_receiver_bytes : bool;
  track_packet_loss : bool;
  track_jitter : bool
}.

(** [ConfigManager._set_defaults] *)
Definition default_config : Config := {|
  default_input_file := lit "data/data.json";
  default_output_dir := lit "graphs_ascii";
  graph_width := 120;
  graph_height := 30;
  precision_digits := 6;
  plot_char_primary := lit "*";
  plot_char_secondary := lit "A";
  plot_char_points := lit "+";
  plot_style := lit "linespoints";
  show_ylabel_inline := true;
  ylabel_position := lit "left";
  ylabel_rotation := lit "vertical";
  compact_ylabel := true;
  show_axis_info_below := false;
  terminal_type := lit "dumb";
  enable_grid := true;
  enable_legend := true;
  legend_position := lit "top left";
  verbose_output := true;
  track_sender_bytes := true;
  track_receiver_bytes := true;
  track_packet_loss := true;
  track_jitter := true
|}.

(** ** The ASCII post-processor: [_post_process_ascii_output] *)

(** *** Pass 1: the rows of the plot box *)

(** The loop [for i, line in enumerate(lines)] that records the first and
    the last row holding a [|] and longer than 50 characters. *)
Definition detect_box (lines : list str) : Z * Z :=
  fold_left
    (fun '(graph_start, graph_end) '(i, line) =>
       if contains (lit "|") line && (50 <? len line)
       then ((if graph_start =? -1 then i else graph_start), i)
       else (graph_start, graph_end))
    (enumerate lines) (-1, -1).

(** *** Pass 2: glyph substitution and decoration stripping *)

Definition protected_phrases : list str :=
  [lit "Network"; lit "Measurement Data"; lit "X Axis:"; lit "Y Axis:"].

(** [any(phrase in line for phrase in [...])] *)
Definition is_protected (line : str) : bool :=
  existsb (fun phrase => contains phrase line) protected_phrases.

(** The two [replace] calls that write the configured glyphs. *)
Definition substitute_glyphs (cfg : Config) (line : str) : str :=
  let primary_char := plot_char_primary cfg in
  let secondary_char := plot_char_secondary cfg in
  let line :=
    if contains (lit "*") line && negb (str_eqb primary_char (lit "*"))
    then replace "*" primary_char line else line in
  let line :=
    if contains (lit "A") line && negb (str_eqb secondary_char (lit "A"))
    then replace "A" secondary_char line else line in
  line.

(** The [replace] calls that blank dashes, underscores and plus signs. *)
Definition strip_decorations (line : str) : str :=
  let line := replace "_" (lit " ") (replace "-" (lit " ") line) in
  let line := if contains (lit "+") line then replace "+" (lit " ") line else line in
  line.

(** The body of the loop for a row that is not protected. *)
Definition process_row (cfg : Config) (line : str) : str :=
  strip_decorations (substitute_glyphs cfg line).

(** The loop [for i, line in enumerate(lines): ... lines[i] = line].  The
    body writes row [i] only, so the row the iterator yields at step [i] is
    [lines[i]]. *)
Definition substitution_pass (cfg : Config) (lines : list str) : result (list str) :=
  for_each
    (fun (lines : list str) (i : Z) =>
       line ← py_get lines i;
       if is_protected line then Ok lines
       else py_set lines i (process_row cfg line))
    lines (range 0 (len lines)).

(** *** Pass 3: border reconstruction *)

(** [for i in range(graph_start, graph_end + 1)] up to its [break]: the
    columns of the first and last [|] of the first row that has one. *)
Fixpoint typical_pipes (lines : list str) (rows : list Z) : result (Z * Z) :=
  match rows with
  | [] => Ok (-1, -1)
  | i :: rows' =>
      line ← py_get lines i;
      if contains (lit "|") line then
        let first_pipe := find "|" line in
        let last_pipe := rfind "|" line in
        let typical_pipe_start := -1 in
        let typical_pipe_end := -1 in
        if typical_pipe_start =? -1 then Ok (first_pipe, last_pipe)
        else Ok (typical_pipe_start, typical_pipe_end)
      else typical_pipes lines rows'
  end.

(** The first test on a stripped, non-empty row: [line_stripped[0].isdigit()
    or (len(line_stripped) > 1 and line_stripped[0] == '0' and
    line_stripped[1] == '.') or line_stripped.startswith(tuple('123456789'))]. *)
Definition starts_like_number (line_stripped : str) : result bool :=
  c0 ← py_get line_stripped 0;
  if isdigit c0 then Ok true
  else
    zero_dot ←
      (if 1 <? len line_stripped then
         c0' ← py_get line_stripped 0;
         if char_eqb c0' "0" then
           c1 ← py_get line_stripped 1; Ok (char_eqb c1 ".")
         else Ok false
       else Ok false);
    if (zero_dot : bool) then Ok true
    else Ok (existsb (fun d => startswith [d] line_stripped) (lit "123456789")).

(** [re.match(r'^\s*\d+\s+\d+\s+\d+', s)]: the classes [\s] and [\d] are
    disjoint, so every repetition but the last has to take its whole run. *)
Definition re_x_axis_scale (s : str) : bool :=
  let s1 := drop_while isspace s in
  let d1 := take_while isdecimal s1 in
  let s2 := drop_while isdecimal s1 in
  let w1 := take_while isspace s2 in
  let s3 := drop_while isspace s2 in
  let d2 := take_while isdecimal s3 in
  let s4 := drop_while isdecimal s3 in
  let w2 := take_while isspace s4 in
  let s5 := drop_while isspace s4 in
  let d3 := take_while isdecimal s5 in
  (0 <? len d1) && (0 <? len w1) && (0 <? len d2) && (0 <? len w2) && (0 <? len d3).

(** [if first_y_line == -1: first_y_line = i] then [last_y_line = i] *)
Definition mark_tick_row (ys : Z * Z) (i : Z) : Z * Z :=
  let '(first_y_line, last_y_line) := ys in
  ((if first_y_line =? -1 then i else first_y_line), i).

(** The body of the loop [for i in range(len(lines))] that looks for rows
    opening with a y-axis value. *)
Definition tick_row_step (lines : list str) (ys : Z * Z) (i : Z) : result (Z * Z) :=
  line ← py_get lines i;
  let line_stripped := strip line in
  if 0 <? len line_stripped then
    numeric ← starts_like_number line_stripped;
    if (numeric : bool) then
      if contains (lit "e ") line_stripped || contains (lit "e+") line_stripped
         || contains (lit "e-") line_stripped
      then Ok (mark_tick_row ys i)
      else if (count " " line_stripped <=? 2)
              && existsb isdigit (take 15 line_stripped)
      then
        if negb (re_x_axis_scale line_stripped) then Ok (mark_tick_row ys i)
        else Ok ys
      else Ok ys
    else Ok ys
  else Ok ys.

Definition tick_rows (lines : list str) : result (Z * Z) :=
  for_each (tick_row_step lines) (-1, -1) (range 0 (len lines)).

(** The class [[0-9.e+\-\s]] *)
Definition in_numeric_class (c : ascii) : bool :=
  isdecimal c || char_eqb c "." || char_eqb c "e" || char_eqb c "+"
  || char_eqb c "-" || isspace c.

(** Group 1 of [re.search(r'^\s*([0-9.e+\-\s]+)', line)], [None] when there
    is no match.  [\s*] takes the leading white space; the group is the run
    of class characters that follows.  When that run is empty, [\s*] gives
    back its last character, which is then the whole group. *)
Definition re_leading_numeric (line : str) : option str :=
  let ws := take_while isspace line in
  let rest := drop_while isspace line in
  match take_while in_numeric_class rest with
  | (_ :: _) as g => Some g
  | [] => match last ws with Some c => Some [c] | None => None end
  end.

(** The row drawn in place of a tick row: the value right-aligned so that
    it ends one column before the left border, then the rule. *)
Definition border_line (typical_pipe_start border_length : Z) (y_value : str) : str :=
  let y_value_end_pos := typical_pipe_start - 1 in
  let padding_needed := y_value_end_pos - len y_value in
  if 0 <? padding_needed then
    times " " padding_needed ++ y_value ++ lit " " ++ lit "+"
      ++ times "-" border_length ++ lit "+"
  else
    y_value ++ lit " " ++ lit "+" ++ times "-" border_length ++ lit "+".

(** [if row < len(lines): ... lines[row] = border_line] *)
Definition rewrite_tick_row (typical_pipe_start border_length row : Z)
    (lines : list str) : result (list str) :=
  if row <? len lines then
    line ← py_get lines row;
    match re_leading_numeric line with
    | Some g =>
        let y_value := strip g in
        py_set lines row (border_line typical_pipe_start border_length y_value)
    | None => Ok lines
    end
  else Ok lines.

Definition border_pass (graph_start graph_end : Z) (lines : list str)
  : result (list str) :=
  if negb (graph_start =? -1) && negb (graph_end =? -1) then
    '(typical_pipe_start, typical_pipe_end) ←
       typical_pipes lines (range graph_start (graph_end + 1));
    let border_length :=
      if negb (typical_pipe_start =? -1) && negb (typical_pipe_end =? -1)
      then typical_pipe_end - typical_pipe_start - 1
      else 60 in
    '(first_y_line, last_y_line) ← tick_rows lines;
    if negb (first_y_line =? -1) && negb (last_y_line =? -1)
       && negb (typical_pipe_start =? -1)
    then
      lines ← rewrite_tick_row typical_pipe_start border_length first_y_line lines;
      rewrite_tick_row typical_pipe_start border_length last_y_line lines
    else Ok lines
  else Ok lines.

(** *** Pass 4: the vertical y-axis label *)

(** [list(y_label.replace(' ', '_'))] *)
Definition y_chars_of (y_label : str) : str := replace " " (lit "_") y_label.

(** [graph_start + graph_height // 2 - len(y_chars) // 2] *)
Definition middle_start_of (graph_start graph_end : Z) (y_chars : str) : Z :=
  let graph_height := graph_end - graph_start in
  graph_start + graph_height / 2 - len y_chars / 2.

Definition overlay_pass (cfg : Config) (graph_start graph_end : Z) (y_label : str)
    (lines : list str) : result (list str) :=
  if show_ylabel_inline cfg then
    if str_eqb (ylabel_rotation cfg) (lit "vertical")
       && str_eqb (ylabel_position cfg) (lit "left")
    then
      let y_chars := y_chars_of y_label in
      let middle_start := middle_start_of graph_start graph_end y_chars in
      lines ←
        for_each
          (fun (lines : list str) '(i, char) =>
             let line_idx := middle_start + i in
             if (0 <=? line_idx) && (line_idx <? len lines) then
               old ← py_get lines line_idx;
               py_set lines line_idx (char :: lit " " ++ old)
             else Ok lines)
          lines (enumerate y_chars);
      for_each
        (fun (lines : list str) (i : Z) =>
           if (graph_start <=? i) && (i <=? graph_end)
              && negb ((middle_start <=? i) && (i <? middle_start + len y_chars))
           then
             old ← py_get lines i;
             py_set lines i (lit "  " ++ old)
           else Ok lines)
        lines (range 0 (len lines))
    else Ok lines
  else Ok lines.

(** *** Pass 5: the axis descriptions below the chart *)

Fixpoint drop_blank_rows (reversed : list str) : list str :=
  match reversed with
  | [] => []
  | l :: rest => if str_eqb (strip l) [] then drop_blank_rows rest else reversed
  end.

(** [while lines and lines[-1].strip() == '': lines.pop()] *)
Definition pop_trailing_blank (lines : list str) : list str :=
  rev (drop_blank_rows (rev lines)).

Definition metadata_pass (cfg : Config) (y_label x_label : str) (lines : list str)
  : list str :=
  if show_axis_info_below cfg then
    pop_trailing_blank lines
      ++ [[]; lit "X Axis: " ++ x_label; lit "Y Axis: " ++ y_label]
  else lines.

(** *** The whole function *)

(** The grid as it stands after the label overlay, before the metadata
    block is appended and the rows are joined. *)
Definition decorated_grid (cfg : Config) (lines : list str) (y_label : str)
  : result (list str) :=
  let '(graph_start, graph_end) := detect_box lines in
  lines ← substitution_pass cfg lines;
  lines ← border_pass graph_start graph_end lines;
  overlay_pass cfg graph_start graph_end y_label lines.

Definition _post_process_ascii_output (cfg : Config) (raw_output y_label x_label : str)
  : result str :=
  let lines := split_nl raw_output in
  if bool_decide (lines = []) then Ok raw_output
  else
    lines ← decorated_grid cfg lines y_label;
    Ok (join_nl (metadata_pass cfg y_label x_label lines)).

(** ** The measurement record *)

(** A JSON number as [json.load] builds it: an [int] or a binary64 [float]. *)
Inductive number : Type :=
| PyInt (z : Z)
| PyFloat (f : spec_float).

(** One object of a [streams] array.  A field is [None] when the key is
    absent; [sender] is the direction flag. *)
Record StreamSample : Type := {
  sender : option bool;
  end_ : option number;
  bytes : option number;
  lost_percent : option number;
  jitter_ms : option number
}.

Record Interval : Type := {
  streams : option (list StreamSample)
}.

Record MeasurementRecord : Type := {
  intervals : option (list Interval)
}.

(** [d[key]] *)
Definition py_item {A : Type} (key : string) (field : option A) : result A :=
  match field with
  | Some v => Ok v
  | None => Raise (KeyError key)
  end.

(** [d.get(key, fallback)] *)
Definition py_get_or {A : Type} (field : option A) (fallback : A) : A :=
  match field with
  | Some v => v
  | None => fallback
  end.

(** The truth value of [stream.get("sender")] *)
Definition truthy (flag : option bool) : bool :=
  match flag with
  | Some true => true
  | _ => false
  end.

(** [stream.get("sender") is False] *)
Definition is_False (flag : option bool) : bool :=
  match flag with
  | Some false => true
  | _ => false
  end.

(** [(sender_times, sender_bytes, receiver_times, receiver_bytes,
    packet_loss, jitter)] *)
Definition Metrics : Type :=
  (list number * list number * list number * list number
   * list number * list number)%type.

(** The body of the inner loop of [extract_performance_metrics]. *)
Definition extract_stream (acc : Metrics) (stream : StreamSample) : result Metrics :=
  let '(sender_times, sender_bytes, receiver_times, receiver_bytes,
        packet_loss, jitter) := acc in
  if truthy (sender stream) then
    e ← py_item "end" (end_ stream);
    b ← py_item "bytes" (bytes stream);
    Ok (sender_times ++ [e], sender_bytes ++ [b], receiver_times, receiver_bytes,
        packet_loss, jitter)
  else if is_False (sender stream) then
    e ← py_item "end" (end_ stream);
    b ← py_item "bytes" (bytes stream);
    Ok (sender_times, sender_bytes, receiver_times ++ [e], receiver_bytes ++ [b],
        packet_loss ++ [py_get_or (lost_percent stream) (PyInt 0)],
        jitter ++ [py_get_or (jitter_ms stream) (PyInt 0)])
  else Ok acc.

Definition extract_performance_metrics (data : MeasurementRecord) : result Metrics :=
  for_each
    (fun acc interval => for_each extract_stream acc (py_get_or (streams interval) []))
    ([], [], [], [], [], [])
    (py_get_or (intervals data) []).

(** ** The bitmap plotter: the extraction loop of [plotter.py] *)

Module Plotter.

(** [(times, bytes_sent, times_recv, bytes_recv, times_loss, lost_percent,
    times_jitter, jitter_ms)]; the two lists that share their name with a
    key of the stream are [lost_percent_list] and [jitter_ms_list] here. *)
Definition Series : Type :=
  (list number * list number * list number * list number
   * list number * list number * list number * list number)%type.

(** [key in stream] *)
Definition has_key {A : Type} (field : option A) : bool :=
  match field with
  | Some _ => true
  | None => false
  end.

(** The body of the inner loop: two independent [if]s on the direction
    flag, and under the second one an [if] per optional key. *)
Definition extract_stream (acc : Series) (stream : StreamSample) : result Series :=
  let '(times, bytes_sent, times_recv, bytes_recv, times_loss, lost_percent_list,
        times_jitter, jitter_ms_list) := acc in
  '(times, bytes_sent) ←
    (if truthy (sender stream) then
       e ← py_item "end" (end_ stream);
       b ← py_item "bytes" (bytes stream);
       Ok (times ++ [e], bytes_sent ++ [b])
     else Ok (times, bytes_sent));
  if is_False (sender stream) then
    e ← py_item "end" (end_ stream);
    b ← py_item "bytes" (bytes stream);
    '(times_loss, lost_percent_list) ←
      (if has_key (lost_percent stream) then
         e ← py_item "end" (end_ stream);
         v ← py_item "lost_percent" (lost_percent stream);
         Ok (times_loss ++ [e], lost_percent_list ++ [v])
       else Ok (times_loss, lost_percent_list));
    '(times_jitter, jitter_ms_list) ←
      (if has_key (jitter_ms stream) then
         e ← py_item "end" (end_ stream);
         v ← py_item "jitter_ms" (jitter_ms stream);
         Ok (times_jitter ++ [e], jitter_ms_list ++ [v])
       else Ok (times_jitter, jitter_ms_list));
    Ok (times, bytes_sent, times_recv ++ [e], bytes_recv ++ [b],
        times_loss, lost_percent_list, times_jitter, jitter_ms_list)
  else
    Ok (times, bytes_sent, times_recv, bytes_recv,
        times_loss, lost_percent_list, times_jitter, jitter_ms_list).

(** The two nested loops over [data.get("intervals", [])] and
    [interval.get("streams", [])]. *)
Definition extract (data : MeasurementRecord) : result Series :=
  for_each
    (fun acc interval => for_each extract_stream acc (py_get_or (streams interval) []))
    ([], [], [], [], [], [], [], [])
    (py_get_or (intervals data) []).

(** The [start] section as the script reads it.  A field is [None] when
    the key is absent; a value is kept as the text an f-string shows for
    it. *)
Record Timestamp : Type := { time : option str }.

Record TestStart : Type := { protocol : option str }.

Record Connection : Type := {
  local_host : option str;
  remote_host : option str
}.

Record Start : Type := {
  timestamp : option Timestamp;
  test_start : option TestStart;
  connected : option (list Connection)
}.

(** [f"{d.get(key)}"]: the text [None] for an absent key *)
Definition shown (field : option str) : str := py_get_or field (lit "None").

(** The lines from [start = data.get("start", {})] to [info_text]. *)
Definition info_text (start_field : option Start) : result str :=
  let start :=
    py_get_or start_field
      {| timestamp := None; test_start := None; connected := None |} in
  let timestamp := py_get_or (timestamp start) {| time := None |} in
  let protocol :=
    py_get_or (protocol (py_get_or (test_start start) {| protocol := None |}))
      (lit "N/A") in
  connected ←
    py_get (py_get_or (connected start) [{| local_host := None; remote_host := None |}]) 0;
  Ok (lit "Time: " ++ shown (time timestamp) ++ [NL]
        ++ lit "Protocol: " ++ protocol ++ [NL]
        ++ lit "Local Host: " ++ shown (local_host connected) ++ [NL]
        ++ lit "Remote Host: " ++ shown (remote_host connected)).

End Plotter.

(** ** Effects: printing, files and the plotting engine *)

(** What a [print] call says. *)
Inductive message : Type :=
| MsgBannerTitle
| MsgBannerRule
| MsgInputFile (json_path : str)
| MsgOutputDirectory (output_dir : str)
| MsgGraphDimensions (width height : Z)
| MsgGridEnabled (b : bool)
| MsgLegendEnabled (b : bool)
| MsgBlank
| MsgJsonFileNotFound (json_file_path : str)
| MsgInvalidJsonFormat
| MsgError (e : exn)
| MsgFatalError (e : exn)
| MsgExtracting
| MsgNoDataAvailable (metric_name : str)
| MsgGenerating (metric_name : str)
| MsgGraphSaved (metric_name output_file : str)
| MsgGraphFailed (metric_name : str)
| MsgErrorExecutingGnuplot (script_file : str)
| MsgGnuplotNotFound
| MsgProcessingComplete (successful_graphs total : Z)
| MsgGraphsSavedIn (output_dir : str).

(** [WriteFile path content]: the file is opened for writing and closed
    holding [content]. *)
Inductive event : Type :=
| Print (m : message)
| Mkdir (dir : str)
| WriteFile (path content : str)
| RunGnuplot (script_file : str).

(** [sys.exit(code)] raises [SystemExit], which [except Exception] does not
    catch. *)
Inductive signal : Type :=
| Exception (e : exn)
| SystemExit (code : Z).

Inductive outcome (A : Type) : Type :=
| Done (a : A)
| Abort (s : signal).
Arguments Done {A} a.
Arguments Abort {A} s.

(** A computation with effects: the events it performs, in order, and how
    it ends. *)
Definition io (A : Type) : Type := (list event * outcome A)%type.

Definition io_ret {A : Type} (a : A) : io A := ([], Done a).

Definition io_bind {A B : Type} (m : io A) (k : A -> io B) : io B :=
  match m with
  | (t, Done a) => let '(t', r) := k a in (t ++ t', r)
  | (t, Abort s) => (t, Abort s)
  end.

Notation "x <~ m ;; k" := (io_bind m (fun x => k))
  (at level 100, m at next level, right associativity).
Notation "m ;;; k" := (io_bind m (fun _ => k))
  (at level 100, right associativity).

Definition emit (e : event) : io unit := ([e], Done tt).
Definition print (m : message) : io unit := emit (Print m).
Definition raise {A : Type} (e : exn) : io A := ([], Abort (Exception e)).
Definition sys_exit {A : Type} (code : Z) : io A := ([], Abort (SystemExit code)).
Definition when (b : bool) (m : io unit) : io unit := if b then m else io_ret tt.

Definition lift {A : Type} (r : result A) : io A :=
  match r with
  | Ok a => io_ret a
  | Raise e => raise e
  end.

(** [try: body except ...]: [handler e] is the matching clause, if any. *)
Definition try_except {A : Type} (body : io A) (handler : exn -> option (io A)) : io A :=
  match body with
  | (t, Abort (Exception e)) =>
      match handler e with
      | Some h => let '(t', r) := h in (t ++ t', r)
      | None => body
      end
  | _ => body
  end.

Fixpoint io_for_each {S A : Type} (body : S -> A -> io S) (s : S) (xs : list A) : io S :=
  match xs with
  | [] => io_ret s
  | x :: xs' => s' <~ body s x ;; io_for_each body s' xs'
  end.

(** What the file at the input path holds. *)
Inductive json_file : Type :=
| FileMissing
| FileMalformed
| FileParsed (data : MeasurementRecord).

(** How a run of the engine ends. *)
Inductive engine_outcome : Type :=
| EngineNotFound
| EngineFailed
| EngineOutput (stdout : str).

(** The surroundings of a run: the input file, the engine (by script file
    and script), and the library functions for fixed-point formatting and
    for paths.  [format_fixed precision x] is
    [f"{{:.{precision}f}}".format(x)], which returns a text or raises. *)
Record Env : Type := {
  read_json : str -> json_file;
  gnuplot : str -> str -> engine_outcome;
  format_fixed : Z -> number -> result str;
  path_stem : str -> str;
  path_join : str -> str -> str
}.

(** ** [IperfDataProcessor] *)

Record IperfDataProcessor : Type := {
  config : Config;
  json_file_path : str;
  output_dir : str;
  json_name : str;
  data : MeasurementRecord
}.

Definition _load_json_data (env : Env) (json_file_path : str) : io MeasurementRecord :=
  try_except
    (match read_json env json_file_path with
     | FileMissing => raise FileNotFoundError
     | FileMalformed => raise JSONDecodeError
     | FileParsed data =>
         match intervals data with
         | None => raise ValueError
         | Some _ => io_ret data
         end
     end)
    (fun e =>
       match e with
       | FileNotFoundError =>
           Some (print (MsgJsonFileNotFound json_file_path) ;;; sys_exit 1)
       | JSONDecodeError => Some (print MsgInvalidJsonFormat ;;; sys_exit 1)
       | ValueError => Some (print (MsgError ValueError) ;;; sys_exit 1)
       | _ => None
       end).

(** [IperfDataProcessor.__init__] *)
Definition __init__ (env : Env) (json_file_path output_directory : str)
    (cfg : Config) : io IperfDataProcessor :=
  let output_dir :=
    if bool_decide (output_directory = []) then default_output_dir cfg
    else output_directory in
  let json_name := path_stem env json_file_path in
  emit (Mkdir output_dir) ;;;
  data <~ _load_json_data env json_file_path ;;
  io_ret {| config := cfg; json_file_path := json_file_path;
            output_dir := output_dir; json_name := json_name; data := data |}.

(** The loop [for x, y in zip(x_data, y_data): f.write(...)] on the open
    file, [written] being what the file holds so far.  The first value the
    formatter raises on ends the loop: the rows written before stay, and
    the exception goes on. *)
Fixpoint write_rows (env : Env) (precision : Z) (points : list (number * number))
    (written : str) : str * option exn :=
  match points with
  | [] => (written, None)
  | (x, y) :: points' =>
      match format_fixed env precision x with
      | Raise e => (written, Some e)
      | Ok x_text =>
          match format_fixed env precision y with
          | Raise e => (written, Some e)
          | Ok y_text =>
              write_rows env precision points'
                (written ++ x_text ++ lit " " ++ y_text ++ [NL])
          end
      end
  end.

(** The [with] statement closes the file on the way out, also when the
    loop raises. *)
Definition _write_data_file (env : Env) (cfg : Config) (filename : str)
    (x_data y_data : list number) : io unit :=
  let precision := precision_digits cfg in
  let '(content, failure) := write_rows env precision (zip x_data y_data) [] in
  emit (WriteFile filename content) ;;;
  match failure with
  | Some e => raise e
  | None => io_ret tt
  end.

(** [str(n)] for an [int] *)
Definition str_of_int (n : Z) : str := lit (pretty n).

Definition QUOTE : ascii := ascii_of_nat 34.

Definition _generate_gnuplot_script (cfg : Config) (data_file title x_label y_label : str)
  : str :=
  let width := graph_width cfg in
  let height := graph_height cfg in
  let terminal := terminal_type cfg in
  let legend_pos := legend_position cfg in
  let script :=
    if str_eqb terminal (lit "dumb") then
      lit "set terminal " ++ terminal ++ lit " " ++ str_of_int width ++ lit " "
        ++ str_of_int height ++ lit " " ++ [QUOTE] ++ plot_char_primary cfg
        ++ plot_char_secondary cfg ++ plot_char_points cfg ++ [QUOTE] ++ [NL]
    else
      lit "set terminal " ++ terminal ++ lit " " ++ str_of_int width ++ lit " "
        ++ str_of_int height ++ [NL] in
  let script := script ++ lit "set title " ++ [QUOTE] ++ title ++ [QUOTE] ++ [NL] in
  let script :=
    if show_ylabel_inline cfg && compact_ylabel cfg then
      script ++ lit "set ylabel " ++ [QUOTE] ++ y_label ++ [QUOTE] ++ lit " offset 0,0" ++ [NL]
        ++ lit "set format y " ++ [QUOTE] ++ lit "%.2g" ++ [QUOTE] ++ [NL]
    else
      script ++ lit "set ylabel " ++ [QUOTE] ++ y_label ++ [QUOTE] ++ [NL] in
  let script := if enable_grid cfg then script ++ lit "set grid" ++ [NL] else script in
  let script :=
    if enable_legend cfg then script ++ lit "set key " ++ legend_pos ++ [NL]
    else script ++ lit "unset key" ++ [NL] in
  script ++ lit "plot " ++ [QUOTE] ++ data_file ++ [QUOTE] ++ lit " using 1:2 with "
    ++ plot_style cfg ++ lit " title " ++ [QUOTE; QUOTE] ++ [NL].

(** [subprocess.run(["gnuplot", script_file], ..., check=True).stdout] *)
Definition run_gnuplot (env : Env) (script_file script_content : str) : io str :=
  emit (RunGnuplot script_file) ;;;
  match gnuplot env script_file script_content with
  | EngineNotFound => raise FileNotFoundError
  | EngineFailed => raise CalledProcessError
  | EngineOutput stdout => io_ret stdout
  end.

Definition _execute_gnuplot (env : Env) (cfg : Config)
    (script_content script_file output_file y_label x_label : str) : io bool :=
  try_except
    (emit (WriteFile script_file script_content) ;;;
     raw_output <~ run_gnuplot env script_file script_content ;;
     processed_output <~ lift (_post_process_ascii_output cfg raw_output y_label x_label) ;;
     emit (WriteFile output_file processed_output) ;;;
     io_ret true)
    (fun e =>
       match e with
       | CalledProcessError =>
           Some (print (MsgErrorExecutingGnuplot script_file) ;;; io_ret false)
       | FileNotFoundError => Some (print MsgGnuplotNotFound ;;; io_ret false)
       | _ => None
       end).

Record Dataset : Type := {
  metric_name : str;
  x_data : list number;
  y_data : list number;
  title : str;
  x_label : str;
  y_label : str
}.

(** [all_datasets], each entry with its [track_...] flag *)
Definition all_datasets (cfg : Config) (m : Metrics) : list (Dataset * bool) :=
  let '(sender_times, sender_bytes, receiver_times, receiver_bytes,
        packet_loss, jitter) := m in
  [ ({| metric_name := lit "senderBytes"; x_data := sender_times; y_data := sender_bytes;
        title := lit "Network Throughput: Sender Bytes Over Time";
        x_label := lit "Time (seconds)"; y_label := lit "Bytes Transmitted" |},
     track_sender_bytes cfg);
    ({| metric_name := lit "receiverBytes"; x_data := receiver_times;
        y_data := receiver_bytes;
        title := lit "Network Throughput: Receiver Bytes Over Time";
        x_label := lit "Time (seconds)"; y_label := lit "Bytes Received" |},
     track_receiver_bytes cfg);
    ({| metric_name := lit "packetLoss"; x_data := receiver_times; y_data := packet_loss;
        title := lit "Network Quality: Packet Loss Percentage Over Time";
        x_label := lit "Time (seconds)"; y_label := lit "Packet Loss (%)" |},
     track_packet_loss cfg);
    ({| metric_name := lit "jitter"; x_data := receiver_times; y_data := jitter;
        title := lit "Network Quality: Jitter Measurements Over Time";
        x_label := lit "Time (seconds)"; y_label := lit "Jitter (ms)" |},
     track_jitter cfg) ].

(** [[... for ... in all_datasets if enabled]] *)
Definition enabled_datasets (cfg : Config) (m : Metrics) : list Dataset :=
  map fst (List.filter snd (all_datasets cfg m)).

(** [not x_data or not y_data] *)
Definition no_data (d : Dataset) : bool :=
  bool_decide (x_data d = []) || bool_decide (y_data d = []).

(** The body of the loop over the enabled datasets, [successful_graphs]
    being the loop state. *)
Definition render_dataset (env : Env) (self : IperfDataProcessor) (verbose : bool)
    (successful_graphs : Z) (d : Dataset) : io Z :=
  if no_data d then
    when verbose (print (MsgNoDataAvailable (metric_name d))) ;;;
    io_ret successful_graphs
  else
    let stem := metric_name d ++ lit "_" ++ json_name self in
    let data_file := path_join env (output_dir self) (stem ++ lit ".dat") in
    let script_file := path_join env (output_dir self) (stem ++ lit ".plt") in
    let output_file := path_join env (output_dir self) (stem ++ lit ".txt") in
    when verbose (print (MsgGenerating (metric_name d))) ;;;
    _write_data_file env (config self) data_file (x_data d) (y_data d) ;;;
    let script :=
      _generate_gnuplot_script (config self) data_file (title d) (x_label d) (y_label d) in
    ok <~ _execute_gnuplot env (config self) script script_file output_file
            (y_label d) (x_label d) ;;
    if (ok : bool) then
      when verbose (print (MsgGraphSaved (metric_name d) output_file)) ;;;
      io_ret (successful_graphs + 1)
    else
      when verbose (print (MsgGraphFailed (metric_name d))) ;;;
      io_ret successful_graphs.

Definition generate_ascii_graphs (env : Env) (self : IperfDataProcessor) : io unit :=
  let verbose := verbose_output (config self) in
  when verbose (print MsgExtracting) ;;;
  m <~ lift (extract_performance_metrics (data self)) ;;
  let datasets := enabled_datasets (config self) m in
  successful_graphs <~ io_for_each (render_dataset env self verbose) 0 datasets ;;
  when verbose
    (print (MsgProcessingComplete successful_graphs (len datasets)) ;;;
     print (MsgGraphsSavedIn (output_dir self))).

(** [main], with [sys.argv] as [argv]. *)
Definition main (env : Env) (cfg : Config) (argv : list str) : io unit :=
  let default_json_path := default_input_file cfg in
  let default_output_dir := default_output_dir cfg in
  let verbose := verbose_output cfg in
  let json_path :=
    if 1 <? len argv then
      match argv !! 1%nat with Some p => p | None => default_json_path end
    else default_json_path in
  when verbose
    (print MsgBannerTitle ;;;
     print MsgBannerRule ;;;
     print (MsgInputFile json_path) ;;;
     print (MsgOutputDirectory default_output_dir) ;;;
     print (MsgGraphDimensions (graph_width cfg) (graph_height cfg)) ;;;
     print (MsgGridEnabled (enable_grid cfg)) ;;;
     print (MsgLegendEnabled (enable_legend cfg)) ;;;
     print MsgBlank) ;;;
  try_except
    (processor <~ __init__ env json_path default_output_dir cfg ;;
     generate_ascii_graphs env processor)
    (fun e => Some (print (MsgFatalError e) ;;; sys_exit 1)).

(** The exit status of the process: 0 when [main] returns, the argument of
    [sys.exit], and 1 when an exception reaches the top level. *)
Definition exit_status (r : io unit) : Z :=
  match snd r with
  | Done _ => 0
  | Abort (SystemExit code) => code
  | Abort (Exception _) => 1
  end.

(** The events of a run. *)
Definition trace {A : Type} (r : io A) : list event := fst r.

(** * Derived definitions

    The passes as functions of the grid, the observations made on records
    and traces, and the inputs of the examples. *)

(** What the stripping does to one character. *)
Definition strip_char (c : ascii) : ascii :=
  if char_eqb c "-" || char_eqb c "_" || char_eqb c "+" then " "%char else c.

(** What pass 2 makes of one row. *)
Definition substituted_row (cfg : Config) (line : str) : str :=
  if is_protected line then line else process_row cfg line.

(** The pattern shared by the box detection and the tick-row detection:
    the index of the first and of the last item that passes [p], or [-1]. *)
Definition first_last {A : Type} (p : A -> bool) (l : list A) : Z * Z :=
  fold_left
    (fun '(first, last) '(i, x) =>
       if p x then ((if first =? -1 then i else first), i) else (first, last))
    (enumerate l) (-1, -1).

(** Either nothing passes [p] and both indices are [-1], or both indices
    point at items that pass [p], and nothing passes before the first or
    after the last. *)
Definition first_last_ok {A : Type} (p : A -> bool) (l : list A) (fl : Z * Z) : Prop :=
  let '(first, last) := fl in
  (first = -1 /\ last = -1 /\ forall k x, l !! k = Some x -> p x = false)
  \/ (0 <= first <= last /\ last < len l
      /\ (exists x, l !! Z.to_nat first = Some x /\ p x = true)
      /\ (exists y, l !! Z.to_nat last = Some y /\ p y = true)
      /\ forall k x, l !! k = Some x -> p x = true ->
                     first <= Z.of_nat k <= last).

(** The test of pass 1 on a row. *)
Definition is_box_row (line : str) : bool :=
  contains (lit "|") line && (50 <? len line).

(** The test of the tick-row loop on a row, without the guarded indexing:
    the three-way test on the first character amounts to [isdigit]. *)
Definition is_tick_row (line : str) : bool :=
  let line_stripped := strip line in
  match line_stripped with
  | [] => false
  | c0 :: _ =>
      isdigit c0
      && (contains (lit "e ") line_stripped || contains (lit "e+") line_stripped
          || contains (lit "e-") line_stripped
          || (count " " line_stripped <=? 2)
             && existsb isdigit (take 15 line_stripped)
             && negb (re_x_axis_scale line_stripped))
  end.

(** What the rewrite makes of a tick row. *)
Definition rewritten_row (typical_pipe_start border_length : Z) (line : str) : str :=
  match re_leading_numeric line with
  | Some g => border_line typical_pipe_start border_length (strip g)
  | None => line
  end.

(** The label the rewrite takes from a row that opens, after its blanks,
    with a character of the numeric class. *)
Definition label_of (line : str) : str :=
  strip (take_while in_numeric_class (lstrip line)).

(** The first character of a row that is not white space is one of 0-9. *)
Definition opens_with_decimal (line : str) : Prop :=
  exists c0 rest, strip line = c0 :: rest /\ isdecimal c0 = true.

(** The grid pass 3 returns, as a function of the grid it is given. *)
Definition border_spec (graph_start : Z) (lines : list str) : list str :=
  if graph_start =? -1 then lines
  else
    match lines !! Z.to_nat graph_start with
    | None => lines
    | Some row =>
        let tps := find "|" row in
        let L := rfind "|" row - tps - 1 in
        let '(first_y_line, last_y_line) := first_last is_tick_row lines in
        if first_y_line =? -1 then lines
        else
          let lines1 := alter (rewritten_row tps L) (Z.to_nat first_y_line) lines in
          alter (rewritten_row tps L) (Z.to_nat last_y_line) lines1
    end.

(** The label character that lands on row [k], if any. *)
Definition label_char (middle_start : Z) (y_chars : str) (k : nat) : option ascii :=
  if middle_start <=? Z.of_nat k
  then y_chars !! Z.to_nat (Z.of_nat k - middle_start)
  else None.

(** Row [k] after the first loop of pass 4. *)
Definition labelled_row (middle_start : Z) (y_chars : str) (k : nat) (row : str) : str :=
  match label_char middle_start y_chars k with
  | Some c => c :: " "%char :: row
  | None => row
  end.

(** Row [k] after both loops of pass 4. *)
Definition overlay_row (graph_start graph_end middle_start : Z) (y_chars : str)
    (k : nat) (row : str) : str :=
  match label_char middle_start y_chars k with
  | Some c => c :: " "%char :: row
  | None =>
      if (graph_start <=? Z.of_nat k) && (Z.of_nat k <=? graph_end)
      then lit "  " ++ row else row
  end.

(** The grid pass 4 returns. *)
Definition overlay_spec (cfg : Config) (graph_start graph_end : Z) (y_label : str)
    (lines : list str) : list str :=
  if show_ylabel_inline cfg
     && (str_eqb (ylabel_rotation cfg) (lit "vertical")
         && str_eqb (ylabel_position cfg) (lit "left"))
  then
    let y_chars := y_chars_of y_label in
    imap (overlay_row graph_start graph_end
            (middle_start_of graph_start graph_end y_chars) y_chars) lines
  else lines.

(** The grid after pass 4, as a function of the raw grid. *)
Definition decorated_spec (cfg : Config) (lines : list str) (y_label : str) : list str :=
  let '(graph_start, graph_end) := detect_box lines in
  overlay_spec cfg graph_start graph_end y_label
    (border_spec graph_start (map (substituted_row cfg) lines)).

(** A configuration with other plot glyphs. *)
Definition with_glyphs (cfg : Config) (primary secondary : str) : Config := {|
  default_input_file := default_input_file cfg;
  default_output_dir := default_output_dir cfg;
  graph_width := graph_width cfg;
  graph_height := graph_height cfg;
  precision_digits := precision_digits cfg;
  plot_char_primary := primary;
  plot_char_secondary := secondary;
  plot_char_points := plot_char_points cfg;
  plot_style := plot_style cfg;
  show_ylabel_inline := show_ylabel_inline cfg;
  ylabel_position := ylabel_position cfg;
  ylabel_rotation := ylabel_rotation cfg;
  compact_ylabel := compact_ylabel cfg;
  show_axis_info_below := show_axis_info_below cfg;
  terminal_type := terminal_type cfg;
  enable_grid := enable_grid cfg;
  enable_legend := enable_legend cfg;
  legend_position := legend_position cfg;
  verbose_output := verbose_output cfg;
  track_sender_bytes := track_sender_bytes cfg;
  track_receiver_bytes := track_receiver_bytes cfg;
  track_packet_loss := track_packet_loss cfg;
  track_jitter := track_jitter cfg
|}.

(** A glyph the stripping leaves alone: no dash, underscore or plus sign. *)
Definition survives_stripping (glyph : str) : Prop :=
  Forall (fun c : ascii => c <> "-"%char /\ c <> "_"%char /\ c <> "+"%char) glyph.

(** The stream samples of a record, in the order the loops visit them. *)
Definition all_streams (data : MeasurementRecord) : list StreamSample :=
  concat (map (fun interval => py_get_or (streams interval) [])
              (py_get_or (intervals data) [])).

Definition sender_samples (ss : list StreamSample) : list StreamSample :=
  List.filter (fun s => truthy (sender s)) ss.

Definition receiver_samples (ss : list StreamSample) : list StreamSample :=
  List.filter (fun s => is_False (sender s)) ss.

(** The number of samples of a record whose direction flag is [flag]. *)
Definition count_direction (flag : option bool) (data : MeasurementRecord) : nat :=
  length (List.filter (fun s => bool_decide (sender s = flag)) (all_streams data)).

(** A sample with a direction has its end time and its byte count. *)
Definition complete_sample (s : StreamSample) : Prop :=
  sender s <> None -> is_Some (end_ s) /\ is_Some (bytes s).

(** The shape of section 6: every sample with a direction is complete. *)
Definition well_formed (data : MeasurementRecord) : Prop :=
  Forall complete_sample (all_streams data).

(** The value a field contributes: its value, or the integer zero. *)
Definition value_or_zero (field : option number) : number := py_get_or field (PyInt 0).

(** The six series after the samples [ss] have been added to [acc]. *)
Definition add_samples (acc : Metrics) (ss : list StreamSample) : Metrics :=
  let '(sender_times, sender_bytes, receiver_times, receiver_bytes,
        packet_loss, jitter) := acc in
  (sender_times ++ map (fun s => value_or_zero (end_ s)) (sender_samples ss),
   sender_bytes ++ map (fun s => value_or_zero (bytes s)) (sender_samples ss),
   receiver_times ++ map (fun s => value_or_zero (end_ s)) (receiver_samples ss),
   receiver_bytes ++ map (fun s => value_or_zero (bytes s)) (receiver_samples ss),
   packet_loss ++ map (fun s => value_or_zero (lost_percent s)) (receiver_samples ss),
   jitter ++ map (fun s => value_or_zero (jitter_ms s)) (receiver_samples ss)).

(** One interval: a sender sample, a receiver sample with its loss and
    jitter, a receiver sample without them, and a sample without flag. *)
Definition sample_record : MeasurementRecord := {|
  intervals := Some [ {| streams := Some [
    {| sender := Some true; end_ := Some (PyInt 1); bytes := Some (PyInt 1000);
       lost_percent := None; jitter_ms := None |};
    {| sender := Some false; end_ := Some (PyInt 1); bytes := Some (PyInt 900);
       lost_percent := Some (PyInt 5); jitter_ms := Some (PyInt 2) |};
    {| sender := Some false; end_ := Some (PyInt 2); bytes := Some (PyInt 800);
       lost_percent := None; jitter_ms := None |};
    {| sender := None; end_ := None; bytes := None;
       lost_percent := None; jitter_ms := None |} ] |} ]
|}.

(** Whether the configuration asks for the vertical label on the left. *)
Definition overlay_enabled (cfg : Config) : bool :=
  show_ylabel_inline cfg
  && (str_eqb (ylabel_rotation cfg) (lit "vertical")
      && str_eqb (ylabel_position cfg) (lit "left")).

(** The first character of row [r] of a grid. *)
Definition row_head (grid : list str) (r : Z) : option ascii :=
  if 0 <=? r then grid !! Z.to_nat r ≫= head else None.

(** The first characters of the rows [middle_start .. middle_start + n - 1]
    that exist, top to bottom. *)
Definition overlaid_chars (grid : list str) (middle_start n : Z) : str :=
  omap (row_head grid) (range middle_start (middle_start + n)).

(** Underscores back to spaces. *)
Definition unseparate (s : str) : str := replace "_" (lit " ") s.

(** A row of the plot box: a [|], [n] blanks, a [|]. *)
Definition box_row (indent n : Z) : str :=
  times " " indent ++ lit "|" ++ times " " n ++ lit "|".

(** The input path [main] settles on. *)
Definition input_path (cfg : Config) (argv : list str) : str :=
  if 1 <? len argv then
    match argv !! 1%nat with Some p => p | None => default_input_file cfg end
  else default_input_file cfg.

(** What [main] prints before it builds the processor. *)
Definition banner (cfg : Config) (argv : list str) : list event :=
  if verbose_output cfg then
    [ Print MsgBannerTitle; Print MsgBannerRule;
      Print (MsgInputFile (input_path cfg argv));
      Print (MsgOutputDirectory (default_output_dir cfg));
      Print (MsgGraphDimensions (graph_width cfg) (graph_height cfg));
      Print (MsgGridEnabled (enable_grid cfg));
      Print (MsgLegendEnabled (enable_legend cfg));
      Print MsgBlank ]
  else [].

(** The processor [main] builds once the record is loaded. *)
Definition processor_of (env : Env) (cfg : Config) (argv : list str)
    (data : MeasurementRecord) : IperfDataProcessor :=
  {| config := cfg;
     json_file_path := input_path cfg argv;
     output_dir := default_output_dir cfg;
     json_name := path_stem env (input_path cfg argv);
     data := data |}.

(** The files of a dataset. *)
Definition artifact_path (env : Env) (self : IperfDataProcessor) (d : Dataset)
    (suffix : str) : str :=
  path_join env (output_dir self) (metric_name d ++ lit "_" ++ json_name self ++ suffix).

Definition script_of (env : Env) (self : IperfDataProcessor) (d : Dataset) : str :=
  _generate_gnuplot_script (config self) (artifact_path env self d (lit ".dat"))
    (title d) (x_label d) (y_label d).

(** How the engine ends on the script of a dataset. *)
Definition engine_on (env : Env) (self : IperfDataProcessor) (d : Dataset)
  : engine_outcome :=
  gnuplot env (artifact_path env self d (lit ".plt")) (script_of env self d).

Definition rendered (env : Env) (self : IperfDataProcessor) (d : Dataset) : bool :=
  match engine_on env self d with
  | EngineOutput _ => true
  | _ => false
  end.

(** The data file of a dataset as it is left, and the exception that cut
    the writing short, if any. *)
Definition data_file_of (env : Env) (self : IperfDataProcessor) (d : Dataset)
  : str * option exn :=
  write_rows env (precision_digits (config self)) (zip (x_data d) (y_data d)) [].

(** Every value of the dataset can be formatted. *)
Definition formattable (env : Env) (self : IperfDataProcessor) (d : Dataset) : bool :=
  match (data_file_of env self d).2 with
  | None => true
  | Some _ => false
  end.

(** The events of one turn of the loop over the datasets; the turn ends
    after the data file when a value cannot be formatted. *)
Definition render_events (env : Env) (self : IperfDataProcessor) (verbose : bool)
    (d : Dataset) : list event :=
  let say m := if verbose then [Print m] else [] in
  if no_data d then say (MsgNoDataAvailable (metric_name d))
  else
    say (MsgGenerating (metric_name d))
    ++ WriteFile (artifact_path env self d (lit ".dat")) (data_file_of env self d).1
    :: if formattable env self d then
         [ WriteFile (artifact_path env self d (lit ".plt")) (script_of env self d);
           RunGnuplot (artifact_path env self d (lit ".plt")) ]
         ++ match engine_on env self d with
            | EngineOutput stdout =>
                WriteFile (artifact_path env self d (lit ".txt"))
                  (join_nl (metadata_pass (config self) (y_label d) (x_label d)
                              (decorated_spec (config self) (split_nl stdout)
                                 (y_label d))))
                :: say (MsgGraphSaved (metric_name d)
                          (artifact_path env self d (lit ".txt")))
            | EngineFailed =>
                Print (MsgErrorExecutingGnuplot (artifact_path env self d (lit ".plt")))
                :: say (MsgGraphFailed (metric_name d))
            | EngineNotFound =>
                Print MsgGnuplotNotFound :: say (MsgGraphFailed (metric_name d))
            end
       else [].

(** How one turn of the loop ends, [n] charts having come out before. *)
Definition render_outcome (env : Env) (self : IperfDataProcessor) (n : Z) (d : Dataset)
  : outcome Z :=
  if no_data d then Done n
  else
    match (data_file_of env self d).2 with
    | Some e => Abort (Exception e)
    | None => Done (if rendered env self d then n + 1 else n)
    end.

(** The datasets the loop of [generate_ascii_graphs] goes through. *)
Definition datasets_of (self : IperfDataProcessor) : list Dataset :=
  enabled_datasets (config self)
    (add_samples ([], [], [], [], [], []) (all_streams (data self))).

(** The charts that come out well among [ds]. *)
Definition successes (env : Env) (self : IperfDataProcessor) (ds : list Dataset) : Z :=
  len (List.filter (fun d => negb (no_data d) && rendered env self d) ds).

(** The events of [generate_ascii_graphs]. *)
Definition generate_events (env : Env) (self : IperfDataProcessor) : list event :=
  let verbose := verbose_output (config self) in
  (if verbose then [Print MsgExtracting] else [])
  ++ concat (map (render_events env self verbose) (datasets_of self))
  ++ (if verbose then
        [ Print (MsgProcessingComplete (successes env self (datasets_of self))
                   (len (datasets_of self)));
          Print (MsgGraphsSavedIn (output_dir self)) ]
      else []).

(** The files written, in order. *)
Definition written_files (t : list event) : list str :=
  omap (fun e => match e with WriteFile path _ => Some path | _ => None end) t.

(** The script files the engine was run on, in order. *)
Definition engine_runs (t : list event) : list str :=
  omap (fun e => match e with RunGnuplot script_file => Some script_file | _ => None end) t.

(** The metrics a no-data warning was printed for, in order. *)
Definition no_data_warnings (t : list event) : list str :=
  omap (fun e => match e with
                 | Print (MsgNoDataAvailable metric_name) => Some metric_name
                 | _ => None
                 end) t.

(** The rendering failures reported, in order. *)
Definition failure_reports (t : list event) : list message :=
  omap (fun e => match e with
                 | Print (MsgErrorExecutingGnuplot script_file) =>
                     Some (MsgErrorExecutingGnuplot script_file)
                 | Print MsgGnuplotNotFound => Some MsgGnuplotNotFound
                 | _ => None
                 end) t.

(** The report a dataset ends with when its rendering fails. *)
Definition failure_report_of (env : Env) (self : IperfDataProcessor) (d : Dataset)
  : option message :=
  match engine_on env self d with
  | EngineFailed =>
      Some (MsgErrorExecutingGnuplot (artifact_path env self d (lit ".plt")))
  | EngineNotFound => Some MsgGnuplotNotFound
  | EngineOutput _ => None
  end.

(** The metrics enabled by the configuration. *)
Definition enabled_metric_names (cfg : Config) : list str :=
  map metric_name (enabled_datasets cfg ([], [], [], [], [], [])).

(** A configuration with another verbosity. *)
Definition with_verbose (cfg : Config) (verbose : bool) : Config := {|
  default_input_file := default_input_file cfg;
  default_output_dir := default_output_dir cfg;
  graph_width := graph_width cfg;
  graph_height := graph_height cfg;
  precision_digits := precision_digits cfg;
  plot_char_primary := plot_char_primary cfg;
  plot_char_secondary := plot_char_secondary cfg;
  plot_char_points := plot_char_points cfg;
  plot_style := plot_style cfg;
  show_ylabel_inline := show_ylabel_inline cfg;
  ylabel_position := ylabel_position cfg;
  ylabel_rotation := ylabel_rotation cfg;
  compact_ylabel := compact_ylabel cfg;
  show_axis_info_below := show_axis_info_below cfg;
  terminal_type := terminal_type cfg;
  enable_grid := enable_grid cfg;
  enable_legend := enable_legend cfg;
  legend_position := legend_position cfg;
  verbose_output := verbose;
  track_sender_bytes := track_sender_bytes cfg;
  track_receiver_bytes := track_receiver_bytes cfg;
  track_packet_loss := track_packet_loss cfg;
  track_jitter := track_jitter cfg
|}.

(** Surroundings in which the input file holds [data] and every run of the
    engine ends as [engine] says. *)
Definition env_with (data : MeasurementRecord) (engine : str -> engine_outcome) : Env := {|
  read_json := fun _ => FileParsed data;
  gnuplot := fun script_file _ => engine script_file;
  format_fixed := fun _ _ => Ok (lit "0");
  path_stem := fun _ => lit "data";
  path_join := fun dir name => dir ++ lit "/" ++ name
|}.

(** The enabled datasets that have data: the ones that are rendered. *)
Definition attempted (self : IperfDataProcessor) : list Dataset :=
  List.filter (fun d => negb (no_data d)) (datasets_of self).

(** Every value of every enabled dataset that has data can be formatted
    with the configured precision. *)
Definition all_formattable (env : Env) (self : IperfDataProcessor) : Prop :=
  Forall (fun d => formattable env self d = true) (attempted self).

(** An engine that fails on the sender chart, is not found for the loss
    chart and draws nothing but a blank line otherwise. *)
Definition flaky_engine (script_file : str) : engine_outcome :=
  if str_eqb script_file (lit "graphs_ascii/senderBytes_data.plt") then EngineFailed
  else if str_eqb script_file (lit "graphs_ascii/packetLoss_data.plt") then EngineNotFound
  else EngineOutput [].

(** A formatter that raises on a negative precision and on an [int] that
    rounds to no finite [float], two cases in which [str.format] raises
    ([ValueError], [OverflowError]), and writes a zero otherwise. *)
Definition strict_format (precision : Z) (x : number) : result str :=
  if precision <? 0 then Raise ValueError
  else
    match x with
    | PyInt z => if 2 ^ 1024 - 2 ^ 970 <=? Z.abs z then Raise OverflowError
                 else Ok (lit "0")
    | PyFloat _ => Ok (lit "0")
    end.

(** Surroundings like [env_with], with the formatter [format]. *)
Definition env_formatting (data : MeasurementRecord) (engine : str -> engine_outcome)
    (format : Z -> number -> result str) : Env := {|
  read_json := fun _ => FileParsed data;
  gnuplot := fun script_file _ => engine script_file;
  format_fixed := format;
  path_stem := fun _ => lit "data";
  path_join := fun dir name => dir ++ lit "/" ++ name
|}.

(** An engine that exits non-zero on every script. *)
Definition failing_engine (script_file : str) : engine_outcome := EngineFailed.

(** One interval: a sender sample, and a receiver sample whose byte count
    is the integer [10 ** 400]. *)
Definition overflow_record : MeasurementRecord := {|
  intervals := Some [ {| streams := Some [
    {| sender := Some true; end_ := Some (PyInt 1); bytes := Some (PyInt 1000);
       lost_percent := None; jitter_ms := None |};
    {| sender := Some false; end_ := Some (PyInt 1); bytes := Some (PyInt (10 ^ 400));
       lost_percent := Some (PyInt 0); jitter_ms := Some (PyInt 0) |} ] |} ]
|}.

(** A configuration with other switches for the vertical label and for
    the axis descriptions below the chart. *)
Definition with_layout (cfg : Config) (inline below : bool) : Config := {|
  default_input_file := default_input_file cfg;
  default_output_dir := default_output_dir cfg;
  graph_width := graph_width cfg;
  graph_height := graph_height cfg;
  precision_digits := precision_digits cfg;
  plot_char_primary := plot_char_primary cfg;
  plot_char_secondary := plot_char_secondary cfg;
  plot_char_points := plot_char_points cfg;
  plot_style := plot_style cfg;
  show_ylabel_inline := inline;
  ylabel_position := ylabel_position cfg;
  ylabel_rotation := ylabel_rotation cfg;
  compact_ylabel := compact_ylabel cfg;
  show_axis_info_below := below;
  terminal_type := terminal_type cfg;
  enable_grid := enable_grid cfg;
  enable_legend := enable_legend cfg;
  legend_position := legend_position cfg;
  verbose_output := verbose_output cfg;
  track_sender_bytes := track_sender_bytes cfg;
  track_receiver_bytes := track_receiver_bytes cfg;
  track_packet_loss := track_packet_loss cfg;
  track_jitter := track_jitter cfg
|}.

(** A row with nothing but white space. *)
Definition blank (row : str) : Prop := strip row = [].

(** The characters pass 2 and pass 1 look for. *)
Definition plain (c : ascii) : Prop :=
  c <> "*"%char /\ c <> "A"%char /\ c <> "-"%char /\ c <> "_"%char
  /\ c <> "+"%char /\ c <> "|"%char.

(** The samples that carry the field [field]. *)
Definition with_field (field : StreamSample -> option number) (ss : list StreamSample)
  : list StreamSample :=
  List.filter (fun s => Plotter.has_key (field s)) ss.

(** The eight series of the bitmap plotter after the samples [ss] have
    been added to [acc]. *)
Definition add_series (acc : Plotter.Series) (ss : list StreamSample) : Plotter.Series :=
  let '(times, bytes_sent, times_recv, bytes_recv, times_loss, lost_percent_list,
        times_jitter, jitter_ms_list) := acc in
  let receivers := receiver_samples ss in
  (times ++ map (fun s => value_or_zero (end_ s)) (sender_samples ss),
   bytes_sent ++ map (fun s => value_or_zero (bytes s)) (sender_samples ss),
   times_recv ++ map (fun s => value_or_zero (end_ s)) receivers,
   bytes_recv ++ map (fun s => value_or_zero (bytes s)) receivers,
   times_loss ++ map (fun s => value_or_zero (end_ s)) (with_field lost_percent receivers),
   lost_percent_list
     ++ map (fun s => value_or_zero (lost_percent s)) (with_field lost_percent receivers),
   times_jitter ++ map (fun s => value_or_zero (end_ s)) (with_field jitter_ms receivers),
   jitter_ms_list
     ++ map (fun s => value_or_zero (jitter_ms s)) (with_field jitter_ms receivers)).

(** The messages printed, in order. *)
Definition printed (t : list event) : list message :=
  omap (fun e => match e with Print m => Some m | _ => None end) t.

(** The files a dataset that has data leaves behind: its data file, its
    script, and its chart when the engine gave one. *)
Definition artifacts_of (env : Env) (self : IperfDataProcessor) (d : Dataset)
  : list str :=
  [artifact_path env self d (lit ".dat"); artifact_path env self d (lit ".plt")]
  ++ (if rendered env self d then [artifact_path env self d (lit ".txt")] else []).

(** A line of the data file, without its line feed: the x value is
    formatted first. *)
Definition data_line (env : Env) (cfg : Config) (point : number * number) : result str :=
  x_text ← format_fixed env (precision_digits cfg) point.1;
  y_text ← format_fixed env (precision_digits cfg) point.2;
  Ok (x_text ++ lit " " ++ y_text).

(** The text of a file with the lines [rows], each ended by a line feed. *)
Definition data_text (rows : list str) : str :=
  concat (map (fun row => row ++ [NL]) rows).

(** A dataset with another x-axis label. *)
Definition with_x_label (d : Dataset) (x_label' : str) : Dataset := {|
  metric_name := metric_name d;
  x_data := x_data d;
  y_data := y_data d;
  title := title d;
  x_label := x_label';
  y_label := y_label d
|}.

(** * Properties *)

(** ** Characters and strings *)

Lemma char_eqb_eq (a b : ascii) : char_eqb a b = true <-> a = b.
Proof. apply Ascii.eqb_eq. Qed.

Lemma char_eqb_refl (a : ascii) : char_eqb a a = true.
Proof. apply Ascii.eqb_refl. Qed.

Lemma char_eqb_neq (a b : ascii) : char_eqb a b = false <-> a <> b.
Proof. apply Ascii.eqb_neq. Qed.

Lemma str_eqb_eq (a b : str) : str_eqb a b = true <-> a = b.
Proof. unfold str_eqb. apply bool_decide_eq_true. Qed.

Lemma len_nonneg {A : Type} (l : list A) : 0 <= len l.
Proof. unfold len. lia. Qed.

Lemma len_app {A : Type} (l k : list A) : len (l ++ k) = len l + len k.
Proof. unfold len. rewrite length_app. lia. Qed.

Lemma len_cons {A : Type} (x : A) (l : list A) : len (x :: l) = 1 + len l.
Proof. unfold len. simpl. lia. Qed.

Lemma len_times (c : ascii) (n : Z) : len (times c n) = Z.max 0 n.
Proof. unfold len, times. rewrite length_replicate. lia. Qed.

(** [c in s] for a one-character pattern is membership. *)
Lemma contains_char (c : ascii) (s : str) : contains [c] s = true <-> c ∈ s.
Proof.
  induction s as [|a s IH]; simpl.
  - split; [discriminate | intros H; inversion H].
  - rewrite orb_true_iff, andb_true_r, char_eqb_eq, IH, elem_of_cons.
    split; intros [H|H]; auto.
Qed.

Lemma contains_char_false (c : ascii) (s : str) : contains [c] s = false <-> c ∉ s.
Proof.
  rewrite <- contains_char. destruct (contains [c] s); split; congruence.
Qed.

Lemma replace_app (old : ascii) (new s t : str) :
  replace old new (s ++ t) = replace old new s ++ replace old new t.
Proof.
  induction s as [|a s IH]; simpl; [done|]. by rewrite IH, app_assoc.
Qed.

(** Replacing a character that does not occur changes nothing. *)
Lemma replace_absent (old : ascii) (new s : str) :
  old ∉ s -> replace old new s = s.
Proof.
  induction s as [|a s IH]; simpl; intros H; [done|].
  apply not_elem_of_cons in H as [H1 H2].
  apply not_eq_sym, char_eqb_neq in H1. rewrite H1. simpl.
  by rewrite IH.
Qed.

(** Replacing a character by itself changes nothing. *)
Lemma replace_self (old : ascii) (s : str) : replace old [old] s = s.
Proof.
  induction s as [|a s IH]; simpl; [done|].
  destruct (char_eqb a old) eqn:E; simpl; rewrite IH; [|done].
  apply char_eqb_eq in E. by subst.
Qed.

(** The guards of [substitute_glyphs] only skip replacements that would
    change nothing. *)
Lemma substitute_glyphs_unfold (cfg : Config) (line : str) :
  substitute_glyphs cfg line =
    replace "A" (plot_char_secondary cfg) (replace "*" (plot_char_primary cfg) line).
Proof.
  unfold substitute_glyphs.
  assert (G : forall (c : ascii) (new s : str),
             (if contains [c] s && negb (str_eqb new [c]) then replace c new s else s)
             = replace c new s).
  { intros c new s. destruct (contains [c] s) eqn:E; simpl.
    - destruct (str_eqb new [c]) eqn:E'; simpl; [|done].
      apply str_eqb_eq in E'. subst. by rewrite replace_self.
    - apply contains_char_false in E. by rewrite replace_absent. }
  change (lit "*") with ["*"%char]. change (lit "A") with ["A"%char].
  by rewrite !G.
Qed.

Lemma replace_by_char (old new : ascii) (s : str) :
  replace old [new] s = map (fun c => if char_eqb c old then new else c) s.
Proof.
  induction s as [|a s IH]; simpl; [done|]. rewrite IH. by destruct (char_eqb a old).
Qed.

Lemma strip_decorations_map (line : str) :
  strip_decorations line = map strip_char line.
Proof.
  unfold strip_decorations.
  change (lit " ") with [" "%char]. change (lit "+") with ["+"%char].
  set (s := replace "_" _ _).
  assert (E : (if contains ["+"%char] s then replace "+" [" "%char] s else s)
              = replace "+" [" "%char] s).
  { destruct (contains ["+"%char] s) eqn:E; [done|].
    apply contains_char_false in E. by rewrite replace_absent. }
  rewrite E. subst s. rewrite !replace_by_char, !map_map.
  apply map_ext. intros c. unfold strip_char.
  destruct (char_eqb c "-") eqn:E1; simpl.
  - reflexivity.
  - destruct (char_eqb c "_") eqn:E2; simpl; [reflexivity|].
    by destruct (char_eqb c "+").
Qed.

(** ** Indexing and loops *)

Lemma bind_Ok {A B : Type} (a : A) (k : A -> result B) : (Ok a ≫= k) = k a.
Proof. reflexivity. Qed.

Lemma py_index_nat (n k : nat) : (k < n)%nat -> py_index n (Z.of_nat k) = Some k.
Proof.
  intros H. unfold py_index.
  replace (Z.of_nat k <? 0) with false by (symmetry; apply Z.ltb_ge; lia).
  replace (0 <=? Z.of_nat k) with true by (symmetry; apply Z.leb_le; lia).
  replace (Z.of_nat k <? Z.of_nat n) with true by (symmetry; apply Z.ltb_lt; lia).
  simpl. by rewrite Nat2Z.id.
Qed.

Lemma py_get_nat {A : Type} (l : list A) (k : nat) (x : A) :
  l !! k = Some x -> py_get l (Z.of_nat k) = Ok x.
Proof.
  intros H. unfold py_get.
  rewrite py_index_nat by (eapply lookup_lt_Some; eauto). by rewrite H.
Qed.

Lemma py_set_nat {A : Type} (l : list A) (k : nat) (x : A) :
  (k < length l)%nat -> py_set l (Z.of_nat k) x = Ok (<[k := x]> l).
Proof. intros H. unfold py_set. by rewrite py_index_nat. Qed.

Lemma py_get_Z {A : Type} (l : list A) (i : Z) (x : A) :
  0 <= i -> l !! Z.to_nat i = Some x -> py_get l i = Ok x.
Proof.
  intros Hi H. rewrite <- (Z2Nat.id i) by done. by apply py_get_nat.
Qed.

Lemma py_set_Z {A : Type} (l : list A) (i : Z) (x : A) :
  0 <= i < len l -> py_set l i x = Ok (<[Z.to_nat i := x]> l).
Proof.
  intros Hi. rewrite <- (Z2Nat.id i) at 1 by lia. apply py_set_nat.
  unfold len in Hi. lia.
Qed.

Lemma range_nil (a b : Z) : b <= a -> range a b = [].
Proof. intros H. unfold range. apply seqZ_nil. lia. Qed.

Lemma range_cons (a b : Z) : a < b -> range a b = a :: range (a + 1) b.
Proof.
  intros H. unfold range. rewrite seqZ_cons by lia.
  f_equal. f_equal; lia.
Qed.

(** A loop over [range(len(l))] whose body rewrites row [i] from row [i]. *)
Lemma for_each_rows_from {A : Type} (body : list A -> Z -> result (list A))
    (g : nat -> A -> A) :
  (forall l k x, l !! k = Some x -> body l (Z.of_nat k) = Ok (<[k := g k x]> l)) ->
  forall todo done,
    for_each body (done ++ todo) (range (len done) (len (done ++ todo)))
    = Ok (done ++ imap (fun k => g (length done + k)%nat) todo).
Proof.
  intros Hbody todo. induction todo as [|x todo IH]; intros done.
  - rewrite app_nil_r, range_nil by lia. simpl. by rewrite app_nil_r.
  - rewrite range_cons by (rewrite len_app, len_cons; pose proof (len_nonneg todo); lia).
    simpl. unfold len at 1.
    rewrite (Hbody _ (length done) x) by (by rewrite list_lookup_middle).
    rewrite bind_Ok.
    rewrite insert_app_r_alt, Nat.sub_diag by lia. simpl.
    specialize (IH (done ++ [g (length done) x])).
    rewrite <- app_assoc in IH. simpl in IH.
    replace (len (done ++ [g (length done) x])) with (Z.of_nat (length done) + 1) in IH
      by (rewrite len_app; unfold len; simpl; lia).
    replace (len (done ++ g (length done) x :: todo)) with (len (done ++ x :: todo)) in IH
      by (rewrite !len_app, !len_cons; lia).
    rewrite IH, <- app_assoc. simpl. rewrite Nat.add_0_r.
    do 3 f_equal.
    apply imap_ext. intros k y _. simpl. rewrite length_app. simpl.
    f_equal. lia.
Qed.

Lemma for_each_rows {A : Type} (body : list A -> Z -> result (list A))
    (g : nat -> A -> A) (l : list A) :
  (forall l k x, l !! k = Some x -> body l (Z.of_nat k) = Ok (<[k := g k x]> l)) ->
  for_each body l (range 0 (len l)) = Ok (imap g l).
Proof.
  intros Hbody. apply (for_each_rows_from body g Hbody l []).
Qed.

(** ** Pass 2 as a map over the rows *)

Lemma substitution_pass_spec (cfg : Config) (lines : list str) :
  substitution_pass cfg lines = Ok (map (substituted_row cfg) lines).
Proof.
  unfold substitution_pass.
  rewrite (for_each_rows _ (fun _ => substituted_row cfg)).
  - f_equal. induction lines as [|x lines IH]; [done|].
    rewrite imap_cons. simpl. f_equal. apply IH.
  - intros l k x Hx. rewrite (py_get_nat l k x Hx), bind_Ok.
    unfold substituted_row. destruct (is_protected x).
    + by rewrite list_insert_id.
    + apply py_set_nat. by eapply lookup_lt_Some.
Qed.

(** A loop over [range(len(l))] that reads row [i] and updates a state. *)
Lemma for_each_read_from {S A : Type} (body : S -> Z -> result S)
    (step : S -> Z -> A -> S) (l : list A) :
  (forall s k x, l !! k = Some x -> body s (Z.of_nat k) = Ok (step s (Z.of_nat k) x)) ->
  forall todo done s,
    l = done ++ todo ->
    for_each body s (range (len done) (len l))
    = Ok (fold_left (fun s '(i, x) => step s i x) (enumerate_from (len done) todo) s).
Proof.
  intros Hbody todo. induction todo as [|x todo IH]; intros done s ->.
  - rewrite app_nil_r, range_nil by lia. done.
  - rewrite range_cons by (rewrite len_app, len_cons; pose proof (len_nonneg todo); lia).
    simpl. change (len done) with (Z.of_nat (length done)).
    rewrite (Hbody s (length done) x) by (by rewrite list_lookup_middle).
    rewrite bind_Ok.
    specialize (IH (done ++ [x]) (step s (Z.of_nat (length done)) x)).
    rewrite <- app_assoc in IH. simpl in IH. specialize (IH eq_refl).
    replace (len (done ++ [x])) with (Z.of_nat (length done) + 1) in IH
      by (rewrite len_app; unfold len; simpl; lia).
    apply IH.
Qed.

Lemma for_each_read {S A : Type} (body : S -> Z -> result S)
    (step : S -> Z -> A -> S) (l : list A) (s : S) :
  (forall s k x, l !! k = Some x -> body s (Z.of_nat k) = Ok (step s (Z.of_nat k) x)) ->
  for_each body s (range 0 (len l))
  = Ok (fold_left (fun s '(i, x) => step s i x) (enumerate l) s).
Proof.
  intros Hbody. apply (for_each_read_from body step l Hbody l [] s eq_refl).
Qed.

(** ** First and last row with a property *)

Lemma enumerate_from_app {A : Type} (i : Z) (l k : list A) :
  enumerate_from i (l ++ k) = enumerate_from i l ++ enumerate_from (i + len l) k.
Proof.
  revert i. induction l as [|x l IH]; intros i; simpl.
  - f_equal. unfold len. simpl. lia.
  - rewrite IH. do 3 f_equal. rewrite len_cons. lia.
Qed.

Lemma first_last_snoc {A : Type} (p : A -> bool) (l : list A) (x : A) :
  first_last p (l ++ [x]) =
    let '(first, last) := first_last p l in
    if p x then ((if first =? -1 then len l else first), len l) else (first, last).
Proof.
  unfold first_last, enumerate. rewrite enumerate_from_app, fold_left_app. simpl.
  by destruct (fold_left _ _ _).
Qed.

Lemma first_last_spec {A : Type} (p : A -> bool) (l : list A) :
  first_last_ok p l (first_last p l).
Proof.
  induction l as [|x l IH] using rev_ind.
  - left. repeat split. intros k x H. by rewrite lookup_nil in H.
  - rewrite first_last_snoc. destruct (first_last p l) as [f t].
    destruct (p x) eqn:Hx.
    + right. destruct IH as [(-> & -> & Hnone) | (Hft & Ht & (a & Ha & Hpa) & _ & Hall)].
      * simpl. pose proof (len_nonneg l).
        repeat split; try lia.
        -- rewrite len_app, len_cons. unfold len at 3. simpl. lia.
        -- exists x. unfold len. rewrite Nat2Z.id. by rewrite list_lookup_middle.
        -- exists x. unfold len. rewrite Nat2Z.id. by rewrite list_lookup_middle.
        -- destruct (decide (k < length l)%nat) as [Hk|Hk].
           ++ rewrite lookup_app_l in H0 by done. rewrite (Hnone _ _ H0) in H1. done.
           ++ apply lookup_lt_Some in H0. rewrite length_app in H0. simpl in H0.
              unfold len. lia.
        -- apply lookup_lt_Some in H0. rewrite length_app in H0. simpl in H0.
           unfold len. lia.
      * replace (f =? -1) with false by (symmetry; apply Z.eqb_neq; lia).
        pose proof (len_nonneg l).
        repeat split; try lia.
        -- rewrite len_app, len_cons. unfold len at 3. simpl. lia.
        -- exists a. rewrite lookup_app_l; [done|]. unfold len in Ht. lia.
        -- exists x. unfold len. rewrite Nat2Z.id. by rewrite list_lookup_middle.
        -- destruct (decide (k < length l)%nat) as [Hk|Hk].
           ++ rewrite lookup_app_l in H0 by done. apply (Hall _ _ H0 H1).
           ++ assert (k = length l) as ->.
              { apply lookup_lt_Some in H0. rewrite length_app in H0. simpl in H0. lia. }
              unfold len in Ht. lia.
        -- apply lookup_lt_Some in H0. rewrite length_app in H0. simpl in H0.
           unfold len. lia.
    + destruct IH as [(-> & -> & Hnone) | (Hft & Ht & (a & Ha & Hpa) & (b & Hb & Hpb) & Hall)].
      * left. repeat split. intros k y Hy.
        destruct (decide (k < length l)%nat) as [Hk|Hk].
        -- rewrite lookup_app_l in Hy by done. eauto.
        -- rewrite lookup_app_r in Hy by lia.
           destruct (k - length l)%nat; simpl in Hy; [congruence|].
           by rewrite lookup_nil in Hy.
      * right. pose proof (len_nonneg l). unfold len in Ht.
        repeat split; try lia.
        -- rewrite len_app, len_cons. unfold len. simpl. lia.
        -- exists a. rewrite lookup_app_l; [done|]. lia.
        -- exists b. rewrite lookup_app_l; [done|]. lia.
        -- destruct (decide (k < length l)%nat) as [Hk|Hk].
           ++ rewrite lookup_app_l in H0 by done. apply (Hall _ _ H0 H1).
           ++ rewrite lookup_app_r in H0 by lia.
              destruct (k - length l)%nat; simpl in H0;
                [congruence | by rewrite lookup_nil in H0].
        -- destruct (decide (k < length l)%nat) as [Hk|Hk].
           ++ rewrite lookup_app_l in H0 by done. apply (Hall _ _ H0 H1).
           ++ rewrite lookup_app_r in H0 by lia.
              destruct (k - length l)%nat; simpl in H0;
                [congruence | by rewrite lookup_nil in H0].
Qed.

(** ** Pass 1 and the tick rows as [first_last] *)

Lemma detect_box_first_last (lines : list str) :
  detect_box lines = first_last is_box_row lines.
Proof. reflexivity. Qed.

Lemma starts_like_number_spec (c0 : ascii) (rest : str) :
  starts_like_number (c0 :: rest) = Ok (isdigit c0).
Proof.
  unfold starts_like_number.
  change (py_get (c0 :: rest) 0) with (Ok c0 : result ascii).
  rewrite !bind_Ok.
  destruct (isdigit c0) eqn:Hd; [done|].
  assert (H0 : char_eqb c0 "0" = false).
  { apply char_eqb_neq. intros ->. discriminate Hd. }
  rewrite H0.
  assert (Hany : existsb (fun d => startswith [d] (c0 :: rest)) (lit "123456789") = false).
  { apply not_true_is_false. intros H. apply existsb_exists in H as (d & Hin & Hs).
    simpl in Hs. rewrite andb_true_r in Hs. apply char_eqb_eq in Hs. subst d.
    simpl in Hin.
    repeat (destruct Hin as [<- | Hin]; [discriminate Hd|]). done. }
  rewrite Hany. by destruct (1 <? len (c0 :: rest)).
Qed.

Lemma tick_row_step_spec (lines : list str) (ys : Z * Z) (k : nat) (line : str) :
  lines !! k = Some line ->
  tick_row_step lines ys (Z.of_nat k)
  = Ok (if is_tick_row line then mark_tick_row ys (Z.of_nat k) else ys).
Proof.
  intros Hk. unfold tick_row_step, is_tick_row.
  rewrite (py_get_nat _ _ _ Hk), bind_Ok.
  destruct (strip line) as [|c0 rest] eqn:Hs; [done|].
  replace (0 <? len (c0 :: rest)) with true
    by (symmetry; apply Z.ltb_lt; rewrite len_cons; pose proof (len_nonneg rest); lia).
  rewrite starts_like_number_spec, bind_Ok.
  destruct (isdigit c0); [|done]. rewrite andb_true_l.
  destruct (contains (lit "e ") (c0 :: rest) || contains (lit "e+") (c0 :: rest)
            || contains (lit "e-") (c0 :: rest)); [done|].
  rewrite orb_false_l.
  destruct ((count " " (c0 :: rest) <=? 2) && existsb isdigit (take 15 (c0 :: rest)));
    [|done].
  rewrite andb_true_l. by destruct (re_x_axis_scale (c0 :: rest)).
Qed.

Lemma fold_left_ext {S A : Type} (f g : S -> A -> S) (l : list A) (s : S) :
  (forall s x, f s x = g s x) -> fold_left f l s = fold_left g l s.
Proof.
  intros H. revert s. induction l as [|x l IH]; intros s; simpl; [done|].
  by rewrite H, IH.
Qed.

Lemma tick_rows_spec (lines : list str) :
  tick_rows lines = Ok (first_last is_tick_row lines).
Proof.
  unfold tick_rows.
  rewrite (for_each_read _ (fun ys i line =>
             if is_tick_row line then mark_tick_row ys i else ys)).
  - f_equal. unfold first_last. apply fold_left_ext.
    intros [f t] [i x]. unfold mark_tick_row. reflexivity.
  - intros s k x Hk. by apply tick_row_step_spec.
Qed.

(** ** Pass 3 *)

Lemma find_found (c : ascii) (s : str) : c ∈ s -> 0 <= find c s.
Proof.
  induction s as [|a s IH]; intros H; [by apply elem_of_nil in H|].
  simpl. destruct (char_eqb a c) eqn:E; [lia|].
  apply elem_of_cons in H as [->|H]; [by rewrite char_eqb_refl in E|].
  specialize (IH H). destruct (find c s =? -1) eqn:E'; lia.
Qed.

Lemma rfind_found (c : ascii) (s : str) : c ∈ s -> 0 <= rfind c s.
Proof.
  induction s as [|a s IH]; intros H; [by apply elem_of_nil in H|].
  simpl. destruct (rfind c s =? -1) eqn:E'.
  - destruct (char_eqb a c) eqn:E; [lia|].
    apply elem_of_cons in H as [->|H]; [by rewrite char_eqb_refl in E|].
    specialize (IH H). lia.
  - apply Z.eqb_neq in E'.
    assert (-1 <= rfind c s); [|lia].
    clear. induction s as [|b s IH]; simpl; [lia|].
    destruct (rfind c s =? -1); [destruct (char_eqb b c)|]; lia.
Qed.

Lemma elem_of_replace_other (c old : ascii) (new s : str) :
  c <> old -> c ∈ s -> c ∈ replace old new s.
Proof.
  intros Hne. induction s as [|a s IH]; intros H; [by apply elem_of_nil in H|].
  simpl. apply elem_of_app. apply elem_of_cons in H as [<-|H].
  - left. apply char_eqb_neq in Hne. rewrite Hne. by apply list_elem_of_singleton.
  - right. by apply IH.
Qed.

(** Pass 2 never removes a vertical-border character. *)
Lemma substituted_row_keeps_pipe (cfg : Config) (line : str) :
  "|"%char ∈ line -> "|"%char ∈ substituted_row cfg line.
Proof.
  intros H. unfold substituted_row. destruct (is_protected line); [done|].
  unfold process_row. rewrite strip_decorations_map, substitute_glyphs_unfold.
  apply (list_elem_of_fmap_2 strip_char) in H as H'.
  assert (E : strip_char "|" = "|"%char) by reflexivity.
  rewrite <- E. apply list_elem_of_fmap_2.
  apply elem_of_replace_other; [discriminate|].
  by apply elem_of_replace_other; [discriminate|].
Qed.

Lemma typical_pipes_first (lines : list str) (i : Z) (rows : list Z) (line : str) :
  0 <= i -> lines !! Z.to_nat i = Some line -> "|"%char ∈ line ->
  typical_pipes lines (i :: rows) = Ok (find "|" line, rfind "|" line).
Proof.
  intros Hi Hl Hp. simpl.
  rewrite (py_get_Z _ _ _ Hi Hl), bind_Ok.
  apply contains_char in Hp. change (lit "|") with ["|"%char]. by rewrite Hp.
Qed.

Lemma alter_as_insert {A : Type} (f : A -> A) (l : list A) (i : nat) (x : A) :
  l !! i = Some x -> alter f i l = <[i := f x]> l.
Proof.
  intros H. apply list_eq. intros j.
  destruct (decide (i = j)) as [<-|Hne].
  - rewrite list_lookup_alter_eq, H, list_lookup_insert_eq; [done|].
    by eapply lookup_lt_Some.
  - by rewrite list_lookup_alter_ne, list_lookup_insert_ne.
Qed.

Lemma rewrite_tick_row_spec (tps L row : Z) (lines : list str) (line : str) :
  0 <= row -> lines !! Z.to_nat row = Some line ->
  rewrite_tick_row tps L row lines
  = Ok (<[Z.to_nat row := rewritten_row tps L line]> lines).
Proof.
  intros Hrow Hl. unfold rewrite_tick_row, rewritten_row.
  assert (Hlt : row < len lines).
  { apply lookup_lt_Some in Hl. unfold len. lia. }
  replace (row <? len lines) with true by (symmetry; by apply Z.ltb_lt).
  rewrite (py_get_Z _ _ _ Hrow Hl), bind_Ok.
  destruct (re_leading_numeric line).
  - by apply py_set_Z.
  - by rewrite list_insert_id.
Qed.

Lemma border_pass_spec (graph_start graph_end : Z) (lines : list str) :
  (graph_start = -1 /\ graph_end = -1)
  \/ (0 <= graph_start <= graph_end /\ graph_end < len lines
      /\ exists row, lines !! Z.to_nat graph_start = Some row /\ "|"%char ∈ row) ->
  border_pass graph_start graph_end lines = Ok (border_spec graph_start lines).
Proof.
  intros [[-> ->] | (Hge & Hlen & row & Hrow & Hpipe)]; [done|].
  unfold border_pass, border_spec.
  replace (graph_start =? -1) with false by (symmetry; apply Z.eqb_neq; lia).
  replace (graph_end =? -1) with false by (symmetry; apply Z.eqb_neq; lia).
  simpl negb. simpl andb. cbv iota.
  rewrite range_cons by lia.
  rewrite (typical_pipes_first _ _ _ row) by (done || lia).
  rewrite bind_Ok, Hrow.
  pose proof (find_found _ _ Hpipe) as Hf.
  pose proof (rfind_found _ _ Hpipe) as Hr.
  replace (find "|" row =? -1) with false by (symmetry; apply Z.eqb_neq; lia).
  replace (rfind "|" row =? -1) with false by (symmetry; apply Z.eqb_neq; lia).
  simpl negb. simpl andb. cbv iota.
  rewrite tick_rows_spec, bind_Ok.
  pose proof (first_last_spec is_tick_row lines) as Hfl.
  destruct (first_last is_tick_row lines) as [fy ly].
  destruct Hfl as [(-> & -> & _) | (Hfy & Hly & (a & Ha & _) & (b & Hb & _) & _)]; [done|].
  replace (fy =? -1) with false by (symmetry; apply Z.eqb_neq; lia).
  replace (ly =? -1) with false by (symmetry; apply Z.eqb_neq; lia).
  simpl negb. simpl andb. cbv iota.
  rewrite (rewrite_tick_row_spec _ _ _ _ a) by (done || lia).
  rewrite bind_Ok.
  assert (Hb' : exists b', <[Z.to_nat fy := rewritten_row (find "|" row)
                             (rfind "|" row - find "|" row - 1) a]> lines
                           !! Z.to_nat ly = Some b').
  { apply lookup_lt_is_Some. rewrite length_insert. by eapply lookup_lt_Some. }
  destruct Hb' as [b' Hb'].
  rewrite (rewrite_tick_row_spec _ _ _ _ b') by (done || lia).
  f_equal.
  rewrite (alter_as_insert _ _ _ _ Ha). by rewrite (alter_as_insert _ _ _ _ Hb').
Qed.

(** ** Pass 4 *)

Lemma label_char_cons (m : Z) (c : ascii) (cs : str) (k : nat) :
  label_char m (c :: cs) k
  = if Z.of_nat k =? m then Some c else label_char (m + 1) cs k.
Proof.
  unfold label_char.
  destruct (Z.of_nat k =? m) eqn:E.
  - apply Z.eqb_eq in E. subst m. rewrite Z.leb_refl, Z.sub_diag. done.
  - apply Z.eqb_neq in E.
    destruct (m <=? Z.of_nat k) eqn:E1.
    + apply Z.leb_le in E1.
      replace (m + 1 <=? Z.of_nat k) with true by (symmetry; apply Z.leb_le; lia).
      replace (Z.to_nat (Z.of_nat k - m)) with (S (Z.to_nat (Z.of_nat k - (m + 1))))
        by lia.
      done.
    + apply Z.leb_gt in E1.
      by replace (m + 1 <=? Z.of_nat k) with false by (symmetry; apply Z.leb_gt; lia).
Qed.

Lemma label_char_Some (m : Z) (cs : str) (k : nat) (c : ascii) :
  label_char m cs k = Some c -> m <= Z.of_nat k < m + len cs.
Proof.
  unfold label_char. destruct (m <=? Z.of_nat k) eqn:E; [|done].
  apply Z.leb_le in E. intros H. apply lookup_lt_Some in H. unfold len. lia.
Qed.

Lemma label_char_None (m : Z) (cs : str) (k : nat) :
  label_char m cs k = None -> ~ (m <= Z.of_nat k < m + len cs).
Proof.
  unfold label_char. destruct (m <=? Z.of_nat k) eqn:E.
  - apply Z.leb_le in E. intros H. apply lookup_ge_None in H. unfold len. lia.
  - apply Z.leb_gt in E. lia.
Qed.

Lemma label_loop_spec (ms : Z) (cs : str) :
  forall (j : Z) (lines : list str),
    for_each
      (fun (lines : list str) '(i, char) =>
         if (0 <=? ms + i) && (ms + i <? len lines) then
           old ← py_get lines (ms + i);
           py_set lines (ms + i) (char :: lit " " ++ old)
         else Ok lines)
      lines (enumerate_from j cs)
    = Ok (imap (labelled_row (ms + j) cs) lines).
Proof.
  induction cs as [|c cs IH]; intros j lines.
  - simpl. f_equal. symmetry. apply list_eq. intros k.
    rewrite list_lookup_imap. unfold labelled_row, label_char.
    destruct (ms + j <=? Z.of_nat k); rewrite ?lookup_nil; by destruct (lines !! k).
  - cbn [enumerate_from for_each].
    destruct ((0 <=? ms + j) && (ms + j <? len lines)) eqn:Hin.
    + apply andb_true_iff in Hin as [H0 H1].
      apply Z.leb_le in H0. apply Z.ltb_lt in H1.
      destruct (lookup_lt_is_Some_2 lines (Z.to_nat (ms + j))) as [old Hold].
      { unfold len in H1. lia. }
      rewrite (py_get_Z _ _ _ H0 Hold), bind_Ok.
      rewrite py_set_Z by lia. rewrite bind_Ok, IH.
      f_equal. apply list_eq. intros k.
      rewrite !list_lookup_imap. unfold labelled_row.
      rewrite (label_char_cons (ms + j)).
      replace (ms + (j + 1)) with (ms + j + 1) by lia.
      destruct (decide (Z.to_nat (ms + j) = k)) as [<-|Hne].
      * rewrite list_lookup_insert_eq by (unfold len in H1; lia).
        rewrite Hold. simpl.
        replace (Z.of_nat (Z.to_nat (ms + j)) =? ms + j) with true
          by (symmetry; apply Z.eqb_eq; lia).
        destruct (label_char (ms + j + 1) cs (Z.to_nat (ms + j))) eqn:E; [|done].
        apply label_char_Some in E. lia.
      * rewrite list_lookup_insert_ne by done.
        replace (Z.of_nat k =? ms + j) with false by (symmetry; apply Z.eqb_neq; lia).
        done.
    + rewrite bind_Ok, IH. f_equal. apply list_eq. intros k.
      rewrite !list_lookup_imap. unfold labelled_row.
      rewrite (label_char_cons (ms + j)).
      replace (ms + (j + 1)) with (ms + j + 1) by lia.
      destruct (lines !! k) as [row|] eqn:Hk; [|done]. simpl.
      apply lookup_lt_Some in Hk.
      replace (Z.of_nat k =? ms + j) with false; [done|].
      symmetry. apply Z.eqb_neq. intros Heq.
      apply andb_false_iff in Hin as [H|H].
      * apply Z.leb_gt in H. lia.
      * apply Z.ltb_ge in H. unfold len in H. lia.
Qed.

Lemma overlay_pass_spec (cfg : Config) (graph_start graph_end : Z) (y_label : str)
    (lines : list str) :
  overlay_pass cfg graph_start graph_end y_label lines
  = Ok (overlay_spec cfg graph_start graph_end y_label lines).
Proof.
  unfold overlay_pass, overlay_spec.
  destruct (show_ylabel_inline cfg); [|done]. rewrite andb_true_l.
  destruct (str_eqb (ylabel_rotation cfg) (lit "vertical")
            && str_eqb (ylabel_position cfg) (lit "left")); [|done].
  cbv zeta. unfold enumerate.
  set (y_chars := y_chars_of y_label).
  set (ms := middle_start_of graph_start graph_end y_chars).
  rewrite (label_loop_spec ms y_chars 0 lines), bind_Ok.
  replace (ms + 0) with ms by lia.
  set (lines1 := imap (labelled_row ms y_chars) lines).
  rewrite (for_each_rows _
    (fun k row =>
       if (graph_start <=? Z.of_nat k) && (Z.of_nat k <=? graph_end)
          && negb ((ms <=? Z.of_nat k) && (Z.of_nat k <? ms + len y_chars))
       then lit "  " ++ row else row)).
  - f_equal. subst lines1. apply list_eq. intros k.
    rewrite !list_lookup_imap. destruct (lines !! k) as [row|]; [|done]. simpl.
    f_equal. unfold labelled_row, overlay_row.
    destruct (label_char ms y_chars k) eqn:E.
    + apply label_char_Some in E.
      replace (ms <=? Z.of_nat k) with true by (symmetry; apply Z.leb_le; lia).
      replace (Z.of_nat k <? ms + len y_chars) with true
        by (symmetry; apply Z.ltb_lt; lia).
      simpl negb. by rewrite andb_false_r.
    + apply label_char_None in E.
      replace ((ms <=? Z.of_nat k) && (Z.of_nat k <? ms + len y_chars)) with false.
      * simpl negb. by rewrite andb_true_r.
      * symmetry. apply andb_false_iff.
        destruct (decide (ms <= Z.of_nat k)).
        -- right. apply Z.ltb_ge. lia.
        -- left. apply Z.leb_gt. lia.
  - intros l k x Hx. cbv beta.
    destruct ((graph_start <=? Z.of_nat k) && (Z.of_nat k <=? graph_end)
              && negb ((ms <=? Z.of_nat k) && (Z.of_nat k <? ms + len y_chars))).
    + rewrite (py_get_nat (A:=str) _ _ _ Hx), bind_Ok.
      apply py_set_nat. by eapply lookup_lt_Some.
    + by rewrite list_insert_id.
Qed.

(** ** The whole post-processor *)

Lemma split_nl_nonempty (s : str) : split_nl s <> [].
Proof.
  destruct s as [|c s]; simpl; [done|].
  destruct (char_eqb c NL); [done|]. by destruct (split_nl s).
Qed.

Lemma box_rows_after_substitution (cfg : Config) (lines : list str)
    (graph_start graph_end : Z) :
  detect_box lines = (graph_start, graph_end) ->
  (graph_start = -1 /\ graph_end = -1)
  \/ (0 <= graph_start <= graph_end
      /\ graph_end < len (map (substituted_row cfg) lines)
      /\ exists row, map (substituted_row cfg) lines !! Z.to_nat graph_start = Some row
                     /\ "|"%char ∈ row).
Proof.
  intros Hbox. pose proof (first_last_spec is_box_row lines) as H.
  rewrite <- detect_box_first_last, Hbox in H.
  destruct H as [(-> & -> & _) | (Hge & Hlen & (a & Ha & Hpa) & _)]; [by left|].
  right. repeat split; try lia.
  - unfold len in *. by rewrite length_map.
  - exists (substituted_row cfg a). split.
    + change (map (substituted_row cfg) lines) with (substituted_row cfg <$> lines).
      by rewrite list_lookup_fmap, Ha.
    + apply substituted_row_keeps_pipe. unfold is_box_row in Hpa.
      apply andb_true_iff in Hpa as [Hpa _]. by apply contains_char in Hpa.
Qed.

Lemma decorated_grid_spec (cfg : Config) (lines : list str) (y_label : str) :
  decorated_grid cfg lines y_label = Ok (decorated_spec cfg lines y_label).
Proof.
  unfold decorated_grid, decorated_spec.
  destruct (detect_box lines) as [graph_start graph_end] eqn:Hbox.
  rewrite substitution_pass_spec, bind_Ok.
  rewrite border_pass_spec by (by apply box_rows_after_substitution).
  rewrite bind_Ok. apply overlay_pass_spec.
Qed.

Lemma post_process_spec (cfg : Config) (raw_output y_label x_label : str) :
  _post_process_ascii_output cfg raw_output y_label x_label
  = Ok (join_nl (metadata_pass cfg y_label x_label
                   (decorated_spec cfg (split_nl raw_output) y_label))).
Proof.
  unfold _post_process_ascii_output.
  rewrite bool_decide_eq_false_2 by apply split_nl_nonempty.
  by rewrite decorated_grid_spec, bind_Ok.
Qed.

(** C10.  The post-processor is total: whatever the raw output, the two
    labels and the configuration, it returns a string and never raises;
    every indexed read and write of the model raises [IndexError] outside
    the list, and none does. *)
Theorem post_process_never_raises (cfg : Config) (raw_output y_label x_label : str) :
  exists processed_output,
    _post_process_ascii_output cfg raw_output y_label x_label = Ok processed_output.
Proof. eexists. apply post_process_spec. Qed.

(** ** Glyph substitution and stripping (C5) *)

Lemma strip_char_other (c : ascii) :
  c <> "-"%char -> c <> "_"%char -> c <> "+"%char -> strip_char c = c.
Proof.
  intros H1 H2 H3. unfold strip_char.
  apply char_eqb_neq in H1, H2, H3. by rewrite H1, H2, H3.
Qed.

Lemma strip_char_cases (c : ascii) : strip_char c = c \/ strip_char c = " "%char.
Proof. unfold strip_char. destruct (_ || _); auto. Qed.

Lemma strip_survivor (glyph : str) :
  survives_stripping glyph -> map strip_char glyph = glyph.
Proof.
  induction 1 as [|c g (H1 & H2 & H3) _ IH]; simpl; [done|].
  by rewrite IH, strip_char_other.
Qed.

(** Stripping goes through a replacement of a character that is neither
    stripped nor produced by the stripping. *)
Lemma strip_replace (old : ascii) (new s : str) :
  strip_char old = old -> old <> " "%char ->
  map strip_char (replace old new s)
  = replace old (map strip_char new) (map strip_char s).
Proof.
  intros Hold Hsp. induction s as [|a s IH]; simpl; [done|].
  rewrite map_app, IH. f_equal.
  destruct (char_eqb a old) eqn:E.
  - apply char_eqb_eq in E. subst a. by rewrite Hold, char_eqb_refl.
  - apply char_eqb_neq in E.
    assert (E' : char_eqb (strip_char a) old = false).
    { apply char_eqb_neq. destruct (strip_char_cases a) as [-> | ->]; congruence. }
    by rewrite E'.
Qed.

Lemma strip_after_substitution (cfg : Config) (line : str) :
  survives_stripping (plot_char_primary cfg) ->
  survives_stripping (plot_char_secondary cfg) ->
  strip_decorations (substitute_glyphs cfg line)
  = substitute_glyphs cfg (strip_decorations line).
Proof.
  intros Hp Hs.
  rewrite !strip_decorations_map, !substitute_glyphs_unfold.
  rewrite strip_replace by (reflexivity || discriminate).
  rewrite strip_replace by (reflexivity || discriminate).
  by rewrite (strip_survivor _ Hp), (strip_survivor _ Hs).
Qed.

(** C5, as amended.  On every row that is not protected and for every
    glyph triplet, pass 2 substitutes first and strips second: the row it
    stores is the stripping applied to the result of the glyph
    substitution.  For every glyph triplet whose primary and secondary
    glyphs hold no dash, underscore or plus sign, no character written by
    the substitution is removed by the stripping: the stored row is then
    also the substitution applied to the stripped row. *)
Theorem substituted_glyphs_survive (cfg : Config) (lines : list str) (i : nat)
    (row : str) :
  lines !! i = Some row ->
  is_protected row = false ->
  exists lines',
    substitution_pass cfg lines = Ok lines'
    /\ lines' !! i = Some (strip_decorations (substitute_glyphs cfg row))
    /\ (survives_stripping (plot_char_primary cfg) ->
        survives_stripping (plot_char_secondary cfg) ->
        strip_decorations (substitute_glyphs cfg row)
        = substitute_glyphs cfg (strip_decorations row)).
Proof.
  intros Hrow Hprot. eexists. split; [apply substitution_pass_spec|]. split.
  - change (map (substituted_row cfg) lines) with (substituted_row cfg <$> lines).
    rewrite list_lookup_fmap, Hrow. simpl. unfold substituted_row. by rewrite Hprot.
  - apply strip_after_substitution.
Qed.

Lemma survives_stripping_dec (glyph : str) :
  forallb (fun c => negb (char_eqb c "-") && negb (char_eqb c "_")
                    && negb (char_eqb c "+")) glyph = true ->
  survives_stripping glyph.
Proof.
  intros H. apply Forall_forall. intros c Hc. apply list_elem_of_In in Hc.
  rewrite forallb_forall in H. specialize (H c Hc).
  apply andb_true_iff in H as [H H3]. apply andb_true_iff in H as [H1 H2].
  apply negb_true_iff, char_eqb_neq in H1, H2, H3. done.
Qed.

Lemma substituted_glyphs_survive_witness :
  let cfg := with_glyphs default_config (lit "#") (lit "o") in
  [lit "*A-+_*"] !! 0%nat = Some (lit "*A-+_*")
  /\ is_protected (lit "*A-+_*") = false
  /\ survives_stripping (plot_char_primary cfg)
  /\ survives_stripping (plot_char_secondary cfg)
  /\ exists lines',
       substitution_pass cfg [lit "*A-+_*"] = Ok lines'
       /\ lines' !! 0%nat = Some (strip_decorations (substitute_glyphs cfg (lit "*A-+_*")))
       /\ strip_decorations (substitute_glyphs cfg (lit "*A-+_*"))
          = substitute_glyphs cfg (strip_decorations (lit "*A-+_*")).
Proof.
  intros cfg.
  assert (Hp : survives_stripping (plot_char_primary cfg))
    by (apply survives_stripping_dec; reflexivity).
  assert (Hs : survives_stripping (plot_char_secondary cfg))
    by (apply survives_stripping_dec; reflexivity).
  split; [reflexivity|]. split; [reflexivity|].
  split; [exact Hp|]. split; [exact Hs|].
  destruct (substituted_glyphs_survive cfg [lit "*A-+_*"] 0 (lit "*A-+_*")
              eq_refl eq_refl) as (lines' & Hpass & Hstored & Hsurvive).
  exists lines'. split; [exact Hpass|]. split; [exact Hstored|].
  exact (Hsurvive Hp Hs).
Defined.

(** C5 as stated fails: with the primary glyph set to a dash, the
    substitution writes a dash for the star and the stripping of the same
    pass blanks it. *)
Lemma stripping_removes_substituted_glyph :
  let cfg := with_glyphs default_config (lit "-") (lit "A") in
  is_protected (lit "*") = false
  /\ substitute_glyphs cfg (lit "*") = lit "-"
  /\ process_row cfg (lit "*") = lit " "
  /\ substitution_pass cfg [lit "*"] = Ok [lit " "]
  /\ process_row cfg (lit "*") <> substitute_glyphs cfg (strip_decorations (lit "*")).
Proof. repeat split; discriminate. Qed.

(** ** The metric extractor (C2, C9) *)

Lemma add_samples_nil (acc : Metrics) : add_samples acc [] = acc.
Proof.
  destruct acc as [[[[[a b] c] d] e] f]. simpl. by rewrite !app_nil_r.
Qed.

Lemma add_samples_app (acc : Metrics) (l k : list StreamSample) :
  add_samples (add_samples acc l) k = add_samples acc (l ++ k).
Proof.
  destruct acc as [[[[[a b] c] d] e] f]. unfold add_samples, sender_samples,
    receiver_samples.
  by rewrite !List.filter_app, !map_app, !app_assoc.
Qed.

(** A sample without a direction flag leaves the six series as they are. *)
Lemma extract_stream_unknown (acc : Metrics) (s : StreamSample) :
  sender s = None -> extract_stream acc s = Ok acc.
Proof.
  intros H. unfold extract_stream. destruct acc as [[[[[a b] c] d] e] f].
  by rewrite H.
Qed.

Lemma extract_stream_spec (acc : Metrics) (s : StreamSample) :
  complete_sample s -> extract_stream acc s = Ok (add_samples acc [s]).
Proof.
  intros Hc. unfold extract_stream, add_samples, sender_samples, receiver_samples.
  destruct acc as [[[[[a b] c] d] e] f]. unfold complete_sample in Hc.
  destruct (sender s) as [[|]|] eqn:Hs; simpl; rewrite Hs; simpl.
  - destruct Hc as [[x ->] [y ->]]; [done|]. simpl. by rewrite !app_nil_r.
  - destruct Hc as [[x ->] [y ->]]; [done|]. simpl. by rewrite !app_nil_r.
  - by rewrite !app_nil_r.
Qed.

Lemma extract_streams_spec (ss : list StreamSample) (acc : Metrics) :
  Forall complete_sample ss -> for_each extract_stream acc ss = Ok (add_samples acc ss).
Proof.
  intros H. revert acc. induction H as [|s ss Hs _ IH]; intros acc.
  - simpl. by rewrite add_samples_nil.
  - simpl. rewrite (extract_stream_spec _ _ Hs), bind_Ok, IH.
    by rewrite add_samples_app.
Qed.

Lemma extract_performance_metrics_spec (data : MeasurementRecord) :
  well_formed data ->
  extract_performance_metrics data
  = Ok (add_samples ([], [], [], [], [], []) (all_streams data)).
Proof.
  unfold well_formed, all_streams, extract_performance_metrics.
  generalize (py_get_or (intervals data) []) as ivs.
  generalize (([], [], [], [], [], []) : Metrics) as acc.
  intros acc ivs. revert acc. induction ivs as [|iv ivs IH]; intros acc H.
  - simpl. by rewrite add_samples_nil.
  - simpl in *. apply Forall_app in H as [H1 H2].
    rewrite (extract_streams_spec _ _ H1), bind_Ok, (IH _ H2).
    by rewrite add_samples_app.
Qed.

Lemma filter_flag_true (ss : list StreamSample) :
  sender_samples ss = List.filter (fun s => bool_decide (sender s = Some true)) ss.
Proof.
  unfold sender_samples. apply List.filter_ext. intros s.
  by destruct (sender s) as [[|]|].
Qed.

Lemma filter_flag_false (ss : list StreamSample) :
  receiver_samples ss = List.filter (fun s => bool_decide (sender s = Some false)) ss.
Proof.
  unfold receiver_samples. apply List.filter_ext. intros s.
  by destruct (sender s) as [[|]|].
Qed.

(** C2.  For every measurement record (every sample with a direction has
    its end time and byte count; the flag is true, false or absent), the
    extractor returns six series: the sender times and bytes have as many
    entries as there are samples with flag true, the receiver times and
    bytes, the loss and the jitter series as many as there are samples with
    flag false; a sample with an absent flag adds to no series. *)
Theorem series_lengths (data : MeasurementRecord) :
  well_formed data ->
  (exists sender_times sender_bytes receiver_times receiver_bytes packet_loss jitter,
      extract_performance_metrics data
      = Ok (sender_times, sender_bytes, receiver_times, receiver_bytes,
            packet_loss, jitter)
      /\ length sender_times = count_direction (Some true) data
      /\ length sender_bytes = count_direction (Some true) data
      /\ length receiver_times = count_direction (Some false) data
      /\ length receiver_bytes = count_direction (Some false) data
      /\ length packet_loss = count_direction (Some false) data
      /\ length jitter = count_direction (Some false) data)
  /\ (forall acc s, sender s = None -> extract_stream acc s = Ok acc).
Proof.
  intros Hwf. split; [|apply extract_stream_unknown].
  rewrite (extract_performance_metrics_spec _ Hwf).
  unfold add_samples, count_direction.
  do 6 eexists. split; [reflexivity|].
  simpl. rewrite !length_map, <- filter_flag_true, <- filter_flag_false. done.
Qed.

Lemma sample_record_well_formed : well_formed sample_record.
Proof.
  unfold well_formed. simpl. repeat constructor; simpl; eauto; done.
Defined.

Lemma series_lengths_witness :
  well_formed sample_record
  /\ (exists sender_times sender_bytes receiver_times receiver_bytes packet_loss jitter,
         extract_performance_metrics sample_record
         = Ok (sender_times, sender_bytes, receiver_times, receiver_bytes,
               packet_loss, jitter)
         /\ length sender_times = count_direction (Some true) sample_record
         /\ length sender_bytes = count_direction (Some true) sample_record
         /\ length receiver_times = count_direction (Some false) sample_record
         /\ length receiver_bytes = count_direction (Some false) sample_record
         /\ length packet_loss = count_direction (Some false) sample_record
         /\ length jitter = count_direction (Some false) sample_record)
     /\ (forall acc s, sender s = None -> extract_stream acc s = Ok acc).
Proof.
  split; [apply sample_record_well_formed|].
  apply (series_lengths sample_record), sample_record_well_formed.
Defined.

Lemma for_each_raises {S A : Type} (body : S -> A -> result S) (P : exn -> Prop)
    (xs : list A) :
  (forall s x e, body s x = Raise e -> P e) ->
  forall s e, for_each body s xs = Raise e -> P e.
Proof.
  intros Hbody. induction xs as [|x xs IH]; intros s e; simpl; [done|].
  destruct (body s x) as [s'|e'] eqn:E.
  - rewrite bind_Ok. apply IH.
  - intros H. injection H as <-. by eapply Hbody.
Qed.

(** On any record whatever, the only exception the extractor can raise is
    the [KeyError] of a sample with a direction and no [end] or [bytes]:
    no missing optional field makes it raise. *)
Lemma extract_raises_only_for_required_fields (data : MeasurementRecord) (e : exn) :
  extract_performance_metrics data = Raise e ->
  e = KeyError "end" \/ e = KeyError "bytes".
Proof.
  unfold extract_performance_metrics.
  apply (for_each_raises _ (fun e => e = KeyError "end" \/ e = KeyError "bytes")).
  intros acc interval e'.
  apply (for_each_raises _ (fun e => e = KeyError "end" \/ e = KeyError "bytes")).
  clear. intros acc s e.
  unfold extract_stream. destruct acc as [[[[[a b] c] d] f] g].
  destruct (truthy (sender s)); [|destruct (is_False (sender s)); [|done]];
    destruct (end_ s); simpl; try (intros H; injection H as <-; by left);
    destruct (bytes s); simpl; try done; intros H; injection H as <-; by right.
Qed.

(** C9.  For every measurement record the extractor returns its series
    without raising, whichever optional fields are missing; the loss and
    jitter series have one entry per receiver sample, in order, and the
    entry of a receiver sample without [lost_percent] (without
    [jitter_ms]) is the integer 0, so the receiver-side series all have the
    length of the receiver time axis. *)
Theorem missing_optional_fields_default_to_zero (data : MeasurementRecord) :
  well_formed data ->
  exists sender_times sender_bytes receiver_times receiver_bytes packet_loss jitter,
    extract_performance_metrics data
    = Ok (sender_times, sender_bytes, receiver_times, receiver_bytes,
          packet_loss, jitter)
    /\ length packet_loss = length receiver_times
    /\ length jitter = length receiver_times
    /\ length receiver_bytes = length receiver_times
    /\ length receiver_times = length (receiver_samples (all_streams data))
    /\ (forall k s, receiver_samples (all_streams data) !! k = Some s ->
          packet_loss !! k = Some (py_get_or (lost_percent s) (PyInt 0))
          /\ jitter !! k = Some (py_get_or (jitter_ms s) (PyInt 0)))
    /\ (forall k s, receiver_samples (all_streams data) !! k = Some s ->
          lost_percent s = None -> packet_loss !! k = Some (PyInt 0))
    /\ (forall k s, receiver_samples (all_streams data) !! k = Some s ->
          jitter_ms s = None -> jitter !! k = Some (PyInt 0)).
Proof.
  intros Hwf. rewrite (extract_performance_metrics_spec _ Hwf).
  unfold add_samples. do 6 eexists. split; [reflexivity|]. simpl.
  rewrite !length_map.
  assert (Hk : forall k s,
             receiver_samples (all_streams data) !! k = Some s ->
             map (fun s => value_or_zero (lost_percent s))
                 (receiver_samples (all_streams data)) !! k
             = Some (py_get_or (lost_percent s) (PyInt 0))
             /\ map (fun s => value_or_zero (jitter_ms s))
                    (receiver_samples (all_streams data)) !! k
                = Some (py_get_or (jitter_ms s) (PyInt 0))).
  { intros k s Hs.
    change (map ?f ?l) with (f <$> l). by rewrite !list_lookup_fmap, Hs. }
  repeat split; try done.
  - by apply Hk.
  - by apply Hk.
  - intros k s Hs Hnone. destruct (Hk k s Hs) as [-> _]. by rewrite Hnone.
  - intros k s Hs Hnone. destruct (Hk k s Hs) as [_ ->]. by rewrite Hnone.
Qed.

Lemma missing_optional_fields_default_to_zero_witness :
  well_formed sample_record
  /\ exists sender_times sender_bytes receiver_times receiver_bytes packet_loss jitter,
      extract_performance_metrics sample_record
      = Ok (sender_times, sender_bytes, receiver_times, receiver_bytes,
            packet_loss, jitter)
      /\ length packet_loss = length receiver_times
      /\ length jitter = length receiver_times
      /\ length receiver_bytes = length receiver_times
      /\ length receiver_times = length (receiver_samples (all_streams sample_record))
      /\ (forall k s, receiver_samples (all_streams sample_record) !! k = Some s ->
            packet_loss !! k = Some (py_get_or (lost_percent s) (PyInt 0))
            /\ jitter !! k = Some (py_get_or (jitter_ms s) (PyInt 0)))
      /\ (forall k s, receiver_samples (all_streams sample_record) !! k = Some s ->
            lost_percent s = None -> packet_loss !! k = Some (PyInt 0))
      /\ (forall k s, receiver_samples (all_streams sample_record) !! k = Some s ->
            jitter_ms s = None -> jitter !! k = Some (PyInt 0)).
Proof.
  split; [apply sample_record_well_formed|].
  apply (missing_optional_fields_default_to_zero sample_record),
    sample_record_well_formed.
Defined.

(** On [sample_record] the loss series is [5; 0] and the jitter series
    [2; 0]: the second receiver sample has neither field. *)
Example sample_record_series :
  extract_performance_metrics sample_record
  = Ok ([PyInt 1], [PyInt 1000], [PyInt 1; PyInt 2], [PyInt 900; PyInt 800],
        [PyInt 5; PyInt 0], [PyInt 2; PyInt 0]).
Proof. reflexivity. Qed.

(** ** Rows that pass 3 and pass 4 leave alone *)

Lemma length_border_spec (graph_start : Z) (lines : list str) :
  length (border_spec graph_start lines) = length lines.
Proof.
  unfold border_spec. destruct (graph_start =? -1); [done|].
  destruct (lines !! Z.to_nat graph_start); [|done].
  destruct (first_last is_tick_row lines) as [fy ly].
  destruct (fy =? -1); [done|]. by rewrite !length_alter.
Qed.

Lemma border_spec_no_box (lines : list str) : border_spec (-1) lines = lines.
Proof. reflexivity. Qed.

(** Pass 3 changes no row but the first and the last tick row. *)
Lemma border_spec_other_row (graph_start : Z) (lines : list str) (i : nat) :
  (let '(first_y_line, last_y_line) := first_last is_tick_row lines in
   Z.of_nat i <> first_y_line /\ Z.of_nat i <> last_y_line) ->
  border_spec graph_start lines !! i = lines !! i.
Proof.
  unfold border_spec. destruct (graph_start =? -1); [done|].
  destruct (lines !! Z.to_nat graph_start); [|done].
  pose proof (first_last_spec is_tick_row lines) as Hfl.
  destruct (first_last is_tick_row lines) as [fy ly]. intros [H1 H2].
  destruct Hfl as [(-> & _) | (Hfy & _)]; [done|].
  destruct (fy =? -1); [done|].
  rewrite !list_lookup_alter_ne by lia. done.
Qed.

Lemma overlay_spec_disabled (cfg : Config) (gs ge : Z) (y_label : str)
    (lines : list str) :
  overlay_enabled cfg = false -> overlay_spec cfg gs ge y_label lines = lines.
Proof. unfold overlay_enabled, overlay_spec. by intros ->. Qed.

Lemma overlay_spec_enabled (cfg : Config) (gs ge : Z) (y_label : str)
    (lines : list str) :
  overlay_enabled cfg = true ->
  overlay_spec cfg gs ge y_label lines
  = imap (overlay_row gs ge (middle_start_of gs ge (y_chars_of y_label))
            (y_chars_of y_label)) lines.
Proof. unfold overlay_enabled, overlay_spec. by intros ->. Qed.

Lemma length_overlay_spec (cfg : Config) (gs ge : Z) (y_label : str)
    (lines : list str) :
  length (overlay_spec cfg gs ge y_label lines) = length lines.
Proof.
  destruct (overlay_enabled cfg) eqn:E.
  - by rewrite overlay_spec_enabled, length_imap.
  - by rewrite overlay_spec_disabled.
Qed.

(** Pass 4 changes no row outside the box that gets no label character. *)
Lemma overlay_spec_other_row (cfg : Config) (gs ge : Z) (y_label : str)
    (lines : list str) (i : nat) :
  ~ (gs <= Z.of_nat i <= ge) ->
  ~ (middle_start_of gs ge (y_chars_of y_label) <= Z.of_nat i
     < middle_start_of gs ge (y_chars_of y_label) + len (y_chars_of y_label)) ->
  overlay_spec cfg gs ge y_label lines !! i = lines !! i.
Proof.
  intros Hbox Hlab. destruct (overlay_enabled cfg) eqn:E.
  - rewrite overlay_spec_enabled by done. rewrite list_lookup_imap.
    destruct (lines !! i) as [row|]; [|done]. simpl. f_equal.
    unfold overlay_row.
    destruct (label_char _ _ i) eqn:El; [by apply label_char_Some in El|].
    replace ((gs <=? Z.of_nat i) && (Z.of_nat i <=? ge)) with false; [done|].
    symmetry. apply andb_false_iff.
    destruct (decide (gs <= Z.of_nat i)).
    + right. apply Z.leb_gt. lia.
    + left. apply Z.leb_gt. lia.
  - by rewrite overlay_spec_disabled.
Qed.

(** A row that gets a label character starts with it. *)
Lemma overlay_spec_label_row (cfg : Config) (gs ge : Z) (y_label : str)
    (lines : list str) (i : nat) (c : ascii) :
  overlay_enabled cfg = true ->
  y_chars_of y_label !! i = Some c ->
  0 <= middle_start_of gs ge (y_chars_of y_label) ->
  middle_start_of gs ge (y_chars_of y_label) + Z.of_nat i < len lines ->
  exists row,
    overlay_spec cfg gs ge y_label lines
      !! Z.to_nat (middle_start_of gs ge (y_chars_of y_label) + Z.of_nat i)
    = Some (c :: " "%char :: row).
Proof.
  intros E Hc H0 Hlt. rewrite overlay_spec_enabled by done.
  set (ms := middle_start_of gs ge (y_chars_of y_label)) in *.
  rewrite list_lookup_imap.
  destruct (lookup_lt_is_Some_2 lines (Z.to_nat (ms + Z.of_nat i))) as [row Hrow].
  { unfold len in Hlt. lia. }
  exists row. rewrite Hrow. simpl. f_equal. unfold overlay_row, label_char.
  replace (ms <=? Z.of_nat (Z.to_nat (ms + Z.of_nat i))) with true
    by (symmetry; apply Z.leb_le; lia).
  replace (Z.to_nat (Z.of_nat (Z.to_nat (ms + Z.of_nat i)) - ms)) with i by lia.
  by rewrite Hc.
Qed.

(** ** The vertical label read back (C3) *)

Lemma omap_all_Some {A B : Type} (f : A -> option B) (l : list A) (k : list B) :
  f <$> l = Some <$> k -> omap f l = k.
Proof.
  revert k. induction l as [|x l IH]; intros [|y k] H; simpl in *; try done.
  injection H as Hx Hl. rewrite Hx. simpl. f_equal. by apply IH.
Qed.

Lemma unseparate_y_chars (y_label : str) :
  "_"%char ∉ y_label -> unseparate (y_chars_of y_label) = y_label.
Proof.
  unfold unseparate, y_chars_of.
  induction y_label as [|a y IH]; intros H; simpl; [done|].
  apply not_elem_of_cons in H as [Ha Hy].
  specialize (IH Hy). simpl in IH. rewrite replace_app, IH. f_equal.
  destruct (char_eqb a " ") eqn:E.
  - apply char_eqb_eq in E. by subst a.
  - simpl. apply not_eq_sym, char_eqb_neq in Ha.
    unfold char_eqb in *. by rewrite Ha.
Qed.

Lemma overlaid_chars_spec (cfg : Config) (gs ge : Z) (y_label : str) (lines : list str) :
  overlay_enabled cfg = true ->
  0 <= middle_start_of gs ge (y_chars_of y_label) ->
  middle_start_of gs ge (y_chars_of y_label) + len (y_chars_of y_label) <= len lines ->
  overlaid_chars (overlay_spec cfg gs ge y_label lines)
    (middle_start_of gs ge (y_chars_of y_label)) (len (y_chars_of y_label))
  = y_chars_of y_label.
Proof.
  intros E H0 Hfit. unfold overlaid_chars, range.
  set (cs := y_chars_of y_label) in *. set (ms := middle_start_of gs ge cs) in *.
  replace (ms + len cs - ms) with (len cs) by lia.
  apply omap_all_Some. apply list_eq. intros i.
  rewrite !list_lookup_fmap.
  destruct (cs !! i) as [c|] eqn:Hc.
  - assert (Hi : Z.of_nat i < len cs).
    { apply lookup_lt_Some in Hc. unfold len. lia. }
    rewrite lookup_seqZ_lt by done. simpl.
    destruct (overlay_spec_label_row cfg gs ge y_label lines i c E Hc H0) as [row Hrow].
    { fold cs ms. lia. }
    unfold row_head. fold cs ms in Hrow.
    replace (0 <=? ms + Z.of_nat i) with true by (symmetry; apply Z.leb_le; lia).
    by rewrite Hrow.
  - apply lookup_ge_None in Hc.
    rewrite lookup_seqZ_ge by (unfold len; lia). done.
Qed.

(** C3, as amended.  With inline labelling enabled, vertical and on the
    left: for every grid and every y-axis label that holds no underscore
    and whose rows [middle_start .. middle_start + len - 1] all lie inside
    the grid, the first characters of those rows of the decorated grid,
    read top to bottom with underscores turned back into spaces, are the
    label. *)
Theorem overlay_reconstructs_label (cfg : Config) (lines : list str) (y_label : str)
    (graph_start graph_end : Z) :
  show_ylabel_inline cfg = true ->
  ylabel_rotation cfg = lit "vertical" ->
  ylabel_position cfg = lit "left" ->
  detect_box lines = (graph_start, graph_end) ->
  "_"%char ∉ y_label ->
  0 <= middle_start_of graph_start graph_end (y_chars_of y_label) ->
  middle_start_of graph_start graph_end (y_chars_of y_label) + len (y_chars_of y_label)
    <= len lines ->
  exists grid,
    decorated_grid cfg lines y_label = Ok grid
    /\ unseparate
         (overlaid_chars grid
            (middle_start_of graph_start graph_end (y_chars_of y_label))
            (len (y_chars_of y_label)))
       = y_label.
Proof.
  intros Hinline Hrot Hpos Hbox Hus H0 Hfit.
  exists (decorated_spec cfg lines y_label). split; [apply decorated_grid_spec|].
  unfold decorated_spec. rewrite Hbox.
  rewrite overlaid_chars_spec.
  - by apply unseparate_y_chars.
  - unfold overlay_enabled. rewrite Hinline, Hrot, Hpos. reflexivity.
  - done.
  - unfold len in *. by rewrite length_border_spec, length_map.
Qed.

Lemma overlay_reconstructs_label_witness :
  let lines := [ []; box_row 0 50; [] ] in
  show_ylabel_inline default_config = true
  /\ ylabel_rotation default_config = lit "vertical"
  /\ ylabel_position default_config = lit "left"
  /\ detect_box lines = (1, 1)
  /\ ("_"%char ∉ lit "a b")
  /\ 0 <= middle_start_of 1 1 (y_chars_of (lit "a b"))
  /\ middle_start_of 1 1 (y_chars_of (lit "a b")) + len (y_chars_of (lit "a b"))
     <= len lines
  /\ exists grid,
       decorated_grid default_config lines (lit "a b") = Ok grid
       /\ unseparate
            (overlaid_chars grid (middle_start_of 1 1 (y_chars_of (lit "a b")))
               (len (y_chars_of (lit "a b"))))
          = lit "a b".
Proof.
  intros lines.
  assert (Hus : "_"%char ∉ lit "a b").
  { intros H. apply list_elem_of_In in H. simpl in H.
    repeat (destruct H as [H|H]; [discriminate H|]). done. }
  assert (H0 : 0 <= middle_start_of 1 1 (y_chars_of (lit "a b"))) by (vm_compute; discriminate).
  assert (H1 : middle_start_of 1 1 (y_chars_of (lit "a b")) + len (y_chars_of (lit "a b"))
               <= len lines) by (vm_compute; discriminate).
  repeat split; try assumption; try reflexivity.
  apply (overlay_reconstructs_label default_config lines (lit "a b") 1 1);
    (reflexivity || assumption).
Defined.

(** C3 as stated fails.  A label with an underscore comes back with a
    space in its place; and a label longer than the rows at hand loses its
    characters that fall outside the grid. *)
Lemma overlay_label_not_reconstructed :
  (detect_box [ []; box_row 0 50; [] ] = (1, 1)
   /\ middle_start_of 1 1 (y_chars_of (lit "a_b")) = 0
   /\ 0 + len (y_chars_of (lit "a_b")) <= len [ []; box_row 0 50; [] ]
   /\ decorated_grid default_config [ []; box_row 0 50; [] ] (lit "a_b")
      = Ok [ lit "a "; lit "_ " ++ box_row 0 50; lit "b " ]
   /\ unseparate (overlaid_chars [ lit "a "; lit "_ " ++ box_row 0 50; lit "b " ] 0 3)
      = lit "a b"
   /\ lit "a b" <> lit "a_b")
  /\ (detect_box [ box_row 0 50 ] = (0, 0)
      /\ middle_start_of 0 0 (y_chars_of (lit "abc")) = -1
      /\ decorated_grid default_config [ box_row 0 50 ] (lit "abc")
         = Ok [ lit "b " ++ box_row 0 50 ]
      /\ unseparate (overlaid_chars [ lit "b " ++ box_row 0 50 ] (-1) 3) = lit "b"
      /\ lit "b" <> lit "abc").
Proof. repeat split; discriminate. Qed.

(** ** Protected rows (C4) *)

(** A substring brings all its characters. *)
Lemma startswith_elem (p s : str) (c : ascii) :
  startswith p s = true -> c ∈ p -> c ∈ s.
Proof.
  revert s. induction p as [|a p IH]; intros s H Hc; [by apply elem_of_nil in Hc|].
  destruct s as [|b s]; [discriminate|]. simpl in H.
  apply andb_true_iff in H as [Hab Hp]. apply char_eqb_eq in Hab. subst b.
  apply elem_of_cons in Hc as [->|Hc]; [by left|]. right. by apply IH.
Qed.

Lemma contains_elem (p s : str) (c : ascii) :
  contains p s = true -> c ∈ p -> c ∈ s.
Proof.
  induction s as [|b s IH]; simpl; intros H Hc.
  - rewrite orb_false_r in H. by eapply startswith_elem.
  - apply orb_true_iff in H as [H|H].
    + by eapply (startswith_elem p (b :: s)).
    + right. by apply IH.
Qed.

Lemma elem_of_rev {A : Type} (l : list A) (x : A) : x ∈ rev l <-> x ∈ l.
Proof. rewrite !list_elem_of_In. symmetry. apply in_rev. Qed.

Lemma drop_while_keeps {A : Type} (p : A -> bool) (l : list A) (x : A) :
  x ∈ l -> p x = false -> x ∈ drop_while p l.
Proof.
  induction l as [|a l IH]; intros H Hx; [done|]. simpl.
  destruct (p a) eqn:E; [|done].
  apply elem_of_cons in H as [->|H]; [congruence|]. by apply IH.
Qed.

(** A row with a character that is not white space does not strip to the
    empty string. *)
Lemma strip_nonempty (s : str) (c : ascii) :
  c ∈ s -> isspace c = false -> strip s <> [].
Proof.
  intros Hc Hs. unfold strip, rstrip, lstrip.
  assert (H : c ∈ rev (drop_while isspace (rev (drop_while isspace s)))).
  { apply elem_of_rev, drop_while_keeps; [|done].
    apply elem_of_rev, drop_while_keeps; done. }
  intros E. rewrite E in H. by apply elem_of_nil in H.
Qed.

Lemma protected_not_blank (row : str) : is_protected row = true -> strip row <> [].
Proof.
  unfold is_protected, protected_phrases. simpl.
  rewrite !orb_true_iff. intros [H|[H|[H|[H|H]]]]; [| | | |done].
  - apply (strip_nonempty row "N"); [|done].
    apply (contains_elem _ _ _ H). apply list_elem_of_In. simpl. auto.
  - apply (strip_nonempty row "M"); [|done].
    apply (contains_elem _ _ _ H). apply list_elem_of_In. simpl. auto.
  - apply (strip_nonempty row "X"); [|done].
    apply (contains_elem _ _ _ H). apply list_elem_of_In. simpl. auto.
  - apply (strip_nonempty row "Y"); [|done].
    apply (contains_elem _ _ _ H). apply list_elem_of_In. simpl. auto.
Qed.

(** Popping the blank rows at the end keeps every row that is not blank,
    at its index. *)
Lemma drop_blank_rows_split (reversed : list str) :
  exists blanks, reversed = blanks ++ drop_blank_rows reversed
                 /\ Forall (fun l => strip l = []) blanks.
Proof.
  induction reversed as [|l rest (blanks & IH1 & IH2)]; simpl.
  - by exists [].
  - destruct (str_eqb (strip l) []) eqn:E.
    + apply str_eqb_eq in E. exists (l :: blanks). split; [simpl; congruence|].
      by constructor.
    + by exists [].
Qed.

Lemma pop_trailing_blank_lookup (lines : list str) (i : nat) (row : str) :
  lines !! i = Some row -> strip row <> [] ->
  pop_trailing_blank lines !! i = Some row.
Proof.
  intros Hrow Hnb. unfold pop_trailing_blank.
  destruct (drop_blank_rows_split (rev lines)) as (blanks & E & Hblank).
  assert (E' : lines = rev (drop_blank_rows (rev lines)) ++ rev blanks).
  { rewrite <- rev_app_distr, <- E. by rewrite rev_involutive. }
  rewrite E' in Hrow. apply lookup_app_Some in Hrow as [H|[_ H]]; [done|].
  exfalso. apply list_elem_of_lookup_2 in H. apply (proj1 (elem_of_rev _ _)) in H.
  rewrite Forall_forall in Hblank. by apply Hnb, Hblank.
Qed.

Lemma metadata_pass_lookup (cfg : Config) (y_label x_label : str) (lines : list str)
    (i : nat) (row : str) :
  lines !! i = Some row -> strip row <> [] ->
  metadata_pass cfg y_label x_label lines !! i = Some row.
Proof.
  intros Hrow Hnb. unfold metadata_pass.
  destruct (show_axis_info_below cfg); [|done].
  apply lookup_app_l_Some. by apply pop_trailing_blank_lookup.
Qed.

(** C4, as amended.  A row that holds a protected phrase is the same
    before and after pass 2.  It is the same in the grid the post-processor
    joins into its result when, moreover, it is not the first or the last
    numeric tick row of a grid with a box, and either the vertical label is
    off, or the row lies outside the rows of the box and gets no label
    character. *)
Theorem protected_rows_unchanged (cfg : Config) (raw_output y_label x_label : str)
    (i : nat) (row : str) :
  split_nl raw_output !! i = Some row ->
  is_protected row = true ->
  exists lines1,
    substitution_pass cfg (split_nl raw_output) = Ok lines1
    /\ lines1 !! i = Some row
    /\ forall graph_start graph_end first_y_line last_y_line,
         detect_box (split_nl raw_output) = (graph_start, graph_end) ->
         tick_rows lines1 = Ok (first_y_line, last_y_line) ->
         graph_start = -1
         \/ (Z.of_nat i <> first_y_line /\ Z.of_nat i <> last_y_line) ->
         overlay_enabled cfg = false
         \/ (~ (graph_start <= Z.of_nat i <= graph_end)
             /\ ~ (middle_start_of graph_start graph_end (y_chars_of y_label)
                   <= Z.of_nat i
                   < middle_start_of graph_start graph_end (y_chars_of y_label)
                     + len (y_chars_of y_label))) ->
         exists grid,
           decorated_grid cfg (split_nl raw_output) y_label = Ok grid
           /\ _post_process_ascii_output cfg raw_output y_label x_label
              = Ok (join_nl (metadata_pass cfg y_label x_label grid))
           /\ grid !! i = Some row
           /\ metadata_pass cfg y_label x_label grid !! i = Some row.
Proof.
  intros Hrow Hprot.
  assert (H1 : map (substituted_row cfg) (split_nl raw_output) !! i = Some row).
  { change (map ?f ?l) with (f <$> l). rewrite list_lookup_fmap, Hrow. simpl.
    unfold substituted_row. by rewrite Hprot. }
  eexists. split; [apply substitution_pass_spec|]. split; [exact H1|].
  intros gs ge fy ly Hbox Hticks Htick Hover.
  rewrite tick_rows_spec in Hticks. injection Hticks as Hticks.
  exists (decorated_spec cfg (split_nl raw_output) y_label).
  split; [apply decorated_grid_spec|]. split; [apply post_process_spec|].
  assert (H2 : border_spec gs (map (substituted_row cfg) (split_nl raw_output)) !! i
               = Some row).
  { destruct Htick as [-> | Htick]; [by rewrite border_spec_no_box|].
    rewrite border_spec_other_row; [done|]. by rewrite Hticks. }
  assert (H3 : decorated_spec cfg (split_nl raw_output) y_label !! i = Some row).
  { unfold decorated_spec. rewrite Hbox.
    destruct Hover as [Hoff | [Hb Hl]].
    - by rewrite overlay_spec_disabled.
    - by rewrite overlay_spec_other_row. }
  split; [done|].
  apply metadata_pass_lookup; [done|]. by apply protected_not_blank.
Qed.

Lemma protected_rows_unchanged_witness :
  let raw_output := lit "Network" ++ [NL] ++ box_row 0 50 ++ [NL] in
  split_nl raw_output !! 0%nat = Some (lit "Network")
  /\ is_protected (lit "Network") = true
  /\ exists lines1,
       substitution_pass default_config (split_nl raw_output) = Ok lines1
       /\ lines1 !! 0%nat = Some (lit "Network")
       /\ exists grid,
            decorated_grid default_config (split_nl raw_output) (lit "a") = Ok grid
            /\ _post_process_ascii_output default_config raw_output (lit "a") []
               = Ok (join_nl (metadata_pass default_config (lit "a") [] grid))
            /\ grid !! 0%nat = Some (lit "Network")
            /\ metadata_pass default_config (lit "a") [] grid !! 0%nat
               = Some (lit "Network").
Proof.
  intros raw_output.
  assert (H1 : split_nl raw_output !! 0%nat = Some (lit "Network")) by reflexivity.
  assert (H2 : is_protected (lit "Network") = true) by reflexivity.
  destruct (protected_rows_unchanged default_config raw_output (lit "a") [] 0
              (lit "Network") H1 H2) as (lines1 & Hpass & Hsame & Hfinal).
  split; [exact H1|]. split; [exact H2|].
  exists lines1. split; [exact Hpass|]. split; [exact Hsame|].
  apply (Hfinal 1 1 (-1) (-1)).
  - reflexivity.
  - rewrite substitution_pass_spec in Hpass. injection Hpass as <-. reflexivity.
  - right. split; discriminate.
  - right. split; intros H; vm_compute in H; destruct H as [Ha Hb];
      try (by apply Ha); try (by apply Hb).
Defined.

(** C4 as stated fails.  A protected row inside the box gets a label
    character in front; a protected row that opens with a number and is
    the first tick row is replaced by a border. *)
Lemma protected_row_rewritten :
  (let raw_output := lit "Network" ++ box_row 0 50 in
   split_nl raw_output = [raw_output]
   /\ is_protected raw_output = true
   /\ decorated_grid default_config [raw_output] (lit "a")
      = Ok [lit "a " ++ raw_output]
   /\ _post_process_ascii_output default_config raw_output (lit "a") []
      = Ok (lit "a " ++ raw_output)
   /\ lit "a " ++ raw_output <> raw_output)
  /\ (let raw_output :=
        lit "2024 Network" ++ [NL] ++ box_row 0 50 ++ [NL] ++ lit "7" in
      split_nl raw_output = [lit "2024 Network"; box_row 0 50; lit "7"]
      /\ is_protected (lit "2024 Network") = true
      /\ decorated_grid default_config (split_nl raw_output) []
         = Ok [ lit "2024 +" ++ times "-" 50 ++ lit "+"; lit "  " ++ box_row 0 50;
                lit "7 +" ++ times "-" 50 ++ lit "+" ]
      /\ _post_process_ascii_output default_config raw_output [] []
         = Ok (lit "2024 +" ++ times "-" 50 ++ lit "+" ++ [NL]
               ++ lit "  " ++ box_row 0 50 ++ [NL]
               ++ lit "7 +" ++ times "-" 50 ++ lit "+")
      /\ lit "2024 +" ++ times "-" 50 ++ lit "+" <> lit "2024 Network").
Proof. repeat split; discriminate. Qed.

(** ** Border reconstruction on distinct tick rows *)

(** Both branches of [border_line] are one formula, the padding being
    empty when nothing is left of it. *)
Lemma border_line_shape (C L : Z) (y_value : str) :
  border_line C L y_value
  = times " " (C - 1 - len y_value) ++ y_value ++ lit " +" ++ times "-" L ++ lit "+".
Proof.
  unfold border_line. destruct (0 <? C - 1 - len y_value) eqn:E.
  - reflexivity.
  - apply Z.ltb_ge in E.
    assert (Hpad : times " " (C - 1 - len y_value) = []).
    { unfold times. by replace (Z.to_nat (C - 1 - len y_value)) with 0%nat by lia. }
    by rewrite Hpad.
Qed.

(** The column of the opening corner: [C] as long as the label fits, the
    column after the label and its blank otherwise. *)
Lemma border_line_corner (C : Z) (y_value : str) :
  len (times " " (C - 1 - len y_value) ++ y_value ++ lit " ")
  = Z.max C (len y_value + 1).
Proof.
  rewrite !len_app, len_times. change (len (lit " ")) with 1. lia.
Qed.

Lemma drop_while_head {A : Type} (p : A -> bool) (l l' : list A) (a : A) :
  drop_while p l = a :: l' -> p a = false.
Proof.
  induction l as [|x l IH]; simpl; [done|].
  destruct (p x) eqn:E; [done|]. intros H. injection H as -> _. done.
Qed.

Lemma drop_while_snoc {A : Type} (p : A -> bool) (l : list A) (a : A) :
  p a = false -> drop_while p (l ++ [a]) = drop_while p l ++ [a].
Proof.
  intros H. induction l as [|x l IH]; simpl; [by rewrite H|].
  by destruct (p x).
Qed.

(** The first character of the stripped row is the first character of
    the row that is not white space. *)
Lemma strip_head (line : str) (c0 : ascii) (rest : str) :
  strip line = c0 :: rest ->
  exists rest', lstrip line = c0 :: rest' /\ isspace c0 = false.
Proof.
  unfold strip, rstrip. destruct (lstrip line) as [|a s] eqn:Hl; [done|].
  pose proof (drop_while_head _ _ _ _ Hl) as Ha.
  simpl rev. rewrite (drop_while_snoc _ _ _ Ha), rev_app_distr. simpl.
  intros H. injection H as -> _. eauto.
Qed.

Lemma re_leading_numeric_decimal (line : str) :
  opens_with_decimal line ->
  re_leading_numeric line = Some (take_while in_numeric_class (lstrip line)).
Proof.
  intros (c0 & rest & Hs & Hd).
  destruct (strip_head _ _ _ Hs) as (rest' & Hl & _).
  unfold re_leading_numeric. fold (lstrip line). rewrite Hl. simpl.
  assert (Hc : in_numeric_class c0 = true).
  { unfold in_numeric_class. by rewrite Hd. }
  by rewrite Hc.
Qed.

Lemma rewritten_row_decimal (C L : Z) (line : str) :
  opens_with_decimal line ->
  rewritten_row C L line
  = times " " (C - 1 - len (label_of line)) ++ label_of line
      ++ lit " +" ++ times "-" L ++ lit "+".
Proof.
  intros H. unfold rewritten_row. rewrite (re_leading_numeric_decimal _ H).
  apply border_line_shape.
Qed.

(** On a grid whose first and last numeric tick rows are two rows, with
    the representative row (the first box row, after pass 2) having its
    first [|] at column [C] and its last at column [C + L + 1]: the border
    pass turns each of the two tick rows that opens with one of 0-9 into
    padding, label, a blank, a corner, [L] dashes and a corner.  The
    opening corner is at column [max C (len label + 1)]: at [C] when the
    label fits, next to the label otherwise. *)
Lemma distinct_tick_rows_aligned (cfg : Config) (lines lines1 : list str)
    (graph_start graph_end C L first_y_line last_y_line : Z) (row : str) :
  detect_box lines = (graph_start, graph_end) ->
  graph_start <> -1 ->
  substitution_pass cfg lines = Ok lines1 ->
  lines1 !! Z.to_nat graph_start = Some row ->
  find "|" row = C ->
  rfind "|" row = C + L + 1 ->
  tick_rows lines1 = Ok (first_y_line, last_y_line) ->
  first_y_line <> last_y_line ->
  exists lines2,
    border_pass graph_start graph_end lines1 = Ok lines2
    /\ forall r line,
         r = first_y_line \/ r = last_y_line ->
         lines1 !! Z.to_nat r = Some line ->
         opens_with_decimal line ->
         lines2 !! Z.to_nat r
         = Some (times " " (C - 1 - len (label_of line)) ++ label_of line
                   ++ lit " +" ++ times "-" L ++ lit "+")
         /\ len (times " " (C - 1 - len (label_of line)) ++ label_of line ++ lit " ")
            = Z.max C (len (label_of line) + 1).
Proof.
  intros Hbox Hgs Hpass Hrow HC HL Hticks Hne.
  rewrite substitution_pass_spec in Hpass. injection Hpass as <-.
  rewrite tick_rows_spec in Hticks. injection Hticks as Hticks.
  set (lines1 := map (substituted_row cfg) lines) in *.
  exists (border_spec graph_start lines1). split.
  { apply border_pass_spec. by apply box_rows_after_substitution. }
  pose proof (first_last_spec is_tick_row lines1) as Hfl. rewrite Hticks in Hfl.
  destruct Hfl as [(-> & -> & _) | (Hfy & Hly & _)]; [done|].
  intros r line Hr Hline Hdec. split; [|apply border_line_corner].
  unfold border_spec.
  replace (graph_start =? -1) with false by (symmetry; by apply Z.eqb_neq).
  rewrite Hrow, Hticks, HC, HL.
  replace (first_y_line =? -1) with false by (symmetry; apply Z.eqb_neq; lia).
  replace (C + L + 1 - C - 1) with L by lia.
  rewrite <- (rewritten_row_decimal C L line Hdec).
  destruct Hr as [-> | ->].
  - rewrite list_lookup_alter_ne by lia.
    by rewrite list_lookup_alter_eq, Hline.
  - rewrite list_lookup_alter_eq, list_lookup_alter_ne by lia.
    by rewrite Hline.
Qed.

(** The chart of the example of [decorated_grid]: two tick rows around a
    box row. *)
Example two_tick_rows_aligned :
  border_pass 1 1
    (map (substituted_row default_config)
       [lit "   5e+07 +--+"; box_row 10 45; lit "      0 +----+"; lit " 0  1  2  3"])
  = Ok [ lit "    5e 07 +" ++ times "-" 45 ++ lit "+"; box_row 10 45;
         lit "        0 +" ++ times "-" 45 ++ lit "+"; lit " 0  1  2  3" ].
Proof. reflexivity. Qed.

(** ** Border reconstruction on a grid with one tick row (C1) *)

(** C1.  The code at a grid whose only numeric tick row is its row 0,
    above a box row with its first [|] at column 10 and its last at column
    10 + 45 + 1: row 0 is both the first and the last tick row, and the
    border pass rewrites it twice.  The second rewrite takes the border
    drawn by the first for a part of the label, so the row ends with a rule
    of 45 dashes between two corners, but that border opens at column 50,
    not at column 10, although the label [5] leaves 8 columns of padding. *)
Theorem single_tick_row_rewritten_twice :
  let lines := [lit "5"; box_row 10 45] in
  detect_box lines = (1, 1)
  /\ substitution_pass default_config lines = Ok lines
  /\ find "|" (box_row 10 45) = 10
  /\ rfind "|" (box_row 10 45) = 10 + 45 + 1
  /\ tick_rows lines = Ok (0, 0)
  /\ rewrite_tick_row 10 45 0 lines
     = Ok [ times " " 8 ++ lit "5 +" ++ times "-" 45 ++ lit "+"; box_row 10 45 ]
  /\ border_pass 1 1 lines
     = Ok [ (lit "5 +" ++ times "-" 45 ++ lit "+ ") ++ lit "+" ++ times "-" 45 ++ lit "+";
            box_row 10 45 ]
  /\ len (lit "5 +" ++ times "-" 45 ++ lit "+ ") = 50
  /\ _post_process_ascii_output default_config (lit "5" ++ [NL] ++ box_row 10 45) [] []
     = Ok (lit "5 +" ++ times "-" 45 ++ lit "+ +" ++ times "-" 45 ++ lit "+" ++ [NL]
           ++ lit "  " ++ box_row 10 45).
Proof. repeat split. Qed.

(** ** The label overlay on a grid without a box (C6) *)

(** Without box rows pass 3 is skipped as a whole. *)
Lemma border_pass_without_box (lines : list str) :
  border_pass (-1) (-1) lines = Ok lines.
Proof. reflexivity. Qed.

(** Without numeric tick rows pass 3 rewrites nothing. *)
Lemma border_spec_without_tick_rows (graph_start : Z) (lines : list str) :
  first_last is_tick_row lines = (-1, -1) -> border_spec graph_start lines = lines.
Proof.
  intros H. unfold border_spec. rewrite H.
  destruct (graph_start =? -1); [done|]. by destruct (lines !! Z.to_nat graph_start).
Qed.

(** On a grid without box rows the post-processor returns the rows of
    pass 2, untouched by pass 3, with whatever pass 4 does for the box
    [(-1, -1)]; with the vertical label off that is nothing. *)
Lemma decorated_grid_without_box (cfg : Config) (lines : list str) (y_label : str) :
  detect_box lines = (-1, -1) ->
  decorated_grid cfg lines y_label
  = Ok (overlay_spec cfg (-1) (-1) y_label (map (substituted_row cfg) lines))
  /\ (overlay_enabled cfg = false ->
      decorated_grid cfg lines y_label = Ok (map (substituted_row cfg) lines)).
Proof.
  intros Hbox. rewrite decorated_grid_spec. unfold decorated_spec. rewrite Hbox.
  rewrite border_spec_no_box. split; [done|].
  intros Hoff. by rewrite overlay_spec_disabled.
Qed.

(** Without a box, the label character number [len // 2 + 1 + k] still
    lands on row [k]. *)
Lemma label_char_without_box (y_chars : str) (k : nat) :
  label_char (middle_start_of (-1) (-1) y_chars) y_chars k
  = y_chars !! Z.to_nat (Z.of_nat k + 1 + len y_chars / 2).
Proof.
  unfold label_char, middle_start_of.
  pose proof (len_nonneg y_chars).
  assert (0 <= len y_chars / 2) by (apply Z.div_pos; lia).
  replace (-1 + (-1 - -1) / 2 - len y_chars / 2 <=? Z.of_nat k) with true
    by (symmetry; apply Z.leb_le; change ((-1 - -1) / 2) with 0; lia).
  f_equal. change ((-1 - -1) / 2) with 0. lia.
Qed.

(** C6.  The code at grids in which pass 1 finds no box row: the label
    overlay, which centres the label on the box, is not skipped.  It runs
    with [graph_start = graph_end = -1], places the label around row -1 and
    writes the characters of its second half in front of the top rows. *)
Theorem label_overlaid_without_box :
  (detect_box (split_nl (lit "x")) = (-1, -1)
   /\ middle_start_of (-1) (-1) (y_chars_of (lit "abc")) = -2
   /\ _post_process_ascii_output default_config (lit "x") (lit "abc") []
      = Ok (lit "c x"))
  /\ (let raw_output := lit "no data" ++ [NL] ++ lit "to plot" in
      detect_box (split_nl raw_output) = (-1, -1)
      /\ middle_start_of (-1) (-1) (y_chars_of (lit "Jitter (ms)")) = -6
      /\ _post_process_ascii_output default_config raw_output (lit "Jitter (ms)") []
         = Ok (lit "_ no data" ++ [NL] ++ lit "( to plot")).
Proof. repeat split. Qed.

(** ** The orchestrator (C7, C8) *)

Lemma app_assoc_stem (a b c d : str) : (a ++ b ++ c) ++ d = a ++ b ++ c ++ d.
Proof. by rewrite <- !app_assoc. Qed.

Lemma render_dataset_spec (env : Env) (self : IperfDataProcessor) (verbose : bool)
    (n : Z) (d : Dataset) :
  render_dataset env self verbose n d
  = (render_events env self verbose d, render_outcome env self n d).
Proof.
  unfold render_dataset, render_events, render_outcome, formattable, data_file_of,
    rendered, engine_on, script_of, artifact_path.
  destruct (no_data d); [by destruct verbose|].
  unfold _execute_gnuplot, run_gnuplot, _write_data_file.
  rewrite !app_assoc_stem.
  destruct (write_rows env _ _ _) as [content [e|]]; cbn [fst snd].
  { by destruct verbose. }
  destruct (gnuplot env _ _) as [| |stdout] eqn:E.
  - by destruct verbose.
  - by destruct verbose.
  - destruct verbose;
      cbv [io_bind emit when print raise lift try_except io_ret];
      rewrite post_process_spec; reflexivity.
Qed.

Lemma render_outcome_formattable (env : Env) (self : IperfDataProcessor) (n : Z)
    (d : Dataset) :
  no_data d = true \/ formattable env self d = true ->
  render_outcome env self n d
  = Done (if no_data d then n else if rendered env self d then n + 1 else n).
Proof.
  unfold render_outcome, formattable. destruct (no_data d); [done|].
  intros [H|H]; [done|]. by destruct ((data_file_of env self d).2).
Qed.

Lemma render_loop_spec (env : Env) (self : IperfDataProcessor) (verbose : bool)
    (ds : list Dataset) (n : Z) :
  Forall (fun d => no_data d = true \/ formattable env self d = true) ds ->
  io_for_each (render_dataset env self verbose) n ds
  = (concat (map (render_events env self verbose) ds),
     Done (n + successes env self ds)).
Proof.
  intros Hall. revert n. induction Hall as [|d ds Hd _ IH]; intros n.
  - simpl. unfold io_ret, successes. simpl. f_equal. f_equal. unfold len. simpl. lia.
  - cbn [io_for_each]. rewrite render_dataset_spec, render_outcome_formattable by done.
    cbn [io_bind]. rewrite IH. cbn [map concat]. f_equal. f_equal.
    unfold successes. cbn [List.filter].
    destruct (no_data d); cbn [negb andb]; [lia|].
    destruct (rendered env self d); [|lia].
    rewrite len_cons. lia.
Qed.

(** The loop stops at the first dataset with data that has a value the
    formatter raises on. *)
Lemma render_loop_abort (env : Env) (self : IperfDataProcessor) (verbose : bool)
    (ds : list Dataset) (n : Z) :
  Exists (fun d => no_data d = false /\ formattable env self d = false) ds ->
  exists t e,
    io_for_each (render_dataset env self verbose) n ds = (t, Abort (Exception e)).
Proof.
  intros Hex. revert n. induction ds as [|d ds IH]; intros n.
  - by apply Exists_nil in Hex.
  - cbn [io_for_each]. rewrite render_dataset_spec. unfold render_outcome, formattable in *.
    apply Exists_cons in Hex as [[Hnd Hf]|Hex].
    + rewrite Hnd. destruct ((data_file_of env self d).2) as [e|]; [|done].
      cbn [io_bind]. by eexists _, _.
    + destruct (no_data d).
      * cbn [io_bind]. destruct (IH Hex n) as (t & e & ->). by eexists _, _.
      * destruct ((data_file_of env self d).2) as [e|].
        -- cbn [io_bind]. by eexists _, _.
        -- cbn [io_bind].
           destruct (IH Hex (if rendered env self d then n + 1 else n)) as (t & e & ->).
           by eexists _, _.
Qed.

Lemma attempted_formattable (env : Env) (self : IperfDataProcessor) :
  all_formattable env self ->
  Forall (fun d => no_data d = true \/ formattable env self d = true) (datasets_of self).
Proof.
  unfold all_formattable, attempted. rewrite !Forall_forall. intros H d Hd.
  destruct (no_data d) eqn:E; [by left|]. right. apply H.
  apply list_elem_of_In, List.filter_In. rewrite E. split; [by apply list_elem_of_In|done].
Qed.

Lemma generate_ascii_graphs_spec (env : Env) (self : IperfDataProcessor) :
  well_formed (data self) ->
  all_formattable env self ->
  generate_ascii_graphs env self = (generate_events env self, Done tt).
Proof.
  intros Hwf Hfmt. apply attempted_formattable in Hfmt.
  unfold generate_ascii_graphs, generate_events, datasets_of in *.
  rewrite (extract_performance_metrics_spec _ Hwf).
  cbn [lift]. unfold io_ret at 1.
  set (ds := enabled_datasets _ _) in *.
  destruct (verbose_output (config self)).
  - cbn [when print emit io_bind]. rewrite render_loop_spec by done. cbn [io_bind app].
    by rewrite Z.add_0_l.
  - cbn [when io_ret io_bind]. rewrite render_loop_spec by done. reflexivity.
Qed.

Lemma main_spec (env : Env) (cfg : Config) (argv : list str) (data : MeasurementRecord) :
  read_json env (input_path cfg argv) = FileParsed data ->
  is_Some (intervals data) ->
  well_formed data ->
  all_formattable env (processor_of env cfg argv data) ->
  main env cfg argv
  = (banner cfg argv
       ++ Mkdir (output_dir (processor_of env cfg argv data))
       :: generate_events env (processor_of env cfg argv data),
     Done tt).
Proof.
  intros Hread [ivs Hivs] Hwf Hfmt.
  unfold main. fold (input_path cfg argv).
  unfold __init__, _load_json_data. rewrite Hread, Hivs.
  replace (if bool_decide (default_output_dir cfg = []) then default_output_dir cfg
           else default_output_dir cfg)
    with (default_output_dir cfg) by (by destruct (bool_decide _)).
  cbn [try_except io_ret emit io_bind app].
  change {| config := cfg; json_file_path := input_path cfg argv;
            output_dir := _; json_name := _; data := data |}
    with (processor_of env cfg argv data).
  rewrite (generate_ascii_graphs_spec env (processor_of env cfg argv data)) by done.
  unfold banner. destruct (verbose_output cfg); reflexivity.
Qed.

Lemma main_missing_intervals (env : Env) (cfg : Config) (argv : list str)
    (data : MeasurementRecord) :
  read_json env (input_path cfg argv) = FileParsed data ->
  intervals data = None ->
  main env cfg argv
  = (banner cfg argv
       ++ [ Mkdir (output_dir (processor_of env cfg argv data));
            Print (MsgError ValueError) ],
     Abort (SystemExit 1)).
Proof.
  intros Hread Hivs.
  unfold main. fold (input_path cfg argv).
  unfold __init__, _load_json_data. rewrite Hread, Hivs.
  replace (if bool_decide (default_output_dir cfg = []) then default_output_dir cfg
           else default_output_dir cfg)
    with (default_output_dir cfg) by (by destruct (bool_decide _)).
  unfold banner. destruct (verbose_output cfg); reflexivity.
Qed.

(** *** What a trace shows *)

Lemma banner_shows_nothing (cfg : Config) (argv : list str) :
  written_files (banner cfg argv) = []
  /\ engine_runs (banner cfg argv) = []
  /\ no_data_warnings (banner cfg argv) = []
  /\ failure_reports (banner cfg argv) = [].
Proof. unfold banner. by destruct (verbose_output cfg). Qed.

Lemma render_events_runs (env : Env) (self : IperfDataProcessor) (verbose : bool)
    (d : Dataset) :
  engine_runs (render_events env self verbose d)
  = if no_data d then []
    else if formattable env self d then [artifact_path env self d (lit ".plt")] else [].
Proof.
  unfold render_events. destruct (no_data d); [by destruct verbose|].
  destruct (formattable env self d); [|by destruct verbose].
  destruct (engine_on env self d); by destruct verbose.
Qed.

Lemma render_events_reports (env : Env) (self : IperfDataProcessor) (verbose : bool)
    (d : Dataset) :
  failure_reports (render_events env self verbose d)
  = if no_data d then []
    else if formattable env self d
         then match failure_report_of env self d with Some m => [m] | None => [] end
         else [].
Proof.
  unfold render_events, failure_report_of. destruct (no_data d); [by destruct verbose|].
  destruct (formattable env self d); [|by destruct verbose].
  destruct (engine_on env self d); by destruct verbose.
Qed.

Lemma render_events_no_data (env : Env) (self : IperfDataProcessor) (verbose : bool)
    (d : Dataset) :
  no_data d = true ->
  render_events env self verbose d
  = if verbose then [Print (MsgNoDataAvailable (metric_name d))] else [].
Proof. unfold render_events. by intros ->. Qed.

Lemma omap_concat_map {A B C : Type} (f : B -> option C) (g : A -> list B) (h : A -> list C)
    (l : list A) :
  (forall x, omap f (g x) = h x) ->
  omap f (concat (map g l)) = concat (map h l).
Proof.
  intros H. induction l as [|x l IH]; simpl; [done|].
  by rewrite omap_app, H, IH.
Qed.

Lemma concat_map_attempted {B : Type} (p : Dataset -> bool) (f : Dataset -> list B)
    (ds : list Dataset) :
  concat (map (fun d => if p d then [] else f d) ds)
  = concat (map f (List.filter (fun d => negb (p d)) ds)).
Proof.
  induction ds as [|d ds IH]; simpl; [done|].
  destruct (p d); simpl; by rewrite IH.
Qed.

Lemma concat_map_formattable {B : Type} (env : Env) (self : IperfDataProcessor)
    (f : Dataset -> list B) (ds : list Dataset) :
  Forall (fun d => no_data d = true \/ formattable env self d = true) ds ->
  concat (map (fun d => if no_data d then []
                        else if formattable env self d then f d else []) ds)
  = concat (map f (List.filter (fun d => negb (no_data d)) ds)).
Proof.
  induction 1 as [|d ds Hd _ IH]; simpl; [done|]. rewrite IH.
  destruct (no_data d); simpl; [done|]. by destruct Hd as [?| ->].
Qed.

(** A formatter that always returns leaves every dataset formattable. *)
Lemma write_rows_total (env : Env) (precision : Z) (points : list (number * number))
    (written : str) :
  (forall p v, exists text, format_fixed env p v = Ok text) ->
  (write_rows env precision points written).2 = None.
Proof.
  intros Htotal. revert written.
  induction points as [|[x y] points IH]; intros written; simpl; [done|].
  destruct (Htotal precision x) as [x_text ->].
  destruct (Htotal precision y) as [y_text ->]. apply IH.
Qed.

Lemma total_formatter_formattable (env : Env) (self : IperfDataProcessor) :
  (forall p v, exists text, format_fixed env p v = Ok text) -> all_formattable env self.
Proof.
  intros Htotal. apply Forall_forall. intros d _.
  unfold formattable, data_file_of. by rewrite write_rows_total.
Qed.

Lemma no_data_formattable (env : Env) (self : IperfDataProcessor) :
  Forall (fun d => no_data d = true) (datasets_of self) -> all_formattable env self.
Proof.
  unfold all_formattable, attempted. rewrite !Forall_forall. intros H d Hd.
  apply list_elem_of_In, List.filter_In in Hd as [Hd Hdata].
  apply list_elem_of_In, H in Hd. by rewrite Hd in Hdata.
Qed.

Lemma concat_map_singleton {A B : Type} (f : A -> B) (l : list A) :
  concat (map (fun x => [f x]) l) = map f l.
Proof. induction l as [|x l IH]; simpl; [done|]. by rewrite IH. Qed.

Lemma concat_map_option {A B : Type} (f : A -> option B) (l : list A) :
  concat (map (fun x => match f x with Some m => [m] | None => [] end) l) = omap f l.
Proof.
  induction l as [|x l IH]; simpl; [done|]. rewrite IH. by destruct (f x).
Qed.

Lemma generate_events_runs (env : Env) (self : IperfDataProcessor) :
  all_formattable env self ->
  engine_runs (generate_events env self)
  = map (fun d => artifact_path env self d (lit ".plt")) (attempted self).
Proof.
  intros Hfmt. apply attempted_formattable in Hfmt.
  unfold generate_events, engine_runs. rewrite !omap_app.
  rewrite (omap_concat_map _ _ _ _ (render_events_runs env self _)).
  rewrite concat_map_formattable by done. rewrite concat_map_singleton.
  destruct (verbose_output (config self)); simpl; by rewrite ?app_nil_r.
Qed.

Lemma generate_events_reports (env : Env) (self : IperfDataProcessor) :
  all_formattable env self ->
  failure_reports (generate_events env self)
  = omap (failure_report_of env self) (attempted self).
Proof.
  intros Hfmt. apply attempted_formattable in Hfmt.
  unfold generate_events, failure_reports. rewrite !omap_app.
  rewrite (omap_concat_map _ _ _ _ (render_events_reports env self _)).
  rewrite concat_map_formattable by done. rewrite concat_map_option.
  destruct (verbose_output (config self)); simpl; by rewrite ?app_nil_r.
Qed.

(** C8, as amended.  When the input record loads and every value of the
    enabled metrics can be formatted, every enabled metric that has data
    gets its run of the engine, whatever the outcome of the runs before
    it; every run that fails, because the engine is not found or because
    it exits non-zero, is reported by a printed error; and the process
    exits with status 0. *)
Theorem rendering_failure_does_not_abort (env : Env) (cfg : Config) (argv : list str)
    (data : MeasurementRecord) :
  read_json env (input_path cfg argv) = FileParsed data ->
  is_Some (intervals data) ->
  well_formed data ->
  all_formattable env (processor_of env cfg argv data) ->
  exit_status (main env cfg argv) = 0
  /\ engine_runs (trace (main env cfg argv))
     = map (fun d => artifact_path env (processor_of env cfg argv data) d (lit ".plt"))
           (attempted (processor_of env cfg argv data))
  /\ failure_reports (trace (main env cfg argv))
     = omap (failure_report_of env (processor_of env cfg argv data))
            (attempted (processor_of env cfg argv data)).
Proof.
  intros Hread Hivs Hwf Hfmt. rewrite (main_spec env cfg argv data Hread Hivs Hwf Hfmt).
  destruct (banner_shows_nothing cfg argv) as (_ & Hruns & _ & Hreports).
  unfold trace, exit_status. cbn [fst snd].
  repeat split.
  - unfold engine_runs in *. rewrite omap_app, Hruns. cbn [omap app].
    by apply generate_events_runs.
  - unfold failure_reports in *. rewrite omap_app, Hreports. cbn [omap app].
    by apply generate_events_reports.
Qed.

Lemma env_with_formattable (data : MeasurementRecord) (engine : str -> engine_outcome)
    (self : IperfDataProcessor) :
  all_formattable (env_with data engine) self.
Proof. apply total_formatter_formattable. intros p v. by eexists. Qed.

Lemma rendering_failure_does_not_abort_witness :
  let env := env_with sample_record flaky_engine in
  read_json env (input_path default_config []) = FileParsed sample_record
  /\ is_Some (intervals sample_record)
  /\ well_formed sample_record
  /\ all_formattable env (processor_of env default_config [] sample_record)
  /\ exit_status (main env default_config []) = 0
  /\ engine_runs (trace (main env default_config []))
     = map (fun d => artifact_path env (processor_of env default_config [] sample_record)
                       d (lit ".plt"))
           (attempted (processor_of env default_config [] sample_record))
  /\ failure_reports (trace (main env default_config []))
     = omap (failure_report_of env (processor_of env default_config [] sample_record))
            (attempted (processor_of env default_config [] sample_record)).
Proof.
  intros env.
  assert (H1 : read_json env (input_path default_config []) = FileParsed sample_record)
    by reflexivity.
  assert (H2 : is_Some (intervals sample_record)) by (eexists; reflexivity).
  split; [exact H1|]. split; [exact H2|]. split; [apply sample_record_well_formed|].
  split; [apply env_with_formattable|].
  apply (rendering_failure_does_not_abort env default_config [] sample_record H1 H2
           sample_record_well_formed (env_with_formattable _ _ _)).
Defined.

Lemma overflow_record_well_formed : well_formed overflow_record.
Proof.
  unfold well_formed. simpl. repeat constructor; simpl; eauto; done.
Qed.

(** C8 as stated fails.  The record holds the integer [10 ** 400] as the
    byte count of its receiver sample, and the engine exits non-zero.  The
    sender chart fails and is reported; writing the data file of the
    receiver chart then raises [OverflowError], which [main] reports as a
    fatal error: the two metrics left are never processed and the process
    exits with status 1. *)
Lemma fatal_error_after_rendering_failure :
  let env := env_formatting overflow_record failing_engine strict_format in
  read_json env (input_path default_config []) = FileParsed overflow_record
  /\ well_formed overflow_record
  /\ enabled_metric_names default_config
     = [lit "senderBytes"; lit "receiverBytes"; lit "packetLoss"; lit "jitter"]
  /\ engine_runs (trace (main env default_config []))
     = [lit "graphs_ascii/senderBytes_data.plt"]
  /\ failure_reports (trace (main env default_config []))
     = [MsgErrorExecutingGnuplot (lit "graphs_ascii/senderBytes_data.plt")]
  /\ written_files (trace (main env default_config []))
     = [ lit "graphs_ascii/senderBytes_data.dat"; lit "graphs_ascii/senderBytes_data.plt";
         lit "graphs_ascii/receiverBytes_data.dat" ]
  /\ last (trace (main env default_config [])) = Some (Print (MsgFatalError OverflowError))
  /\ exit_status (main env default_config []) = 1.
Proof.
  intros env. split; [reflexivity|]. split; [apply overflow_record_well_formed|].
  vm_compute. repeat split.
Qed.

(** On that run all four charts are attempted, and the two failures are
    reported. *)
Example flaky_run :
  let env := env_with sample_record flaky_engine in
  engine_runs (trace (main env default_config []))
  = [ lit "graphs_ascii/senderBytes_data.plt"; lit "graphs_ascii/receiverBytes_data.plt";
      lit "graphs_ascii/packetLoss_data.plt"; lit "graphs_ascii/jitter_data.plt" ]
  /\ failure_reports (trace (main env default_config []))
     = [ MsgErrorExecutingGnuplot (lit "graphs_ascii/senderBytes_data.plt");
         MsgGnuplotNotFound ]
  /\ written_files (trace (main env default_config []))
     = [ lit "graphs_ascii/senderBytes_data.dat"; lit "graphs_ascii/senderBytes_data.plt";
         lit "graphs_ascii/receiverBytes_data.dat"; lit "graphs_ascii/receiverBytes_data.plt";
         lit "graphs_ascii/receiverBytes_data.txt";
         lit "graphs_ascii/packetLoss_data.dat"; lit "graphs_ascii/packetLoss_data.plt";
         lit "graphs_ascii/jitter_data.dat"; lit "graphs_ascii/jitter_data.plt";
         lit "graphs_ascii/jitter_data.txt" ]
  /\ exit_status (main env default_config []) = 0.
Proof. vm_compute. repeat split. Qed.

Lemma omap_cons {A B : Type} (f : A -> option B) (x : A) (l : list A) :
  omap f (x :: l) = match f x with Some y => y :: omap f l | None => omap f l end.
Proof. reflexivity. Qed.

(** With no interval there is no stream sample. *)
Lemma empty_intervals_no_streams (data : MeasurementRecord) :
  intervals data = Some [] -> all_streams data = [].
Proof. unfold all_streams. by intros ->. Qed.

Lemma enabled_datasets_no_data (cfg : Config) :
  Forall (fun d => no_data d = true) (enabled_datasets cfg ([], [], [], [], [], [])).
Proof.
  unfold enabled_datasets, all_datasets. cbn [List.filter snd].
  destruct (track_sender_bytes cfg), (track_receiver_bytes cfg),
    (track_packet_loss cfg), (track_jitter cfg);
    cbn [map fst]; repeat constructor.
Qed.

Lemma no_data_events (env : Env) (self : IperfDataProcessor) (verbose : bool)
    (ds : list Dataset) :
  Forall (fun d => no_data d = true) ds ->
  concat (map (render_events env self verbose) ds)
  = if verbose then map (fun d => Print (MsgNoDataAvailable (metric_name d))) ds else [].
Proof.
  induction 1 as [|d ds Hd _ IH]; simpl.
  - by destruct verbose.
  - rewrite (render_events_no_data _ _ _ _ Hd), IH. by destruct verbose.
Qed.

Lemma warnings_of_prints (ds : list Dataset) :
  no_data_warnings (map (fun d => Print (MsgNoDataAvailable (metric_name d))) ds)
  = map metric_name ds.
Proof. induction ds as [|d ds IH]; simpl; [done|]. by rewrite <- IH. Qed.

Lemma writes_of_prints (ds : list Dataset) :
  written_files (map (fun d => Print (MsgNoDataAvailable (metric_name d))) ds) = []
  /\ engine_runs (map (fun d => Print (MsgNoDataAvailable (metric_name d))) ds) = [].
Proof. induction ds as [|d ds [IH1 IH2]]; simpl; [done|]. by split. Qed.

(** C7, as amended.  A record without the [intervals] key makes the
    process print an error and exit with status 1, with no file written.
    A record whose [intervals] array is empty gives six empty series; no
    data file, script or chart is written and the engine is not run; the
    process exits with status 0; and the no-data warning is printed once
    per enabled metric when verbose output is on, and not at all when it
    is off. *)
Theorem missing_or_empty_intervals (env : Env) (cfg : Config) (argv : list str)
    (record : MeasurementRecord) :
  read_json env (input_path cfg argv) = FileParsed record ->
  (intervals record = None ->
     exit_status (main env cfg argv) = 1
     /\ last (trace (main env cfg argv)) = Some (Print (MsgError ValueError))
     /\ written_files (trace (main env cfg argv)) = [])
  /\ (intervals record = Some [] ->
        extract_performance_metrics record = Ok ([], [], [], [], [], [])
        /\ exit_status (main env cfg argv) = 0
        /\ written_files (trace (main env cfg argv)) = []
        /\ engine_runs (trace (main env cfg argv)) = []
        /\ no_data_warnings (trace (main env cfg argv))
           = if verbose_output cfg then enabled_metric_names cfg else []).
Proof.
  intros Hread.
  destruct (banner_shows_nothing cfg argv) as (Hw & Hr & Hn & _).
  split.
  - intros Hnone. rewrite (main_missing_intervals env cfg argv record Hread Hnone).
    unfold trace, exit_status. cbn [fst snd]. repeat split.
    + by rewrite last_app.
    + unfold written_files in *. by rewrite omap_app, Hw.
  - intros Hempty.
    pose proof (empty_intervals_no_streams _ Hempty) as Hstreams.
    assert (Hwf : well_formed record) by (unfold well_formed; rewrite Hstreams; constructor).
    assert (Hsome : is_Some (intervals record)) by (rewrite Hempty; eauto).
    split.
    { rewrite (extract_performance_metrics_spec _ Hwf), Hstreams. reflexivity. }
    assert (Hfmt : all_formattable env (processor_of env cfg argv record)).
    { apply no_data_formattable. unfold datasets_of. cbn [config processor_of data].
      rewrite Hstreams. apply enabled_datasets_no_data. }
    rewrite (main_spec env cfg argv record Hread Hsome Hwf Hfmt).
    unfold trace, exit_status. cbn [fst snd]. split; [done|].
    unfold generate_events, datasets_of. cbn [config processor_of data].
    rewrite Hstreams. cbn [add_samples sender_samples receiver_samples List.filter map app].
    rewrite (no_data_events _ _ _ _ (enabled_datasets_no_data cfg)).
    unfold written_files, engine_runs, no_data_warnings in *.
    rewrite !omap_app, Hw, Hr, Hn.
    destruct (writes_of_prints (enabled_datasets cfg ([], [], [], [], [], [])))
      as [Hw' Hr'].
    pose proof (warnings_of_prints (enabled_datasets cfg ([], [], [], [], [], [])))
      as Hn'.
    unfold written_files, engine_runs, no_data_warnings in *.
    destruct (verbose_output cfg); cbn [app].
    + rewrite !omap_cons, !omap_app, Hw', Hr', Hn'. cbv beta iota.
      rewrite !omap_cons. cbv beta iota.
      change (omap ?f []) with (@nil str).
      repeat split; rewrite ?app_nil_r; reflexivity.
    + done.
Qed.

Lemma missing_or_empty_intervals_witness :
  let no_key := {| intervals := None |} in
  let empty := {| intervals := Some [] |} in
  let engine := fun _ : str => EngineNotFound in
  (read_json (env_with no_key engine) (input_path default_config []) = FileParsed no_key
   /\ exit_status (main (env_with no_key engine) default_config []) = 1
   /\ last (trace (main (env_with no_key engine) default_config []))
      = Some (Print (MsgError ValueError))
   /\ written_files (trace (main (env_with no_key engine) default_config [])) = [])
  /\ (read_json (env_with empty engine) (input_path default_config []) = FileParsed empty
      /\ extract_performance_metrics empty = Ok ([], [], [], [], [], [])
      /\ exit_status (main (env_with empty engine) default_config []) = 0
      /\ written_files (trace (main (env_with empty engine) default_config [])) = []
      /\ engine_runs (trace (main (env_with empty engine) default_config [])) = []
      /\ no_data_warnings (trace (main (env_with empty engine) default_config []))
         = enabled_metric_names default_config).
Proof.
  intros no_key empty engine. split.
  - split; [reflexivity|].
    apply (proj1 (missing_or_empty_intervals (env_with no_key engine) default_config []
                    no_key eq_refl)).
    reflexivity.
  - split; [reflexivity|].
    apply (proj2 (missing_or_empty_intervals (env_with empty engine) default_config []
                    empty eq_refl)).
    reflexivity.
Defined.

(** C7 as stated fails: with verbose output off, a record with an empty
    [intervals] array makes the run create the output directory and
    nothing else; no warning is printed for any of the four enabled
    metrics. *)
Lemma no_warning_when_quiet :
  let empty := {| intervals := Some [] |} in
  let cfg := with_verbose default_config false in
  let env := env_with empty (fun _ => EngineNotFound) in
  read_json env (input_path cfg []) = FileParsed empty
  /\ enabled_metric_names cfg
     = [lit "senderBytes"; lit "receiverBytes"; lit "packetLoss"; lit "jitter"]
  /\ main env cfg [] = ([Mkdir (lit "graphs_ascii")], Done tt)
  /\ no_data_warnings (trace (main env cfg [])) = []
  /\ no_data_warnings (trace (main env cfg [])) <> enabled_metric_names cfg.
Proof. repeat split; discriminate. Qed.

(** * Further properties of the code *)

(** ** The detections of the post-processor *)

(** X1.  Box detection returns [(-1, -1)] exactly when no row holds a [|]
    and is longer than 50 characters; otherwise it returns the indices of
    the first and of the last such row, [0 <= graph_start <= graph_end <
    len(lines)], and every such row lies between them. *)
Theorem detect_box_first_and_last (lines : list str) :
  first_last_ok (fun line => contains (lit "|") line && (50 <? len line)) lines
    (detect_box lines).
Proof. rewrite detect_box_first_last. apply (first_last_spec is_box_row). Qed.

(** X2.  The tick-row loop never raises; it returns [(-1, -1)] when no row
    passes its test, and otherwise the indices of the first and of the last
    row that pass it, both inside the grid. *)
Theorem tick_rows_first_and_last (lines : list str) :
  exists first_y_line last_y_line,
    tick_rows lines = Ok (first_y_line, last_y_line)
    /\ first_last_ok is_tick_row lines (first_y_line, last_y_line).
Proof.
  pose proof (first_last_spec is_tick_row lines) as H.
  destruct (first_last is_tick_row lines) as [f l] eqn:E.
  exists f, l. split; [|exact H]. by rewrite tick_rows_spec, E.
Qed.

(** X3.  The three-way test on the first character of a stripped row is
    [isdigit] of that character: the alternatives [0.] and [1-9] never
    decide.  On the empty string, which the caller excludes, the test
    would raise. *)
Theorem first_character_test_is_isdigit :
  starts_like_number [] = Raise IndexError
  /\ forall c0 rest, starts_like_number (c0 :: rest) = Ok (isdigit c0).
Proof. split; [reflexivity | apply starts_like_number_spec]. Qed.

(** ** What pass 2 leaves behind *)

Lemma strip_char_not_decoration (c : ascii) :
  strip_char c <> "-"%char /\ strip_char c <> "_"%char /\ strip_char c <> "+"%char.
Proof.
  unfold strip_char.
  destruct (char_eqb c "-") eqn:E1; simpl; [repeat split; discriminate|].
  destruct (char_eqb c "_") eqn:E2; simpl; [repeat split; discriminate|].
  destruct (char_eqb c "+") eqn:E3; simpl; [repeat split; discriminate|].
  apply char_eqb_neq in E1, E2, E3. done.
Qed.

Lemma process_row_no_decoration (cfg : Config) (line : str) (c : ascii) :
  c ∈ process_row cfg line -> c <> "-"%char /\ c <> "_"%char /\ c <> "+"%char.
Proof.
  unfold process_row. rewrite strip_decorations_map. intros H.
  apply list_elem_of_fmap in H as (a & -> & _). apply strip_char_not_decoration.
Qed.

(** X4.  Pass 2 never raises and keeps the number of rows; it leaves a
    protected row as it is, and whatever the configured glyphs no other row
    holds a dash, an underscore or a plus sign afterwards. *)
Theorem no_decoration_after_substitution (cfg : Config) (lines : list str) :
  exists lines1,
    substitution_pass cfg lines = Ok lines1
    /\ length lines1 = length lines
    /\ forall k row,
         lines !! k = Some row ->
         exists row1,
           lines1 !! k = Some row1
           /\ (is_protected row = true -> row1 = row)
           /\ (is_protected row = false ->
               ("-"%char ∉ row1) /\ ("_"%char ∉ row1) /\ ("+"%char ∉ row1)).
Proof.
  exists (map (substituted_row cfg) lines).
  split; [apply substitution_pass_spec|]. split; [apply length_map|].
  intros k row Hrow. exists (substituted_row cfg row). split.
  { change (map ?f ?l) with (f <$> l). by rewrite list_lookup_fmap, Hrow. }
  unfold substituted_row. split; intros ->; [done|].
  repeat split; intros H; apply process_row_no_decoration in H;
    destruct H as (? & ? & ?); congruence.
Qed.

(** ** The geometry of passes 3 and 4 *)

Lemma lookup_times (c : ascii) (n : Z) (j : nat) :
  Z.of_nat j < n -> times c n !! j = Some c.
Proof. intros H. unfold times. apply lookup_replicate_2. lia. Qed.

(** X5.  While the value fits in front of the left border ([len(y_value)
    + 1 <= typical_pipe_start]) the drawn rule lines up with the box: its
    corners [+] stand in the column of the first [|] and, the length
    being the distance between the two [|], in the column of the last
    one; dashes fill the columns between, a blank precedes the left
    corner, and nothing follows the right corner. *)
Theorem border_line_geometry (typical_pipe_start border_length : Z) (y_value : str) :
  0 <= border_length ->
  len y_value + 1 <= typical_pipe_start ->
  let line := border_line typical_pipe_start border_length y_value in
  len line = typical_pipe_start + border_length + 2
  /\ line !! Z.to_nat (typical_pipe_start - 1) = Some " "%char
  /\ line !! Z.to_nat typical_pipe_start = Some "+"%char
  /\ line !! Z.to_nat (typical_pipe_start + border_length + 1) = Some "+"%char
  /\ forall j, typical_pipe_start < j <= typical_pipe_start + border_length ->
               line !! Z.to_nat j = Some "-"%char.
Proof.
  intros HL Hfit line. subst line. rewrite border_line_shape.
  pose proof (len_nonneg y_value) as Hy.
  set (pad := times " " (typical_pipe_start - 1 - len y_value)).
  assert (Hpad : len pad = typical_pipe_start - 1 - len y_value).
  { unfold pad. rewrite len_times. lia. }
  assert (Hhead : length (pad ++ y_value) = Z.to_nat (typical_pipe_start - 1)).
  { rewrite length_app. unfold len in *. lia. }
  rewrite (app_assoc pad y_value).
  change (lit " +") with [" "%char; "+"%char]. change (lit "+") with ["+"%char].
  repeat split.
  - rewrite !len_app, len_times, Hpad.
    change (len [" "%char; "+"%char]) with 2. change (len ["+"%char]) with 1. lia.
  - rewrite lookup_app_r by lia. rewrite Hhead, Nat.sub_diag. done.
  - rewrite lookup_app_r by lia.
    replace (Z.to_nat typical_pipe_start - length (pad ++ y_value))%nat with 1%nat
      by lia.
    done.
  - rewrite lookup_app_r by lia.
    replace (Z.to_nat (typical_pipe_start + border_length + 1)
             - length (pad ++ y_value))%nat
      with (2 + Z.to_nat border_length)%nat by lia.
    simpl. rewrite lookup_app_r by (unfold times; rewrite length_replicate; lia).
    unfold times. rewrite length_replicate, Nat.sub_diag. done.
  - intros j Hj. rewrite lookup_app_r by lia.
    replace (Z.to_nat j - length (pad ++ y_value))%nat
      with (2 + Z.to_nat (j - typical_pipe_start - 1))%nat by lia.
    simpl. rewrite lookup_app_l by (unfold times; rewrite length_replicate; lia).
    apply lookup_times. lia.
Qed.

Lemma border_line_geometry_witness :
  let line := border_line 8 5 (lit "1.5") in
  len line = 8 + 5 + 2
  /\ line !! Z.to_nat (8 - 1) = Some " "%char
  /\ line !! Z.to_nat 8 = Some "+"%char
  /\ line !! Z.to_nat (8 + 5 + 1) = Some "+"%char
  /\ forall j, 8 < j <= 8 + 5 -> line !! Z.to_nat j = Some "-"%char.
Proof. apply (border_line_geometry 8 5 (lit "1.5")); [lia | vm_compute; discriminate]. Defined.

Lemma find_le_rfind (c : ascii) (s : str) :
  c ∈ s -> 0 <= find c s <= rfind c s /\ rfind c s < len s.
Proof.
  induction s as [|a s IH]; intros H; [by apply elem_of_nil in H|].
  rewrite len_cons. simpl.
  destruct (char_eqb a c) eqn:E.
  - destruct (rfind c s =? -1) eqn:E'; [pose proof (len_nonneg s); lia|].
    apply Z.eqb_neq in E'.
    assert (Hin : c ∈ s).
    { clear -E'. induction s as [|b s IH]; simpl in *; [done|].
      destruct (rfind c s =? -1) eqn:E.
      - destruct (char_eqb b c) eqn:Eb; [|done].
        apply char_eqb_eq in Eb as ->. apply elem_of_cons. by left.
      - apply elem_of_cons. right. apply IH. by apply Z.eqb_neq in E. }
    specialize (IH Hin). lia.
  - apply elem_of_cons in H as [->|H]; [by rewrite char_eqb_refl in E|].
    specialize (IH H).
    replace (find c s =? -1) with false by (symmetry; apply Z.eqb_neq; lia).
    replace (rfind c s =? -1) with false by (symmetry; apply Z.eqb_neq; lia).
    lia.
Qed.

(** X6.  When pass 1 has found a box, the search for the representative
    row stops at row [graph_start] of the grid pass 2 returns: that row
    still holds a [|], so the columns are those of its first and of its
    last [|], neither is [-1], and the fallback length of 60 and the test
    [typical_pipe_start != -1] never decide. *)
Theorem pipes_of_detected_box (cfg : Config) (lines : list str)
    (graph_start graph_end : Z) :
  detect_box lines = (graph_start, graph_end) ->
  graph_start <> -1 ->
  exists lines1 row,
    substitution_pass cfg lines = Ok lines1
    /\ lines1 !! Z.to_nat graph_start = Some row
    /\ typical_pipes lines1 (range graph_start (graph_end + 1))
       = Ok (find "|" row, rfind "|" row)
    /\ 0 <= find "|" row <= rfind "|" row
    /\ rfind "|" row < len row.
Proof.
  intros Hbox Hne.
  destruct (box_rows_after_substitution cfg _ _ _ Hbox)
    as [[-> _] | (Hge & Hlen & row & Hrow & Hpipe)]; [done|].
  exists (map (substituted_row cfg) lines), row.
  split; [apply substitution_pass_spec|]. split; [done|]. split.
  - rewrite range_cons by lia. apply typical_pipes_first; (done || lia).
  - by apply find_le_rfind.
Qed.

Lemma pipes_of_detected_box_witness :
  exists lines1 row,
    substitution_pass default_config [box_row 2 60] = Ok lines1
    /\ lines1 !! Z.to_nat 0 = Some row
    /\ typical_pipes lines1 (range 0 (0 + 1)) = Ok (find "|" row, rfind "|" row)
    /\ 0 <= find "|" row <= rfind "|" row
    /\ rfind "|" row < len row.
Proof.
  apply (pipes_of_detected_box default_config [box_row 2 60] 0 0);
    [vm_compute; reflexivity | lia].
Defined.

(** X7.  On the grid pass 2 returns, with the box pass 1 found, pass 3
    never raises and keeps the number of rows; it changes no row but the
    first and the last tick row, and nothing at all when there is no
    box. *)
Theorem border_pass_rewrites_tick_rows_only (cfg : Config) (lines : list str) :
  exists lines1 lines2 first_y_line last_y_line,
    substitution_pass cfg lines = Ok lines1
    /\ tick_rows lines1 = Ok (first_y_line, last_y_line)
    /\ border_pass (detect_box lines).1 (detect_box lines).2 lines1 = Ok lines2
    /\ length lines2 = length lines
    /\ (forall k, Z.of_nat k <> first_y_line -> Z.of_nat k <> last_y_line ->
                  lines2 !! k = lines1 !! k)
    /\ ((detect_box lines).1 = -1 -> lines2 = lines1).
Proof.
  destruct (detect_box lines) as [gs ge] eqn:Hbox. cbn [fst snd].
  set (lines1 := map (substituted_row cfg) lines).
  destruct (first_last is_tick_row lines1) as [fy ly] eqn:Hfl.
  exists lines1, (border_spec gs lines1), fy, ly.
  split; [apply substitution_pass_spec|].
  split; [by rewrite tick_rows_spec, Hfl|].
  split; [apply border_pass_spec; by apply box_rows_after_substitution|].
  split; [unfold lines1; by rewrite length_border_spec, length_map|].
  split.
  - intros k H1 H2. apply border_spec_other_row. by rewrite Hfl.
  - by intros ->.
Qed.

(** X8.  Pass 4 never raises and keeps the number of rows.  Switched off,
    it changes nothing.  Switched on, it leaves every row in one of three
    ways.  A row on which a label character lands (row [middle_start + j]
    for character [j] of the label, blanks as underscores) gets that
    character and a blank in front.  Any other row of the box gets two
    blanks in front, so that the box stays aligned.  Any other row outside
    the box stays as it is. *)
Theorem overlay_shifts_box_rows (cfg : Config) (graph_start graph_end : Z)
    (y_label : str) (lines : list str) :
  exists lines1,
    overlay_pass cfg graph_start graph_end y_label lines = Ok lines1
    /\ length lines1 = length lines
    /\ (overlay_enabled cfg = false -> lines1 = lines)
    /\ (overlay_enabled cfg = true ->
        forall k row,
          lines !! k = Some row ->
          let y_chars := y_chars_of y_label in
          let middle_start := middle_start_of graph_start graph_end y_chars in
          (exists (j : nat) c,
              Z.of_nat k = middle_start + Z.of_nat j
              /\ y_chars !! j = Some c
              /\ lines1 !! k = Some (c :: " "%char :: row))
          \/ (~ (middle_start <= Z.of_nat k < middle_start + len y_chars)
              /\ graph_start <= Z.of_nat k <= graph_end
              /\ lines1 !! k = Some (" "%char :: " "%char :: row))
          \/ (~ (middle_start <= Z.of_nat k < middle_start + len y_chars)
              /\ ~ (graph_start <= Z.of_nat k <= graph_end)
              /\ lines1 !! k = Some row)).
Proof.
  exists (overlay_spec cfg graph_start graph_end y_label lines).
  split; [apply overlay_pass_spec|]. split; [apply length_overlay_spec|].
  split; [apply overlay_spec_disabled|].
  intros E k row Hrow y_chars ms.
  rewrite overlay_spec_enabled by done. rewrite list_lookup_imap, Hrow.
  cbn [fmap option_fmap option_map]. unfold overlay_row. fold y_chars. fold ms.
  destruct (label_char ms y_chars k) as [c|] eqn:El.
  - left. pose proof (label_char_Some _ _ _ _ El) as Hk.
    exists (Z.to_nat (Z.of_nat k - ms)), c. split; [lia|]. split; [|done].
    unfold label_char in El. by destruct (ms <=? Z.of_nat k).
  - right. pose proof (label_char_None _ _ _ El) as Hk.
    destruct ((graph_start <=? Z.of_nat k) && (Z.of_nat k <=? graph_end)) eqn:Eb.
    + left. apply andb_true_iff in Eb as [E1 E2].
      apply Z.leb_le in E1, E2. split; [done|]. split; [lia|done].
    + right. split; [done|]. split; [|done].
      apply andb_false_iff in Eb as [Eb|Eb]; apply Z.leb_gt in Eb; lia.
Qed.

Lemma middle_start_inside (graph_start graph_end : Z) (y_chars : str) :
  len y_chars <= graph_end - graph_start ->
  graph_start <= middle_start_of graph_start graph_end y_chars
  /\ middle_start_of graph_start graph_end y_chars + len y_chars - 1 <= graph_end.
Proof.
  intros Hfit. unfold middle_start_of. pose proof (len_nonneg y_chars) as Hn.
  pose proof (Z.div_mod (graph_end - graph_start) 2 ltac:(lia)) as Hh.
  pose proof (Z.mod_pos_bound (graph_end - graph_start) 2 ltac:(lia)) as Hh'.
  pose proof (Z.div_mod (len y_chars) 2 ltac:(lia)) as Hl.
  pose proof (Z.mod_pos_bound (len y_chars) 2 ltac:(lia)) as Hl'.
  lia.
Qed.

(** X9.  A label that has fewer characters than the box has rows is drawn
    whole and inside the box: every character of it opens a row of the
    box, in order from row [middle_start] on, followed by a blank and the
    row as it was, and no row outside the box changes. *)
Theorem label_drawn_inside_box (cfg : Config) (graph_start graph_end : Z)
    (y_label : str) (lines : list str) :
  overlay_enabled cfg = true ->
  0 <= graph_start ->
  graph_end < len lines ->
  len (y_chars_of y_label) <= graph_end - graph_start ->
  exists lines1,
    overlay_pass cfg graph_start graph_end y_label lines = Ok lines1
    /\ (forall k, ~ (graph_start <= Z.of_nat k <= graph_end) ->
                  lines1 !! k = lines !! k)
    /\ forall j c,
         y_chars_of y_label !! j = Some c ->
         let r := middle_start_of graph_start graph_end (y_chars_of y_label)
                  + Z.of_nat j in
         graph_start <= r <= graph_end
         /\ exists row, lines !! Z.to_nat r = Some row
                        /\ lines1 !! Z.to_nat r = Some (c :: " "%char :: row).
Proof.
  intros E Hgs Hge Hfit.
  destruct (middle_start_inside _ _ _ Hfit) as [Hlo Hhi].
  set (y_chars := y_chars_of y_label) in *.
  set (ms := middle_start_of graph_start graph_end y_chars) in *.
  exists (overlay_spec cfg graph_start graph_end y_label lines).
  split; [apply overlay_pass_spec|]. split.
  - intros k Hk. apply overlay_spec_other_row; [done|].
    fold y_chars. fold ms. lia.
  - intros j c Hc r. subst r.
    assert (Hj : Z.of_nat j < len y_chars).
    { apply lookup_lt_Some in Hc. unfold len. lia. }
    split; [lia|].
    destruct (lookup_lt_is_Some_2 lines (Z.to_nat (ms + Z.of_nat j))) as [row Hrow].
    { unfold len in Hge. lia. }
    exists row. split; [done|].
    rewrite overlay_spec_enabled by done. fold y_chars. fold ms.
    rewrite list_lookup_imap, Hrow. cbn [fmap option_fmap option_map]. f_equal.
    unfold overlay_row, label_char.
    replace (ms <=? Z.of_nat (Z.to_nat (ms + Z.of_nat j))) with true
      by (symmetry; apply Z.leb_le; lia).
    replace (Z.to_nat (Z.of_nat (Z.to_nat (ms + Z.of_nat j)) - ms)) with j by lia.
    by rewrite Hc.
Qed.

Lemma label_drawn_inside_box_witness :
  exists lines1,
    overlay_pass default_config 0 2 (lit "ab") [lit "p"; lit "q"; lit "r"] = Ok lines1
    /\ (forall k, ~ (0 <= Z.of_nat k <= 2) -> lines1 !! k = [lit "p"; lit "q"; lit "r"] !! k)
    /\ forall j c,
         y_chars_of (lit "ab") !! j = Some c ->
         let r := middle_start_of 0 2 (y_chars_of (lit "ab")) + Z.of_nat j in
         0 <= r <= 2
         /\ exists row, [lit "p"; lit "q"; lit "r"] !! Z.to_nat r = Some row
                        /\ lines1 !! Z.to_nat r = Some (c :: " "%char :: row).
Proof.
  apply (label_drawn_inside_box default_config 0 2 (lit "ab") [lit "p"; lit "q"; lit "r"]);
    [reflexivity | lia | vm_compute; reflexivity | vm_compute; discriminate].
Defined.

(** X10.  A label with exactly as many characters as the box has rows
    starts one row above the box when that number is even.  With the box at
    the top of the grid its first character is drawn nowhere: row [k] of the
    box opens with character [k + 1] of the label, and the last row of
    the box with a blank. *)
Theorem label_as_tall_as_box_loses_first_character (cfg : Config) (graph_end : Z)
    (y_label : str) (lines : list str) :
  overlay_enabled cfg = true ->
  len (y_chars_of y_label) = graph_end + 1 ->
  Z.even (graph_end + 1) = true ->
  middle_start_of 0 graph_end (y_chars_of y_label) = -1
  /\ exists lines1,
       overlay_pass cfg 0 graph_end y_label lines = Ok lines1
       /\ forall k row,
            lines !! k = Some row -> Z.of_nat k <= graph_end ->
            lines1 !! k
            = Some (default " "%char (y_chars_of y_label !! S k) :: " "%char :: row).
Proof.
  intros E Hlen Heven.
  set (y_chars := y_chars_of y_label) in *.
  assert (Hms : middle_start_of 0 graph_end y_chars = -1).
  { unfold middle_start_of. rewrite Hlen, Z.sub_0_r.
    pose proof (len_nonneg y_chars) as Hn.
    apply Z.even_spec in Heven as [m Hm].
    replace graph_end with (1 + (m - 1) * 2) at 1 by lia.
    rewrite Z.div_add by lia. rewrite Hm, (Z.mul_comm 2 m), Z.div_mul by lia.
    change (1 / 2) with 0. lia. }
  split; [done|].
  exists (overlay_spec cfg 0 graph_end y_label lines).
  split; [apply overlay_pass_spec|].
  intros k row Hrow Hk. rewrite overlay_spec_enabled by done.
  fold y_chars. rewrite Hms, list_lookup_imap, Hrow.
  cbn [fmap option_fmap option_map]. f_equal.
  unfold overlay_row, label_char.
  replace (-1 <=? Z.of_nat k) with true by (symmetry; apply Z.leb_le; lia).
  replace (Z.to_nat (Z.of_nat k - -1)) with (S k) by lia.
  destruct (y_chars !! S k); [done|].
  replace ((0 <=? Z.of_nat k) && (Z.of_nat k <=? graph_end)) with true; [done|].
  symmetry. apply andb_true_iff. split; apply Z.leb_le; lia.
Qed.

Lemma label_as_tall_as_box_loses_first_character_witness :
  middle_start_of 0 1 (y_chars_of (lit "ab")) = -1
  /\ exists lines1,
       overlay_pass default_config 0 1 (lit "ab") [lit "p"; lit "q"] = Ok lines1
       /\ forall k row,
            [lit "p"; lit "q"] !! k = Some row -> Z.of_nat k <= 1 ->
            lines1 !! k
            = Some (default " "%char (y_chars_of (lit "ab") !! S k) :: " "%char :: row).
Proof.
  apply (label_as_tall_as_box_loses_first_character default_config 1 (lit "ab")
           [lit "p"; lit "q"]); reflexivity.
Defined.

(** ** The metadata block and the text as a whole *)

Lemma drop_blank_rows_head (reversed : list str) (row : str) :
  head (drop_blank_rows reversed) = Some row -> strip row <> [].
Proof.
  induction reversed as [|l rest IH]; simpl; [done|].
  destruct (str_eqb (strip l) []) eqn:E; [done|].
  simpl. intros [= ->]. intros H. apply str_eqb_eq in H. congruence.
Qed.

Lemma last_rev_head {A : Type} (l : list A) : last (rev l) = head l.
Proof. destruct l as [|a l]; [done|]. simpl. by rewrite last_snoc. Qed.

(** X11.  With the axis descriptions switched on, the rows that hold
    nothing but white space are taken off the end of the grid, down to
    the last row that holds something else, and three rows are put
    there: an empty row, the x-axis description and the y-axis
    description.  Switched off, the grid is left as it is.  The two
    description rows hold a protected phrase each, whatever the labels:
    pass 2 would not touch them. *)
Theorem metadata_block_follows_last_inked_row (cfg : Config) (y_label x_label : str)
    (lines : list str) :
  (show_axis_info_below cfg = false -> metadata_pass cfg y_label x_label lines = lines)
  /\ (show_axis_info_below cfg = true ->
      exists kept blanks,
        lines = kept ++ blanks
        /\ Forall blank blanks
        /\ (forall row, last kept = Some row -> ~ blank row)
        /\ metadata_pass cfg y_label x_label lines
           = kept ++ [[]; lit "X Axis: " ++ x_label; lit "Y Axis: " ++ y_label])
  /\ is_protected (lit "X Axis: " ++ x_label) = true
  /\ is_protected (lit "Y Axis: " ++ y_label) = true.
Proof.
  assert (Hprot : forall phrase rest,
             phrase ∈ protected_phrases -> startswith phrase (phrase ++ rest) = true ->
             is_protected (phrase ++ rest) = true).
  { intros phrase rest Hin Hsw. unfold is_protected. apply existsb_exists.
    exists phrase. split; [by apply list_elem_of_In|].
    destruct (phrase ++ rest); simpl; by rewrite Hsw. }
  split; [|split; [|split]]; cycle 2.
  { change (lit "X Axis: " ++ x_label) with (lit "X Axis:" ++ " "%char :: x_label).
    apply Hprot; [|reflexivity]. unfold protected_phrases.
    repeat (apply elem_of_cons; first [by left | right]). }
  { change (lit "Y Axis: " ++ y_label) with (lit "Y Axis:" ++ " "%char :: y_label).
    apply Hprot; [|reflexivity]. unfold protected_phrases.
    repeat (apply elem_of_cons; first [by left | right]). }
  { unfold metadata_pass. by intros ->. }
  unfold metadata_pass. intros ->.
  destruct (drop_blank_rows_split (rev lines)) as (blanks & E & Hblank).
  exists (pop_trailing_blank lines), (rev blanks). unfold pop_trailing_blank.
  split; [|split; [|split]].
  - rewrite <- rev_app_distr, <- E. by rewrite rev_involutive.
  - apply Forall_forall. intros r Hr. apply (proj1 (elem_of_rev _ _)) in Hr.
    rewrite Forall_forall in Hblank. by apply Hblank.
  - intros row Hrow. rewrite last_rev_head in Hrow.
    by apply drop_blank_rows_head in Hrow.
  - done.
Qed.

Lemma join_split_nl (s : str) : join_nl (split_nl s) = s.
Proof.
  induction s as [|c s IH]; [done|]. simpl.
  pose proof (split_nl_nonempty s) as Hne.
  destruct (char_eqb c NL) eqn:E.
  - apply char_eqb_eq in E as ->.
    destruct (split_nl s) as [|l ls]; [done|]. simpl in *. by rewrite IH.
  - destruct (split_nl s) as [|l ls]; [done|].
    destruct ls; simpl in *; by rewrite <- IH.
Qed.

Lemma elem_of_split_nl (s row : str) (c : ascii) :
  row ∈ split_nl s -> c ∈ row -> c ∈ s.
Proof.
  revert row. induction s as [|a s IH]; intros row Hrow Hc; simpl in Hrow.
  - apply list_elem_of_singleton in Hrow as ->. done.
  - destruct (char_eqb a NL).
    + apply elem_of_cons in Hrow as [->|Hrow]; [by apply elem_of_nil in Hc|].
      apply elem_of_cons. right. by apply (IH row).
    + destruct (split_nl s) as [|l ls] eqn:E.
      * apply list_elem_of_singleton in Hrow as ->.
        apply list_elem_of_singleton in Hc as ->. apply elem_of_cons. by left.
      * apply elem_of_cons in Hrow as [->|Hrow].
        -- apply elem_of_cons in Hc as [->|Hc]; apply elem_of_cons; [by left|].
           right. apply (IH l); [apply elem_of_cons; by left|done].
        -- apply elem_of_cons. right. apply (IH row); [|done].
           apply elem_of_cons. by right.
Qed.

Lemma process_row_plain (cfg : Config) (line : str) :
  Forall plain line -> process_row cfg line = line.
Proof.
  intros H. unfold process_row. rewrite strip_decorations_map, substitute_glyphs_unfold.
  assert (Hstar : "*"%char ∉ line).
  { intros Hin. rewrite Forall_forall in H. apply H in Hin. by destruct Hin as (? & _). }
  assert (HA : "A"%char ∉ line).
  { intros Hin. rewrite Forall_forall in H. apply H in Hin.
    by destruct Hin as (_ & ? & _). }
  rewrite (replace_absent "*") by done. rewrite (replace_absent "A") by done.
  clear Hstar HA. induction line as [|a l IH]; [done|].
  inversion H as [|? ? Ha Hl]; subst.
  simpl. rewrite IH by done. f_equal. apply strip_char_other.
  all: by destruct Ha as (_ & _ & ? & ? & ? & _).
Qed.

(** X12.  Splitting at the line feeds and joining again gives the text
    back, so with the vertical label and the axis descriptions switched
    off a text that holds none of the characters [*], [A], [-], [_], [+]
    and [|] comes out of the post-processor as it went in, whatever the
    glyphs. *)
Theorem plain_text_unchanged (cfg : Config) (raw_output y_label x_label : str) :
  overlay_enabled cfg = false ->
  show_axis_info_below cfg = false ->
  Forall plain raw_output ->
  join_nl (split_nl raw_output) = raw_output
  /\ _post_process_ascii_output cfg raw_output y_label x_label = Ok raw_output.
Proof.
  intros Hov Hmeta Hplain. split; [apply join_split_nl|].
  rewrite post_process_spec. unfold metadata_pass. rewrite Hmeta.
  unfold decorated_spec.
  assert (Hrows : forall row c, row ∈ split_nl raw_output -> c ∈ row -> plain c).
  { intros row c Hrow Hc. rewrite Forall_forall in Hplain.
    apply Hplain. by apply (elem_of_split_nl _ row). }
  assert (Hbox : detect_box (split_nl raw_output) = (-1, -1)).
  { pose proof (first_last_spec is_box_row (split_nl raw_output)) as H.
    rewrite <- detect_box_first_last in H.
    destruct (detect_box (split_nl raw_output)) as [gs ge].
    destruct H as [(-> & -> & _) | (_ & _ & (a & Ha & Hpa) & _)]; [done|].
    exfalso. unfold is_box_row in Hpa. apply andb_true_iff in Hpa as [Hpa _].
    apply contains_char in Hpa. apply list_elem_of_lookup_2 in Ha.
    destruct (Hrows _ _ Ha Hpa) as (_ & _ & _ & _ & _ & ?). done. }
  rewrite Hbox, border_spec_no_box, overlay_spec_disabled by done.
  assert (Hmap : forall rows : list str,
             (forall row c, row ∈ rows -> c ∈ row -> plain c) ->
             map (substituted_row cfg) rows = rows).
  { clear. intros rows. induction rows as [|row rows IH]; intros Hrows; [done|].
    simpl. rewrite IH.
    - f_equal. unfold substituted_row. destruct (is_protected row); [done|].
      apply process_row_plain, Forall_forall. intros c Hc.
      apply (Hrows row); [apply elem_of_cons; by left|done].
    - intros r c Hr. apply Hrows. apply elem_of_cons. by right. }
  by rewrite Hmap, join_split_nl.
Qed.

Lemma plain_text_unchanged_witness :
  join_nl (split_nl (lit "ab" ++ NL :: lit "c d")) = lit "ab" ++ NL :: lit "c d"
  /\ _post_process_ascii_output (with_layout default_config false false)
       (lit "ab" ++ NL :: lit "c d") (lit "y") (lit "x")
     = Ok (lit "ab" ++ NL :: lit "c d").
Proof.
  apply (plain_text_unchanged (with_layout default_config false false)
           (lit "ab" ++ NL :: lit "c d") (lit "y") (lit "x"));
    [reflexivity | reflexivity |].
  repeat (constructor; [repeat split; discriminate|]). constructor.
Defined.

(** X13.  The four passes over the grid never raise and neither add nor
    remove a row. *)
Theorem decorated_grid_keeps_rows (cfg : Config) (lines : list str) (y_label : str) :
  exists grid,
    decorated_grid cfg lines y_label = Ok grid /\ length grid = length lines.
Proof.
  exists (decorated_spec cfg lines y_label). split; [apply decorated_grid_spec|].
  unfold decorated_spec. destruct (detect_box lines) as [gs ge].
  by rewrite length_overlay_spec, length_border_spec, length_map.
Qed.

(** ** The extractors *)

Lemma extract_stream_complete (acc m : Metrics) (s : StreamSample) :
  extract_stream acc s = Ok m -> complete_sample s.
Proof.
  unfold extract_stream, complete_sample. destruct acc as [[[[[a b] c] d] e] f].
  destruct (sender s) as [[|]|]; simpl; [| |done];
    destruct (end_ s); simpl; try done; destruct (bytes s); simpl; try done;
    intros _ _; split; by eexists.
Qed.

Lemma extract_streams_complete (ss : list StreamSample) (acc m : Metrics) :
  for_each extract_stream acc ss = Ok m -> Forall complete_sample ss.
Proof.
  revert acc. induction ss as [|s ss IH]; intros acc; simpl; [by constructor|].
  destruct (extract_stream acc s) as [acc'|e] eqn:E; [|done].
  rewrite bind_Ok. intros H. constructor.
  - by eapply extract_stream_complete.
  - by eapply IH.
Qed.

Lemma extract_returns_well_formed (data : MeasurementRecord) (m : Metrics) :
  extract_performance_metrics data = Ok m -> well_formed data.
Proof.
  unfold well_formed, all_streams, extract_performance_metrics.
  generalize (py_get_or (intervals data) []) as ivs.
  generalize (([], [], [], [], [], []) : Metrics) as acc.
  intros acc ivs. revert acc. induction ivs as [|iv ivs IH]; intros acc; simpl.
  - by constructor.
  - destruct (for_each extract_stream acc (py_get_or (streams iv) [])) as [acc'|e] eqn:E;
      [|done].
    rewrite bind_Ok. intros H. apply Forall_app. split.
    + by eapply extract_streams_complete.
    + by eapply IH.
Qed.

(** X14.  The extractor returns its six series exactly on the records in
    which every sample with a direction flag has its [end] and its
    [bytes]; on any other record it raises the [KeyError] of one of these
    two keys, and nothing else. *)
Theorem extract_returns_iff_well_formed (data : MeasurementRecord) :
  (well_formed data <-> exists m, extract_performance_metrics data = Ok m)
  /\ (~ well_formed data ->
      extract_performance_metrics data = Raise (KeyError "end")
      \/ extract_performance_metrics data = Raise (KeyError "bytes")).
Proof.
  split; [split|].
  - intros H. eexists. by apply extract_performance_metrics_spec.
  - intros [m H]. by eapply extract_returns_well_formed.
  - intros Hnot. destruct (extract_performance_metrics data) as [m|e] eqn:E.
    + exfalso. by eapply Hnot, extract_returns_well_formed.
    + destruct (extract_raises_only_for_required_fields _ _ E) as [->| ->]; auto.
Qed.

Lemma complete_sample_values (s : StreamSample) :
  complete_sample s -> sender s <> None ->
  Some (value_or_zero (end_ s)) = end_ s /\ Some (value_or_zero (bytes s)) = bytes s.
Proof. intros H Hs. by destruct (H Hs) as [[x ->] [y ->]]. Qed.

Lemma elem_of_filter_list {A : Type} (p : A -> bool) (l : list A) (x : A) :
  x ∈ List.filter p l <-> p x = true /\ x ∈ l.
Proof.
  rewrite !list_elem_of_In, List.filter_In. tauto.
Qed.

(** X15.  Time and value of a point come from the same sample: entry [k]
    of the sender times and entry [k] of the sender bytes are the [end]
    and the [bytes] of the [k]-th sample whose flag is true, in the order
    of the file, and likewise for the receiver series and the samples
    whose flag is false. *)
Theorem series_pair_time_with_value (data : MeasurementRecord) :
  well_formed data ->
  exists sender_times sender_bytes receiver_times receiver_bytes packet_loss jitter,
    extract_performance_metrics data
    = Ok (sender_times, sender_bytes, receiver_times, receiver_bytes,
          packet_loss, jitter)
    /\ (forall k s, sender_samples (all_streams data) !! k = Some s ->
          sender_times !! k = end_ s /\ sender_bytes !! k = bytes s)
    /\ (forall k s, receiver_samples (all_streams data) !! k = Some s ->
          receiver_times !! k = end_ s /\ receiver_bytes !! k = bytes s).
Proof.
  intros Hwf. rewrite (extract_performance_metrics_spec _ Hwf).
  unfold add_samples. do 6 eexists. split; [reflexivity|]. simpl.
  unfold well_formed in Hwf. rewrite Forall_forall in Hwf.
  split; intros k s Hs; change (map ?f ?l) with (f <$> l);
    rewrite !list_lookup_fmap, Hs; simpl;
    apply list_elem_of_lookup_2, elem_of_filter_list in Hs as [Hflag Hin];
    apply complete_sample_values; [by apply Hwf| |by apply Hwf|];
    by destruct (sender s) as [[|]|].
Qed.

Lemma series_pair_time_with_value_witness :
  exists sender_times sender_bytes receiver_times receiver_bytes packet_loss jitter,
    extract_performance_metrics sample_record
    = Ok (sender_times, sender_bytes, receiver_times, receiver_bytes,
          packet_loss, jitter)
    /\ (forall k s, sender_samples (all_streams sample_record) !! k = Some s ->
          sender_times !! k = end_ s /\ sender_bytes !! k = bytes s)
    /\ (forall k s, receiver_samples (all_streams sample_record) !! k = Some s ->
          receiver_times !! k = end_ s /\ receiver_bytes !! k = bytes s).
Proof. apply (series_pair_time_with_value sample_record), sample_record_well_formed. Defined.

Lemma add_series_nil (acc : Plotter.Series) : add_series acc [] = acc.
Proof.
  destruct acc as [[[[[[[a b] c] d] e] f] g] h]. simpl. by rewrite !app_nil_r.
Qed.

Lemma add_series_app (acc : Plotter.Series) (l k : list StreamSample) :
  add_series (add_series acc l) k = add_series acc (l ++ k).
Proof.
  destruct acc as [[[[[[[a b] c] d] e] f] g] h].
  unfold add_series, sender_samples, receiver_samples, with_field.
  by rewrite !List.filter_app, !map_app, !app_assoc.
Qed.

Lemma plotter_extract_stream_spec (acc : Plotter.Series) (s : StreamSample) :
  complete_sample s -> Plotter.extract_stream acc s = Ok (add_series acc [s]).
Proof.
  intros Hc. unfold Plotter.extract_stream, add_series, sender_samples,
    receiver_samples, with_field.
  destruct acc as [[[[[[[a b] c] d] e] f] g] h]. unfold complete_sample in Hc.
  destruct (sender s) as [[|]|] eqn:Hs; simpl; rewrite ?Hs; simpl.
  - destruct Hc as [[x ->] [y ->]]; [done|]. simpl. by rewrite !app_nil_r.
  - destruct Hc as [[x Hx] [y Hy]]; [done|]. rewrite Hx, Hy. simpl.
    destruct (lost_percent s) as [v|] eqn:El; destruct (jitter_ms s) as [w|] eqn:Ej;
      simpl; by rewrite ?Hx, ?El, ?Ej, ?app_nil_r.
  - by rewrite !app_nil_r.
Qed.

Lemma plotter_extract_spec (data : MeasurementRecord) :
  well_formed data ->
  Plotter.extract data = Ok (add_series ([], [], [], [], [], [], [], []) (all_streams data)).
Proof.
  unfold well_formed, all_streams, Plotter.extract.
  generalize (py_get_or (intervals data) []) as ivs.
  generalize (([], [], [], [], [], [], [], []) : Plotter.Series) as acc.
  intros acc ivs. revert acc. induction ivs as [|iv ivs IH]; intros acc H.
  - simpl. by rewrite add_series_nil.
  - simpl in *. apply Forall_app in H as [H1 H2].
    assert (Hin : forall ss a, Forall complete_sample ss ->
                    for_each Plotter.extract_stream a ss = Ok (add_series a ss)).
    { clear. intros ss a H. revert a. induction H as [|s ss Hs _ IH]; intros a.
      - simpl. by rewrite add_series_nil.
      - simpl. rewrite (plotter_extract_stream_spec _ _ Hs), bind_Ok, IH.
        by rewrite add_series_app. }
    rewrite (Hin _ _ H1), bind_Ok, (IH _ H2). by rewrite add_series_app.
Qed.

Lemma with_field_all (field : StreamSample -> option number) (ss : list StreamSample) :
  Forall (fun s => is_Some (field s)) ss -> with_field field ss = ss.
Proof.
  intros H. unfold with_field. induction H as [|s ss [v Hs] _ IH]; [done|].
  simpl. rewrite Hs. simpl. by rewrite IH.
Qed.

(** X16.  The bitmap plotter reads the same throughput series as the
    ASCII tool.  Its loss and jitter series differ: a receiver sample
    without the field is left out instead of counting as zero, and each
    of the two series has a time axis of its own, of the same length,
    that holds the [end] of the samples kept.  Where every receiver
    sample has both fields the two tools read the same six series. *)
Theorem bitmap_plotter_series (data : MeasurementRecord) :
  well_formed data ->
  exists sender_times sender_bytes receiver_times receiver_bytes packet_loss jitter
         times_loss lost_percent_list times_jitter jitter_ms_list,
    extract_performance_metrics data
    = Ok (sender_times, sender_bytes, receiver_times, receiver_bytes,
          packet_loss, jitter)
    /\ Plotter.extract data
       = Ok (sender_times, sender_bytes, receiver_times, receiver_bytes,
             times_loss, lost_percent_list, times_jitter, jitter_ms_list)
    /\ length times_loss = length lost_percent_list
    /\ length times_jitter = length jitter_ms_list
    /\ lost_percent_list = omap lost_percent (receiver_samples (all_streams data))
    /\ jitter_ms_list = omap jitter_ms (receiver_samples (all_streams data))
    /\ (forall k s,
          with_field lost_percent (receiver_samples (all_streams data)) !! k = Some s ->
          times_loss !! k = end_ s /\ lost_percent_list !! k = lost_percent s)
    /\ (forall k s,
          with_field jitter_ms (receiver_samples (all_streams data)) !! k = Some s ->
          times_jitter !! k = end_ s /\ jitter_ms_list !! k = jitter_ms s)
    /\ (Forall (fun s => is_Some (lost_percent s) /\ is_Some (jitter_ms s))
          (receiver_samples (all_streams data)) ->
        times_loss = receiver_times /\ lost_percent_list = packet_loss
        /\ times_jitter = receiver_times /\ jitter_ms_list = jitter).
Proof.
  intros Hwf. rewrite (extract_performance_metrics_spec _ Hwf).
  rewrite (plotter_extract_spec _ Hwf).
  unfold add_samples, add_series. do 10 eexists.
  split; [reflexivity|]. split; [reflexivity|]. simpl.
  set (receivers := receiver_samples (all_streams data)).
  assert (Hom : forall (field : StreamSample -> option number) (ss : list StreamSample),
             map (fun s => value_or_zero (field s)) (with_field field ss)
             = omap field ss).
  { clear. intros field ss. unfold with_field.
    induction ss as [|s ss IH]; [done|]. simpl.
    destruct (field s) as [v|] eqn:E; simpl; [|done]. rewrite E. simpl. by f_equal. }
  assert (Hrecv : forall (field : StreamSample -> option number) k s,
             with_field field receivers !! k = Some s ->
             Some (value_or_zero (end_ s)) = end_ s
             /\ Some (value_or_zero (field s)) = field s).
  { intros field k s Hs.
    apply list_elem_of_lookup_2, elem_of_filter_list in Hs as [Hkey Hin].
    apply elem_of_filter_list in Hin as [Hflag Hin].
    unfold well_formed in Hwf. rewrite Forall_forall in Hwf.
    split.
    - apply complete_sample_values; [by apply Hwf|]. by destruct (sender s) as [[|]|].
    - by destruct (field s). }
  split; [by rewrite !length_map|]. split; [by rewrite !length_map|].
  split; [apply Hom|]. split; [apply Hom|].
  split; [|split].
  - intros k s Hs. change (map ?f ?l) with (f <$> l).
    rewrite !list_lookup_fmap, Hs. simpl. by apply (Hrecv lost_percent k).
  - intros k s Hs. change (map ?f ?l) with (f <$> l).
    rewrite !list_lookup_fmap, Hs. simpl. by apply (Hrecv jitter_ms k).
  - intros Hall.
    rewrite (with_field_all lost_percent), (with_field_all jitter_ms); [done| |].
    + eapply Forall_impl; [exact Hall|]. by intros s [_ ?].
    + eapply Forall_impl; [exact Hall|]. by intros s [? _].
Qed.

Lemma bitmap_plotter_series_witness :
  exists sender_times sender_bytes receiver_times receiver_bytes packet_loss jitter
         times_loss lost_percent_list times_jitter jitter_ms_list,
    extract_performance_metrics sample_record
    = Ok (sender_times, sender_bytes, receiver_times, receiver_bytes,
          packet_loss, jitter)
    /\ Plotter.extract sample_record
       = Ok (sender_times, sender_bytes, receiver_times, receiver_bytes,
             times_loss, lost_percent_list, times_jitter, jitter_ms_list)
    /\ length times_loss = length lost_percent_list
    /\ length times_jitter = length jitter_ms_list
    /\ lost_percent_list = omap lost_percent (receiver_samples (all_streams sample_record))
    /\ jitter_ms_list = omap jitter_ms (receiver_samples (all_streams sample_record))
    /\ (forall k s,
          with_field lost_percent (receiver_samples (all_streams sample_record)) !! k
          = Some s ->
          times_loss !! k = end_ s /\ lost_percent_list !! k = lost_percent s)
    /\ (forall k s,
          with_field jitter_ms (receiver_samples (all_streams sample_record)) !! k
          = Some s ->
          times_jitter !! k = end_ s /\ jitter_ms_list !! k = jitter_ms s)
    /\ (Forall (fun s => is_Some (lost_percent s) /\ is_Some (jitter_ms s))
          (receiver_samples (all_streams sample_record)) ->
        times_loss = receiver_times /\ lost_percent_list = packet_loss
        /\ times_jitter = receiver_times /\ jitter_ms_list = jitter).
Proof. apply (bitmap_plotter_series sample_record), sample_record_well_formed. Defined.

(** ** Files, the engine and the process *)

(** X17.  Running the engine never aborts the caller: the script file is
    written, the engine is run on it, and the call returns a boolean.  It
    returns [True] exactly when the engine gave output, and then the last
    thing it does is write the post-processed chart; otherwise it prints
    one error, for an engine that failed or for an engine that is not
    there, and writes no chart. *)
Theorem execute_gnuplot_always_returns (env : Env) (cfg : Config)
    (script_content script_file output_file y_label x_label : str) :
  exists ok rest,
    _execute_gnuplot env cfg script_content script_file output_file y_label x_label
    = (WriteFile script_file script_content :: RunGnuplot script_file :: rest, Done ok)
    /\ match gnuplot env script_file script_content with
       | EngineOutput stdout =>
           ok = true
           /\ exists processed_output,
                _post_process_ascii_output cfg stdout y_label x_label = Ok processed_output
                /\ rest = [WriteFile output_file processed_output]
       | EngineFailed =>
           ok = false /\ rest = [Print (MsgErrorExecutingGnuplot script_file)]
       | EngineNotFound => ok = false /\ rest = [Print MsgGnuplotNotFound]
       end.
Proof.
  unfold _execute_gnuplot, run_gnuplot.
  destruct (gnuplot env script_file script_content) as [| |stdout].
  - by exists false, [Print MsgGnuplotNotFound].
  - by exists false, [Print (MsgErrorExecutingGnuplot script_file)].
  - exists true.
    exists [WriteFile output_file
              (join_nl (metadata_pass cfg y_label x_label
                          (decorated_spec cfg (split_nl stdout) y_label)))].
    split.
    + cbv [io_bind emit when print raise lift try_except io_ret].
      rewrite post_process_spec. reflexivity.
    + split; [done|]. eexists. split; [apply post_process_spec|reflexivity].
Qed.

Lemma split_nl_line (l rest : str) :
  NL ∉ l -> split_nl (l ++ NL :: rest) = l :: split_nl rest.
Proof.
  induction l as [|c l IH]; intros H; simpl.
  - reflexivity.
  - apply not_elem_of_cons in H as [Hc Hl].
    assert (E : char_eqb c NL = false) by (apply char_eqb_neq; congruence).
    rewrite E, IH by done. done.
Qed.

Lemma data_line_cases (env : Env) (cfg : Config) (x y : number) :
  match data_line env cfg (x, y) with
  | Ok row =>
      exists x_text y_text,
        format_fixed env (precision_digits cfg) x = Ok x_text
        /\ format_fixed env (precision_digits cfg) y = Ok y_text
        /\ row = x_text ++ lit " " ++ y_text
  | Raise e =>
      format_fixed env (precision_digits cfg) x = Raise e
      \/ exists x_text,
           format_fixed env (precision_digits cfg) x = Ok x_text
           /\ format_fixed env (precision_digits cfg) y = Raise e
  end.
Proof.
  unfold data_line. cbn [fst snd].
  destruct (format_fixed env (precision_digits cfg) x) as [x_text|e]; [|by left].
  rewrite bind_Ok.
  destruct (format_fixed env (precision_digits cfg) y) as [y_text|e].
  - rewrite bind_Ok. by eexists _, _.
  - right. by eexists.
Qed.

Lemma write_rows_returns (env : Env) (cfg : Config) (points : list (number * number))
    (rows : list str) (written : str) :
  Forall2 (fun point row => data_line env cfg point = Ok row) points rows ->
  write_rows env (precision_digits cfg) points written
  = (written ++ data_text rows, None).
Proof.
  intros H. revert written.
  induction H as [|[x y] row points rows Hrow _ IH]; intros written.
  - simpl. by rewrite app_nil_r.
  - pose proof (data_line_cases env cfg x y) as Hc. rewrite Hrow in Hc.
    destruct Hc as (x_text & y_text & Hx & Hy & ->).
    cbn [write_rows]. rewrite Hx, Hy, IH. unfold data_text. cbn [map concat].
    by rewrite <- !app_assoc.
Qed.

Lemma write_rows_raises (env : Env) (cfg : Config)
    (before after : list (number * number)) (point : number * number)
    (rows : list str) (e : exn) (written : str) :
  Forall2 (fun point row => data_line env cfg point = Ok row) before rows ->
  data_line env cfg point = Raise e ->
  write_rows env (precision_digits cfg) (before ++ point :: after) written
  = (written ++ data_text rows, Some e).
Proof.
  intros H He. revert written.
  induction H as [|[x y] row points rows Hrow _ IH]; intros written.
  - destruct point as [x y]. pose proof (data_line_cases env cfg x y) as Hc.
    rewrite He in Hc. cbn [app write_rows]. unfold data_text. cbn [map concat].
    rewrite app_nil_r. destruct Hc as [Hx|(x_text & Hx & Hy)].
    + by rewrite Hx.
    + by rewrite Hx, Hy.
  - pose proof (data_line_cases env cfg x y) as Hc. rewrite Hrow in Hc.
    destruct Hc as (x_text & y_text & Hx & Hy & ->).
    cbn [app write_rows]. rewrite Hx, Hy, IH. unfold data_text. cbn [map concat].
    by rewrite <- !app_assoc.
Qed.

Lemma split_nl_data_text (rows : list str) :
  Forall (fun row => NL ∉ row) rows -> split_nl (data_text rows) = rows ++ [[]].
Proof.
  unfold data_text. induction 1 as [|row rows Hrow _ IH]; [done|].
  cbn [map concat app]. rewrite <- app_assoc. cbn [app].
  by rewrite split_nl_line, IH.
Qed.

(** X18.  The data file is written point by point, the points being the
    pairs of [zip], the x value formatted before the y value.  When every
    value can be formatted, the file holds one line per point, in order:
    the two texts with one blank between them and a line feed after them.
    At the first value the formatter raises on, the file is closed with
    the lines of the points before it and the exception leaves the
    function.  Where the texts hold no line feed, splitting the file at
    the line feeds gives the lines back, and an empty last piece. *)
Theorem data_file_lines (env : Env) (cfg : Config) (filename : str)
    (x_data y_data : list number) :
  (forall rows,
     Forall2 (fun point row => data_line env cfg point = Ok row)
       (zip x_data y_data) rows ->
     _write_data_file env cfg filename x_data y_data
     = ([WriteFile filename (data_text rows)], Done tt)
     /\ length rows = Nat.min (length x_data) (length y_data))
  /\ (forall before point after rows e,
        zip x_data y_data = before ++ point :: after ->
        Forall2 (fun point row => data_line env cfg point = Ok row) before rows ->
        data_line env cfg point = Raise e ->
        _write_data_file env cfg filename x_data y_data
        = ([WriteFile filename (data_text rows)], Abort (Exception e)))
  /\ (forall rows,
        Forall (fun row => NL ∉ row) rows -> split_nl (data_text rows) = rows ++ [[]]).
Proof.
  split; [|split].
  - intros rows Hrows. split.
    + unfold _write_data_file. by rewrite (write_rows_returns _ _ _ _ _ Hrows).
    + apply Forall2_length in Hrows. by rewrite <- Hrows, length_zip.
  - intros before point after rows e Hzip Hrows He.
    unfold _write_data_file. rewrite Hzip.
    by rewrite (write_rows_raises _ _ _ _ _ _ _ _ Hrows He).
  - apply split_nl_data_text.
Qed.

Lemma main_unreadable (env : Env) (cfg : Config) (argv : list str) :
  read_json env (input_path cfg argv) <> FileMissing
  \/ main env cfg argv
     = (banner cfg argv
          ++ [ Mkdir (default_output_dir cfg);
               Print (MsgJsonFileNotFound (input_path cfg argv)) ],
        Abort (SystemExit 1)).
Proof.
  destruct (read_json env (input_path cfg argv)) eqn:Hread; [right|by left|by left].
  unfold main. fold (input_path cfg argv).
  unfold __init__, _load_json_data. rewrite Hread.
  replace (if bool_decide (default_output_dir cfg = []) then default_output_dir cfg
           else default_output_dir cfg)
    with (default_output_dir cfg) by (by destruct (bool_decide _)).
  unfold banner. destruct (verbose_output cfg); reflexivity.
Qed.

Lemma main_malformed (env : Env) (cfg : Config) (argv : list str) :
  read_json env (input_path cfg argv) = FileMalformed ->
  main env cfg argv
  = (banner cfg argv ++ [Mkdir (default_output_dir cfg); Print MsgInvalidJsonFormat],
     Abort (SystemExit 1)).
Proof.
  intros Hread. unfold main. fold (input_path cfg argv).
  unfold __init__, _load_json_data. rewrite Hread.
  replace (if bool_decide (default_output_dir cfg = []) then default_output_dir cfg
           else default_output_dir cfg)
    with (default_output_dir cfg) by (by destruct (bool_decide _)).
  unfold banner. destruct (verbose_output cfg); reflexivity.
Qed.

Lemma main_ill_formed (env : Env) (cfg : Config) (argv : list str)
    (record : MeasurementRecord) (e : exn) :
  read_json env (input_path cfg argv) = FileParsed record ->
  is_Some (intervals record) ->
  extract_performance_metrics record = Raise e ->
  main env cfg argv
  = (banner cfg argv
       ++ Mkdir (default_output_dir cfg)
       :: (if verbose_output cfg then [Print MsgExtracting] else [])
       ++ [Print (MsgFatalError e)],
     Abort (SystemExit 1)).
Proof.
  intros Hread [ivs Hivs] He. unfold main. fold (input_path cfg argv).
  unfold __init__, _load_json_data, generate_ascii_graphs. rewrite Hread, Hivs.
  replace (if bool_decide (default_output_dir cfg = []) then default_output_dir cfg
           else default_output_dir cfg)
    with (default_output_dir cfg) by (by destruct (bool_decide _)).
  cbn [try_except io_ret emit io_bind app config data]. rewrite He.
  unfold banner. destruct (verbose_output cfg); reflexivity.
Qed.

Lemma formattable_or_not (env : Env) (self : IperfDataProcessor) :
  all_formattable env self
  \/ Exists (fun d => no_data d = false /\ formattable env self d = false)
       (datasets_of self).
Proof.
  unfold all_formattable, attempted.
  induction (datasets_of self) as [|d ds [IH|IH]]; cbn [List.filter].
  - left. constructor.
  - destruct (no_data d) eqn:Hnd; cbn [negb]; [by left|].
    destruct (formattable env self d) eqn:Hf.
    + left. by constructor.
    + right. by constructor.
  - right. by apply Exists_cons_tl.
Qed.

Lemma formattable_not_both (env : Env) (self : IperfDataProcessor) :
  all_formattable env self ->
  Exists (fun d => no_data d = false /\ formattable env self d = false)
    (datasets_of self) ->
  False.
Proof.
  intros Hall Hex. apply attempted_formattable in Hall.
  rewrite Forall_forall in Hall. apply Exists_exists in Hex as (d & Hd & Hnd & Hf).
  destruct (Hall d Hd); congruence.
Qed.

(** A value that cannot be formatted ends the run with a fatal error. *)
Lemma main_unformattable (env : Env) (cfg : Config) (argv : list str)
    (record : MeasurementRecord) :
  read_json env (input_path cfg argv) = FileParsed record ->
  is_Some (intervals record) ->
  well_formed record ->
  Exists (fun d => no_data d = false
                   /\ formattable env (processor_of env cfg argv record) d = false)
    (datasets_of (processor_of env cfg argv record)) ->
  exists t e,
    main env cfg argv = (t ++ [Print (MsgFatalError e)], Abort (SystemExit 1)).
Proof.
  intros Hread [ivs Hivs] Hwf Hex. unfold main. fold (input_path cfg argv).
  unfold __init__, _load_json_data, generate_ascii_graphs. rewrite Hread, Hivs.
  replace (if bool_decide (default_output_dir cfg = []) then default_output_dir cfg
           else default_output_dir cfg)
    with (default_output_dir cfg) by (by destruct (bool_decide _)).
  cbn [try_except io_ret emit io_bind app config data].
  rewrite (extract_performance_metrics_spec _ Hwf). cbn [lift]. unfold io_ret at 1.
  change {| config := cfg; json_file_path := input_path cfg argv;
            output_dir := _; json_name := _; data := record |}
    with (processor_of env cfg argv record).
  destruct (render_loop_abort env (processor_of env cfg argv record) (verbose_output cfg)
              _ 0 Hex) as (t & e & Hloop).
  unfold datasets_of in Hloop. cbn [config data processor_of] in Hloop.
  destruct (verbose_output cfg);
    cbn [when print emit io_bind io_ret app]; rewrite Hloop; cbn [io_bind app].
  - exists ([ Print MsgBannerTitle; Print MsgBannerRule;
              Print (MsgInputFile (input_path cfg argv));
              Print (MsgOutputDirectory (default_output_dir cfg));
              Print (MsgGraphDimensions (graph_width cfg) (graph_height cfg));
              Print (MsgGridEnabled (enable_grid cfg));
              Print (MsgLegendEnabled (enable_legend cfg)); Print MsgBlank;
              Mkdir (default_output_dir cfg); Print MsgExtracting ] ++ t), e.
    cbv [try_except sys_exit print emit io_bind]. cbn [app]. reflexivity.
  - exists (Mkdir (default_output_dir cfg) :: t), e.
    cbv [try_except sys_exit print emit io_bind]. cbn [app]. reflexivity.
Qed.

(** X19.  The exit status of a run whose input file is missing, is not
    JSON, or holds a record of the interface shape (the output directory
    can be created and files opened).  The status is 0 or 1.  It is 0
    exactly when the file parses, has the key [intervals], every sample
    with a direction flag has its [end] and [bytes], and every value of
    the enabled metrics can be formatted.  When it is 1 the last thing
    printed is the error: file not found, invalid JSON, the missing
    section, or a fatal error.  Unless the record was loaded and its
    series extracted, no file has been written and the engine has not
    run. *)
Theorem main_exit_status (env : Env) (cfg : Config) (argv : list str) :
  let run := main env cfg argv in
  (exit_status run = 0 \/ exit_status run = 1)
  /\ (exit_status run = 0 <->
      exists data, read_json env (input_path cfg argv) = FileParsed data
                   /\ is_Some (intervals data) /\ well_formed data
                   /\ all_formattable env (processor_of env cfg argv data))
  /\ (exit_status run = 1 ->
      exists m, last (trace run) = Some (Print m)
                /\ (m = MsgJsonFileNotFound (input_path cfg argv)
                    \/ m = MsgInvalidJsonFormat
                    \/ m = MsgError ValueError
                    \/ exists e, m = MsgFatalError e))
  /\ ((forall data, read_json env (input_path cfg argv) = FileParsed data ->
                    is_Some (intervals data) -> ~ well_formed data) ->
      written_files (trace run) = [] /\ engine_runs (trace run) = []).
Proof.
  intros run. subst run.
  destruct (banner_shows_nothing cfg argv) as (Hw & Hr & _ & _).
  destruct (read_json env (input_path cfg argv)) as [| |data] eqn:Hread.
  - destruct (main_unreadable env cfg argv) as [H| ->]; [done|].
    unfold trace, exit_status, written_files, engine_runs in *. cbn [fst snd].
    split; [by right|]. split; [split; [done|by intros (d & ? & _)]|].
    rewrite !omap_app, Hw, Hr, last_app. split; [|done]. intros _. eauto.
  - rewrite (main_malformed env cfg argv Hread).
    unfold trace, exit_status, written_files, engine_runs in *. cbn [fst snd].
    split; [by right|]. split; [split; [done|by intros (d & ? & _)]|].
    rewrite !omap_app, Hw, Hr, last_app. split; [|done]. intros _. eauto.
  - destruct (intervals data) as [ivs|] eqn:Hivs.
    + assert (Hsome : is_Some (intervals data)) by (by eexists).
      destruct (extract_performance_metrics data) as [m|e] eqn:He.
      * pose proof (extract_returns_well_formed _ _ He) as Hwf.
        destruct (formattable_or_not env (processor_of env cfg argv data)) as [Hfmt|Hex].
        -- rewrite (main_spec env cfg argv data Hread Hsome Hwf Hfmt).
           unfold trace, exit_status. cbn [fst snd].
           split; [by left|]. split; [split; [|done]|split; [done|]].
           ++ intros _. by exists data.
           ++ intros Hnot. by destruct (Hnot data eq_refl Hsome).
        -- destruct (main_unformattable env cfg argv data Hread Hsome Hwf Hex)
             as (t & e & ->).
           unfold trace, exit_status. cbn [fst snd].
           split; [by right|]. split; [split; [done|]|split].
           ++ intros (d & [= <-] & _ & _ & Hfmt).
              destruct (formattable_not_both _ _ Hfmt Hex).
           ++ intros _. exists (MsgFatalError e). rewrite last_snoc.
              split; [done|]. do 3 right. by exists e.
           ++ intros Hnot. by destruct (Hnot data eq_refl Hsome).
      * rewrite (main_ill_formed env cfg argv data e Hread Hsome He).
        unfold trace, exit_status, written_files, engine_runs in *. cbn [fst snd].
        split; [by right|]. split; [split; [done|]|split].
        -- intros (d & [= <-] & _ & Hwf & _).
           by rewrite (extract_performance_metrics_spec _ Hwf) in He.
        -- intros _. exists (MsgFatalError e). split; [|do 3 right; by exists e].
           set (v := if verbose_output cfg then [Print MsgExtracting] else []).
           replace (banner cfg argv ++ Mkdir (default_output_dir cfg)
                      :: v ++ [Print (MsgFatalError e)])
             with ((banner cfg argv ++ Mkdir (default_output_dir cfg) :: v)
                     ++ [Print (MsgFatalError e)])
             by (by rewrite <- app_assoc).
           apply last_snoc.
        -- intros _. rewrite !omap_app, Hw, Hr. by destruct (verbose_output cfg).
    + rewrite (main_missing_intervals env cfg argv data Hread Hivs).
      unfold trace, exit_status, written_files, engine_runs in *.
      cbn [fst snd processor_of output_dir].
      split; [by right|]. split; [split; [done|]|].
      * intros (d & [= <-] & [? Hs] & _). congruence.
      * rewrite !omap_app, Hw, Hr, last_app. split; [|done]. intros _. eauto 6.
Qed.

Lemma render_events_writes (env : Env) (self : IperfDataProcessor) (verbose : bool)
    (d : Dataset) :
  written_files (render_events env self verbose d)
  = if no_data d then []
    else if formattable env self d then artifacts_of env self d
         else [artifact_path env self d (lit ".dat")].
Proof.
  unfold render_events, artifacts_of, rendered. destruct (no_data d); [by destruct verbose|].
  destruct (formattable env self d); [|by destruct verbose].
  destruct (engine_on env self d); by destruct verbose.
Qed.

Lemma generate_events_writes (env : Env) (self : IperfDataProcessor) :
  all_formattable env self ->
  written_files (generate_events env self)
  = concat (map (artifacts_of env self) (attempted self)).
Proof.
  intros Hfmt. apply attempted_formattable in Hfmt.
  unfold generate_events, written_files. rewrite !omap_app.
  assert (Hw : forall d,
             omap (fun e => match e with WriteFile path _ => Some path | _ => None end)
               (render_events env self (verbose_output (config self)) d)
             = if no_data d then []
               else if formattable env self d then artifacts_of env self d
                    else [artifact_path env self d (lit ".dat")])
    by (intros d; apply render_events_writes).
  rewrite (omap_concat_map _ _ _ _ Hw).
  assert (Hds : forall ds,
             Forall (fun d => no_data d = true \/ formattable env self d = true) ds ->
             concat (map (fun d => if no_data d then []
                                   else if formattable env self d
                                        then artifacts_of env self d
                                        else [artifact_path env self d (lit ".dat")]) ds)
             = concat (map (artifacts_of env self)
                         (List.filter (fun d => negb (no_data d)) ds))).
  { clear. induction 1 as [|d ds Hd _ IH]; [done|].
    cbn [map concat List.filter]. rewrite IH.
    destruct (no_data d); cbn [negb map concat app]; [done|].
    by destruct Hd as [?| ->]. }
  rewrite Hds by done.
  destruct (verbose_output (config self)); simpl; by rewrite ?app_nil_r.
Qed.

Lemma artifacts_count (env : Env) (self : IperfDataProcessor) (ds : list Dataset) :
  len (concat (map (artifacts_of env self)
                 (List.filter (fun d => negb (no_data d)) ds)))
  = 2 * len (List.filter (fun d => negb (no_data d)) ds) + successes env self ds.
Proof.
  unfold successes. induction ds as [|d ds IH]; [done|].
  cbn [List.filter]. destruct (no_data d); cbn [negb andb]; [done|].
  cbn [map concat]. rewrite len_app, IH, len_cons. unfold artifacts_of.
  destruct (rendered env self d); rewrite ?len_cons; unfold len; simpl; lia.
Qed.

(** X20.  When the input record loads and every value of the enabled
    metrics can be formatted, the files written are, for every enabled
    metric that has data and in the order of the metrics, its data file,
    then its script, then its chart if the engine gave output: two files
    per metric attempted and one more per chart that came out, and
    nothing for a metric without data. *)
Theorem files_written_per_metric (env : Env) (cfg : Config) (argv : list str)
    (record : MeasurementRecord) :
  read_json env (input_path cfg argv) = FileParsed record ->
  is_Some (intervals record) ->
  well_formed record ->
  all_formattable env (processor_of env cfg argv record) ->
  let self := processor_of env cfg argv record in
  written_files (trace (main env cfg argv))
  = concat (map (artifacts_of env self) (attempted self))
  /\ len (written_files (trace (main env cfg argv)))
     = 2 * len (attempted self) + successes env self (datasets_of self).
Proof.
  intros Hread Hivs Hwf Hfmt self.
  assert (E : written_files (trace (main env cfg argv))
              = concat (map (artifacts_of env self) (attempted self))).
  { rewrite (main_spec env cfg argv record Hread Hivs Hwf Hfmt).
    destruct (banner_shows_nothing cfg argv) as (Hw & _).
    unfold trace. cbn [fst]. unfold written_files in *.
    rewrite omap_app, Hw. cbn [omap app]. by apply generate_events_writes. }
  split; [exact E|]. rewrite E. apply artifacts_count.
Qed.

Lemma files_written_per_metric_witness :
  let env := env_with sample_record flaky_engine in
  let self := processor_of env default_config [] sample_record in
  written_files (trace (main env default_config []))
  = concat (map (artifacts_of env self) (attempted self))
  /\ len (written_files (trace (main env default_config [])))
     = 2 * len (attempted self) + successes env self (datasets_of self).
Proof.
  apply (files_written_per_metric (env_with sample_record flaky_engine) default_config []
           sample_record);
    [reflexivity | by eexists | apply sample_record_well_formed
    | apply env_with_formattable].
Defined.

Lemma filter_length_le {A : Type} (p : A -> bool) (l : list A) :
  len (List.filter p l) <= len l.
Proof.
  unfold len. induction l as [|x l IH]; simpl; [lia|]. destruct (p x); simpl; lia.
Qed.

Lemma enabled_datasets_at_most_four (cfg : Config) (m : Metrics) :
  len (enabled_datasets cfg m) <= 4.
Proof.
  unfold enabled_datasets, all_datasets. destruct m as [[[[[a b] c] d] e] f].
  unfold len. rewrite length_map.
  etransitivity; [apply inj_le, List.filter_length_le|]. simpl. lia.
Qed.

(** X21.  With verbose output on, the input record loaded and every
    value of the enabled metrics formatted, the run ends with the tally
    and the name of the output directory.  The tally
    counts the charts that came out, that is the enabled metrics with
    data whose engine run gave output, against all enabled metrics, those
    without data included; there are at most four. *)
Theorem tally_closes_the_run (env : Env) (cfg : Config) (argv : list str)
    (record : MeasurementRecord) :
  read_json env (input_path cfg argv) = FileParsed record ->
  is_Some (intervals record) ->
  well_formed record ->
  all_formattable env (processor_of env cfg argv record) ->
  verbose_output cfg = true ->
  let self := processor_of env cfg argv record in
  let successful_graphs := len (List.filter (rendered env self) (attempted self)) in
  (exists before,
     trace (main env cfg argv)
     = before ++ [ Print (MsgProcessingComplete successful_graphs (len (datasets_of self)));
                   Print (MsgGraphsSavedIn (default_output_dir cfg)) ])
  /\ 0 <= successful_graphs <= len (attempted self)
  /\ len (attempted self) <= len (datasets_of self) <= 4.
Proof.
  intros Hread Hivs Hwf Hfmt Hverbose self n.
  assert (Hn : n = successes env self (datasets_of self)).
  { subst n. unfold successes, attempted. f_equal.
    induction (datasets_of self) as [|d ds IH]; [done|]. cbn [List.filter].
    destruct (no_data d); cbn [negb andb List.filter]; [done|].
    destruct (rendered env self d); by rewrite IH. }
  split; [|split; [split|split]].
  - rewrite (main_spec env cfg argv record Hread Hivs Hwf Hfmt).
    unfold trace, generate_events. cbn [fst]. fold self.
    replace (verbose_output (config self)) with true by (by rewrite <- Hverbose).
    rewrite <- Hn. eexists. rewrite app_comm_cons, !app_assoc. reflexivity.
  - apply len_nonneg.
  - apply filter_length_le.
  - apply filter_length_le.
  - apply enabled_datasets_at_most_four.
Qed.

Lemma tally_closes_the_run_witness :
  let env := env_with sample_record flaky_engine in
  let self := processor_of env default_config [] sample_record in
  let successful_graphs := len (List.filter (rendered env self) (attempted self)) in
  (exists before,
     trace (main env default_config [])
     = before ++ [ Print (MsgProcessingComplete successful_graphs (len (datasets_of self)));
                   Print (MsgGraphsSavedIn (default_output_dir default_config)) ])
  /\ 0 <= successful_graphs <= len (attempted self)
  /\ len (attempted self) <= len (datasets_of self) <= 4.
Proof.
  apply (tally_closes_the_run (env_with sample_record flaky_engine) default_config []
           sample_record);
    [reflexivity | by eexists | apply sample_record_well_formed
    | apply env_with_formattable | reflexivity].
Defined.

Lemma render_events_quiet (env : Env) (self : IperfDataProcessor) (d : Dataset) :
  printed (render_events env self false d)
  = if no_data d then []
    else if formattable env self d
         then match failure_report_of env self d with Some m => [m] | None => [] end
         else [].
Proof.
  unfold render_events, failure_report_of. destruct (no_data d); [done|].
  destruct (formattable env self d); [|done].
  by destruct (engine_on env self d).
Qed.

(** X22.  With verbose output off, the input record loaded and every
    value of the enabled metrics formatted, the one thing [main] still
    prints, from the resolved configuration on, is the error of an engine
    run that failed: one
    message per enabled metric with data whose run failed or found no
    engine, in the order of the metrics, and nothing else, neither banner
    nor progress nor tally. *)
Theorem quiet_run_prints_engine_errors_only (env : Env) (cfg : Config) (argv : list str)
    (record : MeasurementRecord) :
  read_json env (input_path cfg argv) = FileParsed record ->
  is_Some (intervals record) ->
  well_formed record ->
  all_formattable env (processor_of env cfg argv record) ->
  verbose_output cfg = false ->
  let self := processor_of env cfg argv record in
  printed (trace (main env cfg argv))
  = omap (failure_report_of env self) (attempted self).
Proof.
  intros Hread Hivs Hwf Hfmt Hquiet self.
  rewrite (main_spec env cfg argv record Hread Hivs Hwf Hfmt).
  unfold trace, banner, generate_events. cbn [fst]. fold self.
  replace (verbose_output (config self)) with false by (by rewrite <- Hquiet).
  rewrite Hquiet. cbn [app]. rewrite app_nil_r.
  assert (Hmk : forall dir t, printed (Mkdir dir :: t) = printed t) by done.
  rewrite Hmk. unfold printed at 1.
  rewrite (omap_concat_map _ _ _ _ (render_events_quiet env self)).
  rewrite concat_map_formattable by (by apply attempted_formattable).
  by rewrite concat_map_option.
Qed.

Lemma quiet_run_prints_engine_errors_only_witness :
  let env := env_with sample_record flaky_engine in
  let cfg := with_verbose default_config false in
  let self := processor_of env cfg [] sample_record in
  printed (trace (main env cfg []))
  = omap (failure_report_of env self) (attempted self).
Proof.
  apply (quiet_run_prints_engine_errors_only (env_with sample_record flaky_engine)
           (with_verbose default_config false) [] sample_record);
    [reflexivity | by eexists | apply sample_record_well_formed
    | apply env_with_formattable | reflexivity].
Defined.

(** X23.  Every dataset the extractor's series are turned into has as
    many x values as y values, so that writing its data file drops no
    point: the file gets one line per entry of the series.  There are at
    most four datasets. *)
Theorem datasets_pair_every_point (cfg : Config) (record : MeasurementRecord)
    (m : Metrics) :
  extract_performance_metrics record = Ok m ->
  Forall (fun d => length (x_data d) = length (y_data d)
                   /\ len (zip (x_data d) (y_data d)) = len (y_data d))
    (enabled_datasets cfg m)
  /\ len (enabled_datasets cfg m) <= 4.
Proof.
  intros He. split; [|apply enabled_datasets_at_most_four].
  pose proof (extract_returns_well_formed _ _ He) as Hwf.
  rewrite (extract_performance_metrics_spec _ Hwf) in He. injection He as <-.
  unfold add_samples, enabled_datasets, all_datasets. cbn [app].
  assert (Hz : forall (xs ys : list number),
             length xs = length ys ->
             length xs = length ys /\ len (zip xs ys) = len ys).
  { intros xs ys H. split; [done|]. unfold len. rewrite length_zip. lia. }
  destruct (track_sender_bytes cfg), (track_receiver_bytes cfg),
    (track_packet_loss cfg), (track_jitter cfg); cbn [List.filter snd fst map];
    repeat constructor; cbn [x_data y_data]; apply Hz; by rewrite !length_map.
Qed.

Lemma datasets_pair_every_point_witness :
  exists m,
    extract_performance_metrics sample_record = Ok m
    /\ Forall (fun d => length (x_data d) = length (y_data d)
                        /\ len (zip (x_data d) (y_data d)) = len (y_data d))
         (enabled_datasets default_config m)
    /\ len (enabled_datasets default_config m) <= 4.
Proof.
  eexists. split; [reflexivity|].
  apply (datasets_pair_every_point default_config sample_record). reflexivity.
Defined.

(** X24.  The x-axis label never reaches the engine: the script is the
    same whatever the label.  The label is used for the description row
    below the chart and for nothing else, so that with the axis
    descriptions switched off, as they are by default, a dataset is
    rendered in the same way, event for event, whatever its x-axis
    label. *)
Theorem x_label_shown_only_below (env : Env) (self : IperfDataProcessor)
    (verbose : bool) (successful_graphs : Z) (d : Dataset) (x_label' : str) :
  _generate_gnuplot_script (config self) (artifact_path env self d (lit ".dat"))
    (title d) x_label' (y_label d)
  = _generate_gnuplot_script (config self) (artifact_path env self d (lit ".dat"))
      (title d) (x_label d) (y_label d)
  /\ (show_axis_info_below (config self) = false ->
      render_dataset env self verbose successful_graphs (with_x_label d x_label')
      = render_dataset env self verbose successful_graphs d).
Proof.
  split; [reflexivity|]. intros Hmeta. rewrite !render_dataset_spec.
  unfold render_events, rendered, engine_on, script_of, artifact_path, no_data,
    with_x_label, metadata_pass.
  cbn [metric_name x_data y_data title x_label y_label]. rewrite Hmeta.
  reflexivity.
Qed.

(** X25.  The text box of the bitmap plotter.  The text has four lines:
    the time, the protocol, and the two hosts of the connection shown,
    with [None] for a missing time or host and [N/A] for a missing
    protocol.  The connection shown is the first of the [connected] list,
    any further one being ignored; without a [start] section or without
    the key [connected] it is a connection with no host.  With a
    [connected] list that is there and empty the script stops with an
    [IndexError], and it raises in no other case. *)
Theorem info_text_first_connection (start_field : option Plotter.Start) :
  let start :=
    py_get_or start_field
      {| Plotter.timestamp := None; Plotter.test_start := None;
         Plotter.connected := None |} in
  let text_for (shown_connection : Plotter.Connection) : str :=
    lit "Time: "
      ++ Plotter.shown
           (Plotter.time (py_get_or (Plotter.timestamp start) {| Plotter.time := None |}))
      ++ [NL]
      ++ lit "Protocol: "
      ++ py_get_or
           (Plotter.protocol (py_get_or (Plotter.test_start start)
                                {| Plotter.protocol := None |}))
           (lit "N/A") ++ [NL]
      ++ lit "Local Host: " ++ Plotter.shown (Plotter.local_host shown_connection) ++ [NL]
      ++ lit "Remote Host: " ++ Plotter.shown (Plotter.remote_host shown_connection) in
  Plotter.info_text start_field
  = match Plotter.connected start with
    | None =>
        Ok (text_for {| Plotter.local_host := None; Plotter.remote_host := None |})
    | Some [] => Raise IndexError
    | Some (first :: others) => Ok (text_for first)
    end
  /\ (Plotter.info_text start_field = Raise IndexError
      <-> exists start', start_field = Some start' /\ Plotter.connected start' = Some [])
  /\ (forall e, Plotter.info_text start_field = Raise e -> e = IndexError)
  /\ Plotter.info_text None
     = Ok (lit "Time: None" ++ [NL] ++ lit "Protocol: N/A" ++ [NL]
             ++ lit "Local Host: None" ++ [NL] ++ lit "Remote Host: None").
Proof.
  intros start text_for. subst start text_for. unfold Plotter.info_text.
  destruct start_field as [start|]; cbn [py_get_or].
  - destruct (Plotter.connected start) as [[|first others]|] eqn:Hc; cbn [py_get_or].
    + split; [reflexivity|]. split; [split; [intros _; by exists start|done]|].
      split; [by intros e [= <-]|reflexivity].
    + split; [reflexivity|].
      split; [split; [done|intros (s & [= <-] & H); by rewrite Hc in H]|].
      split; [done|reflexivity].
    + split; [reflexivity|].
      split; [split; [done|intros (s & [= <-] & H); by rewrite Hc in H]|].
      split; [done|reflexivity].
  - split; [reflexivity|]. split; [split; [done|by intros (s & ? & _)]|].
    split; [done|reflexivity].
Qed.

Lemma main_reads_input_path_only (env : Env) (cfg : Config) (argv argv' : list str) :
  input_path cfg argv = input_path cfg argv' -> main env cfg argv = main env cfg argv'.
Proof.
  intros H. unfold main. fold (input_path cfg argv). fold (input_path cfg argv').
  by rewrite H.
Qed.

(** X26.  Of the command line only the first argument counts: it is the
    input file, the configured default standing in when there is none, and
    whatever follows it changes nothing in the run. *)
Theorem only_first_argument_counts (env : Env) (cfg : Config) (prog path : str)
    (others : list str) :
  input_path cfg (prog :: path :: others) = path
  /\ input_path cfg [prog] = default_input_file cfg
  /\ input_path cfg [] = default_input_file cfg
  /\ main env cfg (prog :: path :: others) = main env cfg [prog; path]
  /\ main env cfg [prog] = main env cfg [].
Proof.
  assert (Hpath : input_path cfg (prog :: path :: others) = path).
  { unfold input_path. rewrite !len_cons.
    pose proof (len_nonneg others) as Hn.
    replace (1 <? 1 + (1 + len others)) with true by (symmetry; apply Z.ltb_lt; lia).
    reflexivity. }
  split; [exact Hpath|]. split; [reflexivity|]. split; [reflexivity|]. split.
  - apply main_reads_input_path_only. by rewrite Hpath.
  - by apply main_reads_input_path_only.
Qed.
